(** * hrut journaling client: scope resolution, prompt selection, overview

    A shallow embedding of the TypeScript client (the two revisions of
    [main.ts] found in the repository) together with the parts of the
    JavaScript [Date] object and of the date-fns library that the client
    calls.  Dates are local time values in milliseconds, exactly as the
    ECMAScript specification computes with them; the time zone of the
    browser is a parameter wherever the client reads [getTime()]. *)

From Stdlib Require Import ZArith List String Ascii Bool Lia.
From Stdlib Require Import QArith Qround DecimalString.
From Stdlib Require Import Sorting.Sorted Sorting.Permutation.
Import ListNotations.
Open Scope Z_scope.

(** Linear arithmetic with division and remainder by constants. *)
Ltac zdiv := Z.div_mod_to_equations; lia.

(* ================================================================== *)
(** * ECMAScript date arithmetic (ECMA-262, "Time Values and Time Range") *)
(* ================================================================== *)

Module ES.

Definition msPerDay : Z := 86400000.
Definition msPerHour : Z := 3600000.
Definition msPerMinute : Z := 60000.
Definition msPerSecond : Z := 1000.

Definition Day (t : Z) : Z := t / msPerDay.
Definition TimeWithinDay (t : Z) : Z := t mod msPerDay.

Definition DaysInYear (y : Z) : Z :=
  if negb (y mod 4 =? 0) then 365
  else if negb (y mod 100 =? 0) then 366
  else if negb (y mod 400 =? 0) then 365
  else 366.

Definition DayFromYear (y : Z) : Z :=
  365 * (y - 1970) + (y - 1969) / 4 - (y - 1901) / 100 + (y - 1601) / 400.

(** [YearFromTime(t)] is "the largest integer y such that
    TimeFromYear(y) <= t".  It is computed here from the mean length of
    a Gregorian year and corrected by at most one year either way;
    [YearFromDay_spec] and [YearFromDay_unique] show that this is the
    year the specification defines. *)
Definition YearFromDay (n : Z) : Z :=
  let y := 1970 + (400 * n) / 146097 in
  if n <? DayFromYear y then y - 1
  else if DayFromYear (y + 1) <=? n then y + 1
  else y.

Definition YearFromTime (t : Z) : Z := YearFromDay (Day t).

Definition InLeapYear (t : Z) : Z :=
  if DaysInYear (YearFromTime t) =? 366 then 1 else 0.

Definition DayWithinYear (t : Z) : Z := Day t - DayFromYear (YearFromTime t).

(** Number of the first day of month [m] (0..11) within a year; [leap]
    is 1 in a leap year and 0 otherwise.  Month 12 is the year's end. *)
Definition monthStart (m leap : Z) : Z :=
  match m with
  | 0 => 0
  | 1 => 31
  | 2 => 59 + leap
  | 3 => 90 + leap
  | 4 => 120 + leap
  | 5 => 151 + leap
  | 6 => 181 + leap
  | 7 => 212 + leap
  | 8 => 243 + leap
  | 9 => 273 + leap
  | 10 => 304 + leap
  | 11 => 334 + leap
  | _ => 365 + leap
  end.

Definition monthOfDayInYear (k leap : Z) : Z :=
  if k <? 31 then 0
  else if k <? 59 + leap then 1
  else if k <? 90 + leap then 2
  else if k <? 120 + leap then 3
  else if k <? 151 + leap then 4
  else if k <? 181 + leap then 5
  else if k <? 212 + leap then 6
  else if k <? 243 + leap then 7
  else if k <? 273 + leap then 8
  else if k <? 304 + leap then 9
  else if k <? 334 + leap then 10
  else 11.

Definition MonthFromTime (t : Z) : Z :=
  monthOfDayInYear (DayWithinYear t) (InLeapYear t).

Definition DateFromTime (t : Z) : Z :=
  DayWithinYear t - monthStart (MonthFromTime t) (InLeapYear t) + 1.

(** 0 = Sunday, 1 = Monday, ..., 6 = Saturday. *)
Definition WeekDay (t : Z) : Z := (Day t + 4) mod 7.

Definition MakeTime (h m s ms : Z) : Z :=
  h * msPerHour + m * msPerMinute + s * msPerSecond + ms.

(** [MakeDay]: the day number of the first of month [m mod 12] of year
    [y + floor(m/12)], plus [dt - 1]. *)
Definition MakeDay (y m dt : Z) : Z :=
  let ym := y + m / 12 in
  let mn := m mod 12 in
  DayFromYear ym
  + monthStart mn (if DaysInYear ym =? 366 then 1 else 0)
  + dt - 1.

Definition MakeDate (day time : Z) : Z := day * msPerDay + time.

(** ** Methods of [Date], on the local time value *)

Definition getFullYear (t : Z) : Z := YearFromTime t.
Definition getMonth (t : Z) : Z := MonthFromTime t.
Definition getDate (t : Z) : Z := DateFromTime t.
Definition getDay (t : Z) : Z := WeekDay t.

(** The setters compute on the local clock reading.  Where a change
    of the zone offset skips the reading asked for (a midnight that
    daylight saving skips), the browser moves on to a reading that
    exists; the value here is the reading asked for.  The statements
    below are therefore about calendar days, order and containment, not
    about the length of a day on the clock. *)
Definition setDate (t dt : Z) : Z :=
  MakeDate (MakeDay (YearFromTime t) (MonthFromTime t) dt) (TimeWithinDay t).

Definition setHours (t h m s ms : Z) : Z :=
  MakeDate (Day t) (MakeTime h m s ms).

Definition setFullYear (t y m dt : Z) : Z :=
  MakeDate (MakeDay y m dt) (TimeWithinDay t).

(** [new Date(year, monthIndex, day)]: years 0..99 denote 1900..1999. *)
Definition newDate (y m dt : Z) : Z :=
  let yr := if (0 <=? y) && (y <=? 99) then 1900 + y else y in
  MakeDate (MakeDay yr m dt) 0.

(** The browser's time zone: the offset of local time from UTC, in
    milliseconds, in effect at a given local time value.  It is constant
    in a zone without daylight saving and steps by an hour at each
    daylight-saving change otherwise. *)
Definition TimeZone : Type := Z -> Z.

(** [getTime()]: milliseconds since the epoch, in UTC. *)
Definition getTime (tz : TimeZone) (t : Z) : Z := t - tz t.

(** Length of month [m] (0..11) of year [y]. *)
Definition DaysInMonth (y m : Z) : Z :=
  let leap := if DaysInYear y =? 366 then 1 else 0 in
  monthStart (m + 1) leap - monthStart m leap.

(** 1 in a leap year, 0 otherwise. *)
Definition leapOf (y : Z) : Z := if DaysInYear y =? 366 then 1 else 0.

(** Days elapsed since the last Monday: 0 on Monday, ..., 6 on Sunday. *)
Definition daysSinceMonday (t : Z) : Z := (getDay t + 6) mod 7.

(** A time value falls on calendar day [dt] of month [m] (0..11) of
    year [y]. *)
Definition onCalendarDay (x y m dt : Z) : Prop :=
  getFullYear x = y /\ getMonth x = m /\ getDate x = dt.

(** [setFullYear(year)]: the month and the date stay as they are. *)
Definition setFullYear1 (t y : Z) : Z :=
  setFullYear t y (MonthFromTime t) (DateFromTime t).

(** [setMonth(month, date)] *)
Definition setMonth (t m dt : Z) : Z :=
  MakeDate (MakeDay (YearFromTime t) m dt) (TimeWithinDay t).

(** [new Date(value)]: the local time value of the instant [value]
    milliseconds after the epoch, in a zone whose offset from UTC at the
    instant [u] is [utcOffset u]. *)
Definition newDateOfTime (utcOffset : Z -> Z) (value : Z) : Z :=
  value + utcOffset value.

End ES.

(* ================================================================== *)
(** * The date-fns functions the client imports *)
(* ================================================================== *)

Module DateFns.
Import ES.

(** The functions below work on the local time value of a valid [Date].
    A date that may be invalid is an [option Z] with [None] for
    JavaScript's Invalid Date; date-fns hands Invalid Date on unchanged,
    which is [option_map] at the call sites. *)
Definition Date : Type := option Z.

Definition startOfDay (t : Z) : Z := setHours t 0 0 0 0.

Definition endOfDay (t : Z) : Z := setHours t 23 59 59 999.

(** [startOfWeek(date, { weekStartsOn })] *)
Definition startOfWeek (t : Z) (weekStartsOn : Z) : Z :=
  let day := getDay t in
  let diff := (if day <? weekStartsOn then 7 else 0) + day - weekStartsOn in
  let t1 := setDate t (getDate t - diff) in
  setHours t1 0 0 0 0.

(** [endOfWeek(date, { weekStartsOn })] *)
Definition endOfWeek (t : Z) (weekStartsOn : Z) : Z :=
  let day := getDay t in
  let diff := (if day <? weekStartsOn then -7 else 0) + 6 - (day - weekStartsOn) in
  let t1 := setDate t (getDate t + diff) in
  setHours t1 23 59 59 999.

Definition startOfMonth (t : Z) : Z := setHours (setDate t 1) 0 0 0 0.

Definition endOfMonth (t : Z) : Z :=
  let month := getMonth t in
  let t1 := setFullYear t (getFullYear t) (month + 1) 0 in
  setHours t1 23 59 59 999.

(** [startOfYear] starts from a fresh [new Date(0)]; the local time of
    day of that object depends on the zone, and [setHours] overwrites
    it, so it is taken at 0 here. *)
Definition startOfYear (t : Z) : Z :=
  let cleanDate := 0 in
  let t1 := setFullYear cleanDate (getFullYear t) 0 1 in
  setHours t1 0 0 0 0.

Definition endOfYear (t : Z) : Z :=
  let year := getFullYear t in
  let t1 := setFullYear t (year + 1) 0 0 in
  setHours t1 23 59 59 999.

(** ** [parseISO]

    Only the extended calendar-date form [yyyy-MM-dd] is modelled: it is
    the form the client keeps in [state.dateISO] and sends on the wire.
    The other ISO 8601 forms date-fns reads (basic format, week and
    ordinal dates, a time part) are not covered; this definition answers
    Invalid Date for them. *)

Definition digit (c : ascii) : option Z :=
  let n := Z.of_N (N_of_ascii c) in
  if (48 <=? n) && (n <=? 57) then Some (n - 48) else None.

Fixpoint number (acc : Z) (cs : list ascii) : option Z :=
  match cs with
  | [] => Some acc
  | c :: cs' =>
      match digit c with
      | Some v => number (10 * acc + v) cs'
      | None => None
      end
  end.

Definition validateDate (year month date : Z) : bool :=
  (0 <=? month) && (month <=? 11) && (1 <=? date)
  && (date <=? DaysInMonth year month).

Definition parseISO (argument : string) : Date :=
  match list_ascii_of_string argument with
  | [y1; y2; y3; y4; "-"%char; m1; m2; "-"%char; d1; d2] =>
      match number 0 [y1; y2; y3; y4], number 0 [m1; m2], number 0 [d1; d2] with
      | Some year, Some mm, Some dd =>
          let month := mm - 1 in
          if validateDate year month dd
          then Some (setHours (setFullYear 0 year month dd) 0 0 0 0)
          else None
      | _, _, _ => None
      end
  | _ => None
  end.

(** ** [format], for the patterns the client uses (locale en-US) *)

Definition decimal (n : Z) : string :=
  NilZero.string_of_uint (N.to_uint (Z.to_N n)).

Fixpoint zeros (k : nat) : string :=
  match k with
  | O => EmptyString
  | S k' => String "0"%char (zeros k')
  end.

Definition addLeadingZeros (n : Z) (targetLength : nat) : string :=
  let sign := if n <? 0 then "-"%string else EmptyString in
  let output := decimal (Z.abs n) in
  (sign ++ zeros (targetLength - String.length output) ++ output)%string.

(** Token [yyyy]: the calendar year (1 - y for years before 1). *)
Definition format_yyyy (t : Z) : string :=
  let signedYear := getFullYear t in
  let year := if 0 <? signedYear then signedYear else 1 - signedYear in
  addLeadingZeros year 4.

Definition format_M (t : Z) : string := decimal (getMonth t + 1).
Definition format_MM (t : Z) : string := addLeadingZeros (getMonth t + 1) 2.
Definition format_d (t : Z) : string := decimal (getDate t).
Definition format_dd (t : Z) : string := addLeadingZeros (getDate t) 2.

Definition monthNames : list string :=
  ["January"; "February"; "March"; "April"; "May"; "June"; "July";
   "August"; "September"; "October"; "November"; "December"]%string.

Definition monthAbbreviations : list string :=
  ["Jan"; "Feb"; "Mar"; "Apr"; "May"; "Jun"; "Jul";
   "Aug"; "Sep"; "Oct"; "Nov"; "Dec"]%string.

(** Tokens [LLLL] and [MMM]. *)
Definition format_LLLL (t : Z) : string :=
  nth (Z.to_nat (getMonth t)) monthNames EmptyString.
Definition format_MMM (t : Z) : string :=
  nth (Z.to_nat (getMonth t)) monthAbbreviations EmptyString.

Definition ordinalNumber (n : Z) : string :=
  let rem100 := n mod 100 in
  let suffix :=
    if (20 <? rem100) || (rem100 <? 10) then
      match rem100 mod 10 with
      | 1 => "st"
      | 2 => "nd"
      | 3 => "rd"
      | _ => "th"
      end%string
    else "th"%string in
  (decimal n ++ suffix)%string.

(** Token [do]. *)
Definition format_do (t : Z) : string := ordinalNumber (getDate t).

(** [format(d, 'yyyy-MM-dd')] *)
Definition format_iso (t : Z) : string :=
  (format_yyyy t ++ "-" ++ format_MM t ++ "-" ++ format_dd t)%string.

(** [format(d, 'MMM do')] and [format(d, 'd.M.yyyy')] *)
Definition format_MMM_do (t : Z) : string :=
  (format_MMM t ++ " " ++ format_do t)%string.

Definition format_d_M_yyyy (t : Z) : string :=
  (format_d t ++ "." ++ format_M t ++ "." ++ format_yyyy t)%string.

(** ** [set] and what it calls *)

Definition getDaysInMonth (t : Z) : Z :=
  let year := getFullYear t in
  let monthIndex := getMonth t in
  let lastDayOfMonth := setHours (setFullYear 0 year (monthIndex + 1) 0) 0 0 0 0 in
  getDate lastDayOfMonth.

(** date-fns [setMonth]: the date is cut back to the length of the
    new month ("set the last day of the new month if the original date
    was the last day of the longer month"). *)
Definition setMonth (t month : Z) : Z :=
  let year := getFullYear t in
  let day := getDate t in
  let dateWithDesiredMonth := setHours (setFullYear 0 year month 15) 0 0 0 0 in
  let daysInMonth := getDaysInMonth dateWithDesiredMonth in
  ES.setMonth t month (Z.min day daysInMonth).

(** The fields of [values] the client passes to [set]; [None] is a
    field left out. *)
Record DateValues : Type := mkDateValues {
  values_year : option Z;
  values_month : option Z;
  values_date : option Z }.

Definition set (t : Z) (values : DateValues) : Z :=
  let t1 := match values_year values with
            | Some y => setFullYear1 t y
            | None => t
            end in
  let t2 := match values_month values with
            | Some m => setMonth t1 m
            | None => t1
            end in
  match values_date values with
  | Some dt => setDate t2 dt
  | None => t2
  end.

End DateFns.

(* ================================================================== *)
(** * The client: data model and scope resolver *)
(* ================================================================== *)

Module Client.
Import ES DateFns.

Inductive Scope : Type := summary | year | month | week | day.

Inductive Sentiment : Type := positive | neutral | negative.

Record Analysis : Type := mkAnalysis {
  sentiment : Sentiment;
  intensity : Z;
  emotions : list string;
  themes : list string }.

Record Note : Type := mkNote {
  id : string;
  createdAt : string;
  text : string;
  analysis : Analysis }.

Record State : Type := mkState {
  dateISO : string;
  scope : Scope;
  notes : list Note;
  page : Z;
  perPage : Z }.

(** [const state = { dateISO: format(new Date(), 'yyyy-MM-dd'), ... }] *)
Definition initialState (now : Z) : State :=
  {| dateISO := format_iso now; scope := week; notes := []; page := 1;
     perPage := 3 |}.

Definition scope_eqb (a b : Scope) : bool :=
  match a, b with
  | summary, summary | year, year | month, month | week, week | day, day => true
  | _, _ => false
  end.

Definition scopeName (s : Scope) : string :=
  match s with
  | summary => "summary"
  | year => "year"
  | month => "month"
  | week => "week"
  | day => "day"
  end.

Record Range : Type := mkRange { start : Date; end_ : Date }.

(** [getDateRange] (src/client/src/main.ts).  The [default:] arm of the
    source's switch is unreachable for a value of type [Scope]. *)
Definition getDateRange (dateISO : string) (scope : Scope) : Range :=
  let d := parseISO dateISO in
  match scope with
  | summary =>
      {| start := option_map startOfYear d; end_ := option_map endOfYear d |}
  | year =>
      {| start := option_map startOfYear d; end_ := option_map endOfYear d |}
  | month =>
      {| start := option_map startOfMonth d; end_ := option_map endOfMonth d |}
  | week =>
      {| start := option_map (fun t => startOfWeek t 1) d;
         end_ := option_map (fun t => endOfWeek t 1) d |}
  | day =>
      {| start := option_map startOfDay d; end_ := option_map endOfDay d |}
  end.

(** [const iso = (d: Date) => format(d, 'yyyy-MM-dd')] *)
Definition iso (d : Z) : string := format_iso d.

(** ** Breadcrumbs *)

(** The double-quote character of the HTML attributes. *)
Definition dq : string := String (ascii_of_nat 34) EmptyString.

(** A JavaScript integer number converted to a string. *)
Definition numberToString (n : Z) : string :=
  if n <? 0 then ("-" ++ decimal (- n))%string else decimal n.

(** "Calculate week number within the month (not ISO week)".
    [Math.floor] of the quotient is [Z]'s floor division. *)
Definition weekOfMonth (tz : TimeZone) (d : Z) : Z :=
  let monthStart := startOfMonth d in
  let firstWeekStart := startOfWeek monthStart 1 in
  let currentWeekStart := startOfWeek d 1 in
  (getTime tz currentWeekStart - getTime tz firstWeekStart)
    / (7 * 24 * 3600 * 1000) + 1.

(** [renderBreadcrumbs]: the string assigned to [crumbs.innerHTML].
    The two revisions differ in the pattern of the day label only,
    which is the parameter [dayPattern].  [format] throws on an Invalid
    Date; that is [None]. *)
Definition renderBreadcrumbsWith (dayPattern : Z -> string)
    (tz : TimeZone) (state : State) : option string :=
  match parseISO (dateISO state) with
  | None => None
  | Some d =>
      let year_ := format_yyyy d in
      let monthName := format_LLLL d in
      let dayName := dayPattern d in
      let weekOfMonth := weekOfMonth tz d in
      let breadcrumbHTML :=
        ("<li><a data-scope=" ++ dq ++ "summary" ++ dq ++ ">Summary</a></li>")%string in
      let breadcrumbHTML :=
        (breadcrumbHTML
         ++ "<li><a data-scope=" ++ dq ++ "year" ++ dq ++ ">" ++ year_ ++ "</a></li>")%string in
      let breadcrumbHTML :=
        if negb (scope_eqb (scope state) summary) && negb (scope_eqb (scope state) year)
        then (breadcrumbHTML
              ++ "<li><a data-scope=" ++ dq ++ "month" ++ dq ++ ">" ++ monthName ++ "</a></li>")%string
        else breadcrumbHTML in
      let breadcrumbHTML :=
        if scope_eqb (scope state) week
        then (breadcrumbHTML
              ++ "<li data-scope=" ++ dq ++ "week" ++ dq ++ ">Week "
              ++ numberToString weekOfMonth ++ "</li>")%string
        else if scope_eqb (scope state) day
        then (breadcrumbHTML
              ++ "<li data-scope=" ++ dq ++ "day" ++ dq ++ ">" ++ dayName ++ "</li>")%string
        else breadcrumbHTML in
      Some breadcrumbHTML
  end.

(** ** JavaScript arrays *)

(** [Array.prototype.slice(start, end)]: a negative index counts from
    the end of the array, and both are clamped to its bounds. *)
Definition relativeIndex (len i : Z) : Z :=
  if i <? 0 then Z.max (len + i) 0 else Z.min i len.

Definition slice {A : Type} (l : list A) (start end_ : Z) : list A :=
  let len := Z.of_nat (List.length l) in
  let k := relativeIndex len start in
  let final := relativeIndex len end_ in
  firstn (Z.to_nat (Z.max (final - k) 0)) (skipn (Z.to_nat k) l).

(** [a[i]] for an integer [i]; [None] is [undefined]. *)
Definition arrayGet {A : Type} (l : list A) (i : Z) : option A :=
  if i <? 0 then None else nth_error l (Z.to_nat i).

(** ** Prompt selector (second revision of main.ts) *)

Definition PROMPTS_daily (s : Sentiment) : list string :=
  match s with
  | positive =>
      ["What made today feel especially bright?";
       "Which moment gave you the most energy today?";
       "What's one thing you're grateful for right now?";
       "How can you carry today's good vibes forward?"]
  | neutral =>
      ["What's one small thing that went well today?";
       "Where did you feel most like yourself today?";
       "What helped you feel steady today?";
       "What's something you learned about yourself today?"]
  | negative =>
      ["What's one gentle thing you can do for yourself right now?";
       "What helped you get through the tough moments today?";
       "What would make tomorrow feel a little easier?";
       "What's the smallest step forward you could take?"]
  end%string.

Definition PROMPTS_weekend : list string :=
  ["Looking back at this week, what pattern do you notice in your emotions?";
   "What themes kept coming up in your week?";
   "Which day this week felt most aligned with who you are?";
   "What would you like to do differently next week?";
   "What story does your week tell about your growth?"]%string.

Definition PROMPTS_monthly : list string :=
  ["What emotional journey did you take this month?";
   "Which themes dominated your month, and how do you feel about them?";
   "What patterns in your emotions surprise you looking back?";
   "How have you grown from the beginning of this month?";
   "What would you like to focus on next month based on your patterns?"]%string.

Definition PROMPTS_yearly : list string :=
  ["What's the biggest emotional shift you notice over this year?";
   "Which themes have been most persistent in your life?";
   "How has your relationship with yourself evolved?";
   "What patterns do you see that you want to change or strengthen?";
   "What story does this year tell about who you're becoming?"]%string.

(** [const sentimentCounts = { positive: 0, neutral: 0, negative: 0 }] *)
Record SentimentCounts : Type := mkCounts {
  c_positive : Z;
  c_neutral : Z;
  c_negative : Z }.

(** [sentimentCounts[note.analysis.sentiment]++] *)
Definition countSentiment (c : SentimentCounts) (note : Note) : SentimentCounts :=
  match sentiment (analysis note) with
  | positive => mkCounts (c_positive c + 1) (c_neutral c) (c_negative c)
  | neutral => mkCounts (c_positive c) (c_neutral c + 1) (c_negative c)
  | negative => mkCounts (c_positive c) (c_neutral c) (c_negative c + 1)
  end.

Definition getRecentSentiment (state : State) : Sentiment :=
  if Z.of_nat (List.length (notes state)) =? 0 then neutral
  else
    let recent := slice (notes state) 0 3 in
    let sentimentCounts := fold_left countSentiment recent (mkCounts 0 0 0) in
    let max := Z.max (Z.max (c_positive sentimentCounts)
                            (c_neutral sentimentCounts))
                     (c_negative sentimentCounts) in
    if c_positive sentimentCounts =? max then positive
    else if c_negative sentimentCounts =? max then negative
    else neutral.

(** [isWeekend] reads the clock itself: [now] is that reading. *)
Definition isWeekend (now : Z) : bool :=
  let day := getDay now in
  (day =? 0) || (day =? 5) || (day =? 6).

(** The code's day-of-year: whole days elapsed since the local midnight
    that opens December 31 of the previous year. *)
Definition dayOfYear (tz : TimeZone) (now : Z) : Z :=
  (getTime tz now - getTime tz (newDate (getFullYear now) 0 0))
    / (1000 * 60 * 60 * 24).

(** The pool and prefix [choosePrompt] settles on. *)
Definition promptTier (tz : TimeZone) (now weekendClock : Z) (state : State)
    : list string * string :=
  let dayOfMonth := getDate now in
  let dayOfYear := dayOfYear tz now in
  if (dayOfYear <=? 7) || (358 <=? dayOfYear)
  then (PROMPTS_yearly, "Year-end reflection: "%string)
  else if (dayOfMonth <=? 3) || (28 <=? dayOfMonth)
  then (PROMPTS_monthly, "Monthly reflection: "%string)
  else if isWeekend weekendClock
  then (PROMPTS_weekend, "Week reflection: "%string)
  else
    let sentiment := getRecentSentiment state in
    (PROMPTS_daily sentiment, "Daily prompt: "%string).

(** [choosePrompt].  [now] is the clock reading of [new Date()] in its
    first line, [weekendClock] the later reading inside [isWeekend], and
    [random] the value of [Math.random()], taken as an exact rational.
    Concatenating [undefined] to a string yields the text "undefined". *)
Definition choosePrompt (tz : TimeZone) (now weekendClock : Z) (random : Q)
    (state : State) : string :=
  let '(promptPool, prefix) := promptTier tz now weekendClock state in
  let randomPrompt :=
    arrayGet promptPool
      (Qfloor (random * inject_Z (Z.of_nat (List.length promptPool)))) in
  (prefix ++ match randomPrompt with
             | Some p => p
             | None => "undefined"
             end)%string.

(** ** JavaScript objects used as counters *)

(** An ordinary object whose own properties hold numbers, in the order
    the properties were created. *)
Definition JSObject : Type := list (string * Z).

Fixpoint lookup (o : JSObject) (k : string) : option Z :=
  match o with
  | [] => None
  | (k', v) :: o' => if String.eqb k' k then Some v else lookup o' k
  end.

(** [o[k] = v]: an existing property keeps its place, a new one is
    created last. *)
Fixpoint assign (o : JSObject) (k : string) (v : Z) : JSObject :=
  match o with
  | [] => [(k, v)]
  | (k', v') :: o' =>
      if String.eqb k' k then (k', v) :: o' else (k', v') :: assign o' k v
  end.

(** Names every object inherits from [Object.prototype].  Reading
    [counts[label]] for such a label finds the inherited member instead
    of [undefined]; the counters below are a model of the code for all
    other labels. *)
Definition objectPrototypeNames : list string :=
  ["constructor"; "hasOwnProperty"; "isPrototypeOf"; "propertyIsEnumerable";
   "toLocaleString"; "toString"; "valueOf"; "__proto__";
   "__defineGetter__"; "__defineSetter__"; "__lookupGetter__";
   "__lookupSetter__"]%string.

Definition inheritedName (k : string) : bool :=
  existsb (String.eqb k) objectPrototypeNames.

(** [counts[label] = (counts[label] || 0) + 1] *)
Definition tally (counts : JSObject) (label : string) : JSObject :=
  let current :=
    match lookup counts label with
    | Some v => if v =? 0 then 0 else v
    | None => 0
    end in
  assign counts label (current + 1).

(** An array index is a canonical decimal numeral below 2^32 - 1. *)
Definition arrayIndex (k : string) : option Z :=
  match list_ascii_of_string k with
  | [] => None
  | c :: cs =>
      match number 0 (c :: cs) with
      | Some n =>
          if Ascii.eqb c "0"%char && negb (Nat.eqb (List.length cs) 0) then None
          else if n <=? 4294967294 then Some n
          else None
      | None => None
      end
  end.

Definition isArrayIndex (k : string) : bool :=
  match arrayIndex k with Some _ => true | None => false end.

Definition indexOf (kv : string * Z) : Z :=
  match arrayIndex (fst kv) with Some n => n | None => 0 end.

Fixpoint insertByIndex (x : string * Z) (l : list (string * Z))
    : list (string * Z) :=
  match l with
  | [] => [x]
  | y :: l' =>
      if indexOf x <=? indexOf y then x :: l else y :: insertByIndex x l'
  end.

(** [Object.entries(o)]: own property keys that are array indices come
    first, in ascending numeric order; the other string keys follow in
    the order of their creation (ECMA-262, OrdinaryOwnPropertyKeys). *)
Definition Object_entries (o : JSObject) : list (string * Z) :=
  fold_right insertByIndex [] (filter (fun kv => isArrayIndex (fst kv)) o)
  ++ filter (fun kv => negb (isArrayIndex (fst kv))) o.

(** [Array.prototype.sort(compareFn)] is stable: elements that compare
    equal keep their order.  The result of a stable sort under a
    consistent comparator does not depend on the algorithm; insertion
    from the right is used here.  [x] goes in front of the first [y]
    that does not have to come before it. *)
Fixpoint insertSorted {A : Type} (compareFn : A -> A -> Z) (x : A) (l : list A)
    : list A :=
  match l with
  | [] => [x]
  | y :: l' =>
      if compareFn x y <=? 0 then x :: l
      else y :: insertSorted compareFn x l'
  end.

Definition sort {A : Type} (compareFn : A -> A -> Z) (l : list A) : list A :=
  fold_right (insertSorted compareFn) [] l.

(** ** Overview aggregator *)

(** [.sort(([,a], [,b]) => b - a)] *)
Definition byCountDescending (x y : string * Z) : Z := snd y - snd x.

(** Count the labels and keep the five most frequent:
    [Object.entries(counts).sort(...).slice(0, 5).map(([label]) => label)]. *)
Definition countLabels (all : list string) : JSObject :=
  fold_left tally all [].

Definition topLabels (all : list string) : list string :=
  map fst (slice (sort byCountDescending (Object_entries (countLabels all))) 0 5).

(** The flatten pass: [allEmotions.push(...note.analysis.emotions)] and
    [allThemes.push(...note.analysis.themes)] for each note in turn. *)
Definition allEmotions (notes : list Note) : list string :=
  flat_map (fun note => emotions (analysis note)) notes.

Definition allThemes (notes : list Note) : list string :=
  flat_map (fun note => themes (analysis note)) notes.

(** [topEmotions] and [topThemes] as [renderOverview] computes them in
    both revisions. *)
Definition aggregate (notes : list Note) : list string * list string :=
  (topLabels (allEmotions notes), topLabels (allThemes notes)).

(** [array.map(f).join('')] *)
Definition joinMap {A : Type} (f : A -> string) (l : list A) : string :=
  fold_right (fun x acc => (f x ++ acc)%string) EmptyString l.

Definition noEmotionsHTML : string :=
  ("<span class=" ++ dq ++ "text-base-content/60" ++ dq
   ++ ">No emotions detected</span>")%string.

Definition noThemesHTML : string :=
  ("<span class=" ++ dq ++ "text-base-content/60" ++ dq
   ++ ">No themes detected</span>")%string.

Definition badge (class item : string) : string :=
  ("<span class=" ++ dq ++ class ++ dq ++ ">" ++ item ++ "</span>")%string.

(** What [renderOverview] writes into the emotions and the themes
    container, given the badge classes of the revision. *)
Definition overviewHTML (emotionClass themeClass : string) (notes : list Note)
    : string * string :=
  let '(topEmotions, topThemes) := aggregate notes in
  (if 0 <? Z.of_nat (List.length topEmotions)
   then joinMap (badge emotionClass) topEmotions else noEmotionsHTML,
   if 0 <? Z.of_nat (List.length topThemes)
   then joinMap (badge themeClass) topThemes else noThemesHTML).

(** ** Pagination *)

Inductive EntriesView : Type :=
| NoEntriesFound
| Cards (pageNotes : list Note).

(** [renderEntries]: one card is appended for each note of [pageNotes],
    in order; the markup of a card is not modelled. *)
Definition renderEntries (state : State) : EntriesView :=
  if Z.of_nat (List.length (notes state)) =? 0 then NoEntriesFound
  else
    let start := (page state - 1) * perPage state in
    let pageNotes := slice (notes state) start (start + perPage state) in
    Cards pageNotes.

(** [Math.max(1, Math.ceil(state.notes.length / state.perPage))], for a
    positive page size. *)
Definition totalPages (state : State) : Z :=
  Z.max 1 (- ((- Z.of_nat (List.length (notes state))) / perPage state)).

(** The click handler of a pager button: [state.page = to]. *)
Definition goToPage (state : State) (to : Z) : State :=
  {| dateISO := dateISO state; scope := scope state; notes := notes state;
     page := to; perPage := perPage state |}.

(** ** Effects: network, console, alerts *)

Record Error : Type := mkError { name : string; message : string }.

(** A response as the client reads it: [json] is [None] when the body
    is not JSON, in which case [res.json()] rejects. *)
Record Response (A : Type) : Type := mkResponse {
  status : Z;
  statusText : string;
  bodyText : string;
  json : option A }.

Arguments mkResponse {A}.
Arguments status {A}.
Arguments statusText {A}.
Arguments bodyText {A}.
Arguments json {A}.

(** [res.ok]: the status is in the range 200-299. *)
Definition ok {A : Type} (res : Response A) : bool :=
  (200 <=? status res) && (status res <=? 299).

Inductive FetchOutcome (A : Type) : Type :=
| Fulfilled (res : Response A)
| Rejected (error : Error).

Arguments Fulfilled {A}.
Arguments Rejected {A}.

(** The body of [POST /api/entries/text]. *)
Record Payload : Type := mkPayload {
  payload_text : string;
  payload_createdAt : string;
  payload_analysis : Analysis }.

Inductive Request : Type :=
| GetEntries (url : string)
| PostAnalyze (text : string)
| PostEntry (payload : Payload).

(** What the servers answer to each request. *)
Record Network : Type := mkNetwork {
  entriesEndpoint : string -> FetchOutcome (list Note);
  analyzeEndpoint : string -> FetchOutcome Analysis;
  saveEndpoint : Payload -> FetchOutcome Note }.

Inductive Level : Type := LOG | ERROR.

Record LogLine : Type := mkLogLine { level : Level; arguments : list string }.

Record World : Type := mkWorld {
  state : State;
  console : list LogLine;
  alerts : list string;
  requests : list Request }.

(** An [async] function body: it returns or throws (its promise is
    fulfilled or rejected), and changes the world on the way. *)
Inductive Completion (A : Type) : Type :=
| Returns (a : A)
| Throws (error : Error).

Arguments Returns {A}.
Arguments Throws {A}.

Definition M (A : Type) : Type := World -> Completion A * World.

Definition ret {A : Type} (a : A) : M A := fun w => (Returns a, w).

Definition throw {A : Type} (error : Error) : M A := fun w => (Throws error, w).

Definition bind {A B : Type} (m : M A) (k : A -> M B) : M B :=
  fun w =>
    match m w with
    | (Returns a, w') => k a w'
    | (Throws error, w') => (Throws error, w')
    end.

(** [try { body } catch (error) { handler }] *)
Definition tryCatch {A : Type} (body : M A) (handler : Error -> M A) : M A :=
  fun w =>
    match body w with
    | (Returns a, w') => (Returns a, w')
    | (Throws error, w') => handler error w'
    end.

Notation "x <- m ;; k" := (bind m (fun x => k))
  (at level 61, m at next level, right associativity).
Notation "m ;; k" := (bind m (fun _ => k))
  (at level 61, right associativity).

Definition getState : M State := fun w => (Returns (state w), w).

Definition setState (f : State -> State) : M unit :=
  fun w => (Returns tt, mkWorld (f (state w)) (console w) (alerts w) (requests w)).

Definition setNotes (ns : list Note) : M unit :=
  setState (fun s => mkState (dateISO s) (scope s) ns (page s) (perPage s)).

Definition setPage (p : Z) : M unit :=
  setState (fun s => mkState (dateISO s) (scope s) (notes s) p (perPage s)).

Definition consoleWrite (l : Level) (args : list string) : M unit :=
  fun w => (Returns tt,
            mkWorld (state w) (console w ++ [mkLogLine l args]) (alerts w)
              (requests w)).

Definition alert (msg : string) : M unit :=
  fun w => (Returns tt,
            mkWorld (state w) (console w) (alerts w ++ [msg]) (requests w)).

(** [await fetch(...)]: the request goes out once; a transport failure
    rejects the promise. *)
Definition fetch {A : Type} (req : Request) (answer : FetchOutcome A)
    : M (Response A) :=
  fun w =>
    let w' := mkWorld (state w) (console w) (alerts w) (requests w ++ [req]) in
    match answer with
    | Fulfilled res => (Returns res, w')
    | Rejected error => (Throws error, w')
    end.

(** [await res.json()] *)
Definition readJson {A : Type} (res : Response A) : M A :=
  match json res with
  | Some a => ret a
  | None => throw (mkError "SyntaxError" "Unexpected token in JSON")
  end.

(** ** Analysis of a new entry *)

Definition defaultAnalysis : Analysis :=
  {| sentiment := neutral; intensity := 2; emotions := []; themes := [] |}.

Definition analyzeText (net : Network) (text : string) : M Analysis :=
  tryCatch
    (consoleWrite LOG ["Calling NLP analysis for text:"%string;
                       (substring 0 50 text ++ "...")%string] ;;
     response <- fetch (PostAnalyze text) (analyzeEndpoint net text) ;;
     consoleWrite LOG ["NLP response status:"%string;
                       numberToString (status response)] ;;
     (if negb (ok response)
      then (let errorText := bodyText response in
            consoleWrite ERROR ["NLP API error:"%string; errorText] ;;
            throw (mkError "Error"
                     ("Analysis failed: " ++ numberToString (status response)
                      ++ " - " ++ errorText)))
      else ret tt) ;;
     result <- readJson response ;;
     consoleWrite LOG ["NLP analysis result:"%string] ;;
     ret result)
    (fun error =>
       consoleWrite ERROR ["Sentiment analysis failed:"%string; message error] ;;
       ret defaultAnalysis).

(** The click handler of the save button, from the analysis to the end
    of its [try]/[catch]; [refresh] is what follows a successful save. *)
Definition saveEntry (net : Network) (refresh : M unit)
    (textToSave createdAt : string) : M unit :=
  tryCatch
    (consoleWrite LOG ["Starting text analysis for:"%string;
                       (substring 0 50 textToSave ++ "...")%string] ;;
     analysis <- analyzeText net textToSave ;;
     consoleWrite LOG ["Got analysis:"%string] ;;
     let payload := mkPayload textToSave createdAt analysis in
     consoleWrite LOG ["Saving entry with payload:"%string] ;;
     res <- fetch (PostEntry payload) (saveEndpoint net payload) ;;
     consoleWrite LOG ["Save response status:"%string;
                       numberToString (status res)] ;;
     (if negb (ok res)
      then (let errorText := bodyText res in
            consoleWrite ERROR ["Save API error:"%string; errorText] ;;
            throw (mkError "Error"
                     (if String.eqb errorText EmptyString
                      then statusText res else errorText)))
      else ret tt) ;;
     savedEntry <- readJson res ;;
     consoleWrite LOG ["Entry saved successfully:"%string] ;;
     refresh)
    (fun err =>
       consoleWrite ERROR ["Save failed:"%string; message err] ;;
       alert ("Could not save entry: " ++ message err)).

(** ** Scenarios *)

(** Two time zones.  [utc] has no offset at all.  [easternTime2025] is
    US Eastern time around the start of daylight saving in 2025: five
    hours behind UTC until 02:00 local time on Sunday 2025-03-09, four
    hours behind from then on. *)
Definition utc : TimeZone := fun _ => 0.

Definition easternTime2025 : TimeZone :=
  fun t => if t <? 1741485600000 then -5 * msPerHour else -4 * msPerHour.

(** Two zones whose offset from UTC was changed for good.
    [almaty2024] is Asia/Almaty: six hours ahead of UTC until local
    midnight on 2024-03-01, five hours ahead from then on.
    [amman2022] is Asia/Amman: two hours ahead of UTC until local
    midnight on 2022-02-25, three hours ahead from then on (the summer
    time of 2022 was kept). *)
Definition almaty2024 : TimeZone :=
  fun t => if t <? 1709251200000 then 6 * msPerHour else 5 * msPerHour.

Definition amman2022 : TimeZone :=
  fun t => if t <? 1645747200000 then 2 * msPerHour else 3 * msPerHour.

Definition failedToFetch : Error := mkError "TypeError" "Failed to fetch".

(** No server can be reached: every [fetch] rejects. *)
Definition offline : Network :=
  {| entriesEndpoint := fun _ => Rejected failedToFetch;
     analyzeEndpoint := fun _ => Rejected failedToFetch;
     saveEndpoint := fun _ => Rejected failedToFetch |}.

(** The entry the API creates from a payload. *)
Definition created (p : Payload) : Note :=
  mkNote "42" (payload_createdAt p) (payload_text p) (payload_analysis p).

(** The analysis service answers 503; the entries API works and holds
    nothing but what it is sent. *)
Definition analysisDown : Network :=
  {| entriesEndpoint :=
       fun _ => Fulfilled (mkResponse 200 "OK" "[]" (Some []));
     analyzeEndpoint :=
       fun _ => Fulfilled (mkResponse 503 "Service Unavailable" "down" None);
     saveEndpoint :=
       fun p => Fulfilled (mkResponse 201 "Created" "{}" (Some (created p))) |}.

Definition sampleNote (i : string) : Note :=
  mkNote i "2025-03-03" "Walked to work." defaultAnalysis.

(** The user looks at page [p] of the notes [ns] of a week. *)
Definition browsing (ns : list Note) (p : Z) : World :=
  mkWorld (mkState "2025-03-03" week ns p 3) [] [] [].

(** The analysis service and the save endpoint work; the requests for
    the entry list do not get through. *)
Definition listUnreachable : Network :=
  {| entriesEndpoint := fun _ => Rejected failedToFetch;
     analyzeEndpoint :=
       fun _ => Fulfilled (mkResponse 200 "OK" "{}" (Some defaultAnalysis));
     saveEndpoint :=
       fun p => Fulfilled (mkResponse 201 "Created" "{}" (Some (created p))) |}.

(** The entries API answers every request with status 500. *)
Definition serverError : Network :=
  {| entriesEndpoint :=
       fun _ => Fulfilled (mkResponse 500 "Internal Server Error" "oops" None);
     analyzeEndpoint :=
       fun _ => Fulfilled (mkResponse 500 "Internal Server Error" "oops" None);
     saveEndpoint :=
       fun _ => Fulfilled (mkResponse 500 "Internal Server Error" "oops" None) |}.

Definition fourNotes : list Note :=
  [sampleNote "1"; sampleNote "2"; sampleNote "3"; sampleNote "4"].

(** ** The functions that differ between the two revisions *)

(** src/client/src/main.ts *)
Module MainTs.

(** The day label has the pattern [MMM do]. *)
Definition renderBreadcrumbs : TimeZone -> State -> option string :=
  renderBreadcrumbsWith format_MMM_do.

(** [renderOverview], with the two containers present in the document.
    With no notes it returns at once and leaves the document as it is,
    which is [None]. *)
Definition renderOverview (state : State) : option (string * string) :=
  if Z.of_nat (List.length (notes state)) =? 0 then None
  else Some (overviewHTML "badge" "badge badge-outline" (notes state)).

Definition loadEntries (net : Network) : M unit :=
  tryCatch
    (s <- getState ;;
     let url := ("/api/entries?scope=" ++ scopeName (scope s)
                 ++ "&date=" ++ dateISO s)%string in
     res <- fetch (GetEntries url) (entriesEndpoint net url) ;;
     (if ok res
      then (ns <- readJson res ;; setNotes ns)
      else (consoleWrite ERROR
              ["Failed to load entries:"%string; numberToString (status res)] ;;
            setNotes [])) ;;
     setPage 1)
    (fun error =>
       consoleWrite ERROR ["Error loading entries:"%string; message error] ;;
       setNotes []).

End MainTs.

(** src/unnamed/part_000, the revision with the entry modal and the
    prompts *)
Module Part000.

(** The day label has the pattern [d.M.yyyy]. *)
Definition renderBreadcrumbs : TimeZone -> State -> option string :=
  renderBreadcrumbsWith format_d_M_yyyy.

(** [renderOverview]: the pair written to [emotionsWrap.innerHTML] and
    [themesWrap.innerHTML]. *)
Definition renderOverview (state : State) : string * string :=
  if Z.of_nat (List.length (notes state)) =? 0
  then (noEmotionsHTML, noThemesHTML)
  else overviewHTML "badge badge-soft" "badge badge-soft" (notes state).

(** [loadEntries]: no [try], and the summary scope is requested as a
    year. *)
Definition loadEntries (net : Network) : M unit :=
  s <- getState ;;
  let scopeParam := if scope_eqb (scope s) summary then year else scope s in
  let url := ("/api/entries?scope=" ++ scopeName scopeParam
              ++ "&date=" ++ dateISO s)%string in
  res <- fetch (GetEntries url) (entriesEndpoint net url) ;;
  (if ok res
   then (ns <- readJson res ;; setNotes ns)
   else (consoleWrite ERROR
           ["Failed to load entries:"%string; numberToString (status res)] ;;
         setNotes [])) ;;
  setPage 1.

(** [refresh].  The three render functions that follow [loadEntries]
    are left out here: they write to the document only. *)
Definition refresh (net : Network) : M unit := loadEntries net.

End Part000.

(** ** Pager (the same in both revisions) *)

Record Button : Type := mkButton {
  textContent : string;
  className : string;
  onclick : option Z }.

(** [createButton(label, disabled, to)]; [onclick] holds the page the
    handler assigns to [state.page], when there is a handler. *)
Definition createButton (label : string) (disabled : bool) (to : option Z)
    : Button :=
  {| textContent := label;
     className := ("join-item btn btn-sm"
                   ++ (if disabled then " btn-disabled" else EmptyString))%string;
     onclick := if negb disabled then to else None |}.

(** [b.classList.add(c)] on a button that does not have the class. *)
Definition classListAdd (b : Button) (c : string) : Button :=
  {| textContent := textContent b;
     className := (className b ++ " " ++ c)%string;
     onclick := onclick b |}.

(** The integers from 1 to [n], the values of [i] in the loop. *)
Definition oneTo (n : Z) : list Z := map Z.of_nat (seq 1 (Z.to_nat n)).

(** [renderPager]: the buttons appended to the pager, in order; the
    empty list is the emptied pager. *)
Definition renderPager (state : State) : list Button :=
  let totalPages := totalPages state in
  if totalPages <=? 1 then []
  else
    [createButton "«" (page state =? 1) (Some (page state - 1))]
    ++ map (fun i =>
              let b := createButton (numberToString i) false (Some i) in
              if i =? page state then classListAdd b "btn-active" else b)
         (oneTo totalPages)
    ++ [createButton "»" (page state =? totalPages) (Some (page state + 1))].

(** ** Navigation (the same in both revisions)

    Each handler is given as the state it leaves behind before it calls
    [refresh]; [None] is the handler throwing, which [iso] does on an
    Invalid Date. *)

Definition navigateTo (state : State) (d : string) (sc : Scope) : State :=
  {| dateISO := d; scope := sc; notes := notes state; page := page state;
     perPage := perPage state |}.

(** Year selection: [data-year] holds [year_]. *)
Definition selectYear (year_ : Z) (state : State) : option State :=
  match parseISO (dateISO state) with
  | None => None
  | Some d =>
      Some (navigateTo state
              (iso (set d (mkDateValues (Some year_) (Some 0) (Some 1)))) year)
  end.

(** Month selection (0..11): [data-month] holds [month_]. *)
Definition selectMonth (month_ : Z) (state : State) : option State :=
  match parseISO (dateISO state) with
  | None => None
  | Some d =>
      let first := startOfMonth (set d (mkDateValues None (Some month_) None)) in
      Some (navigateTo state (iso first) month)
  end.

(** Week selection (1..5): [data-week] holds [w]. *)
Definition selectWeek (tz : TimeZone) (utcOffset : Z -> Z) (w : Z)
    (state : State) : option State :=
  match parseISO (dateISO state) with
  | None => None
  | Some d =>
      let monthStart := startOfMonth d in
      let firstWeekStart := startOfWeek monthStart 1 in
      let targetWeekStart :=
        newDateOfTime utcOffset
          (getTime tz firstWeekStart + (w - 1) * 7 * 24 * 3600 * 1000) in
      Some (navigateTo state (iso targetWeekStart) week)
  end.


(** A click on a breadcrumb with [data-scope] equal to [newScope];
    [None] is no change and no [refresh]. *)
Definition clickCrumb (newScope : Scope) (state : State) : option State :=
  if negb (scope_eqb newScope (scope state))
  then Some (navigateTo state (dateISO state) newScope)
  else None.

(** A click on the [k]-th button of the pager: its handler, when it has
    one, assigns the page (and renders the entries again). *)
Definition clickPagerButton (state : State) (k : nat) : State :=
  match nth_error (renderPager state) k with
  | Some b =>
      match onclick b with
      | Some to => goToPage state to
      | None => state
      end
  | None => state
  end.


(** ** The trail's elements, the date on a card *)

(** The [data-scope] attributes of the elements [renderBreadcrumbs]
    writes, in order; every one of them gets the click handler. *)
Definition crumbScopes (state : State) : list Scope :=
  [summary; year]
  ++ (if negb (scope_eqb (scope state) summary)
         && negb (scope_eqb (scope state) year)
      then [month] else [])
  ++ (if scope_eqb (scope state) week then [week]
      else if scope_eqb (scope state) day then [day]
      else []).

(** [formatDisplayDate] (second revision); [None] is [format] throwing
    on an Invalid Date. *)
Definition formatDisplayDate (isoDate : string) : option string :=
  option_map format_d_M_yyyy (parseISO isoDate).
End Client.

(* ================================================================== *)
(** * Notions the statements below are written with *)
(* ================================================================== *)

Module Spec.
Import ES DateFns Client.

(** ** Calendar *)

(** Weeks elapsed, on the calendar, from the week of the first of the
    month to the week of [d]. *)
Definition wholeWeeks (d : Z) : Z :=
  (Day (startOfWeek d 1) - Day (startOfWeek (startOfMonth d) 1)) / 7.

(** ** Breadcrumbs *)

(** The breadcrumb trail as the specification words it: an ordered
    sequence of labelled scopes.  [linked] tells whether the crumb is an
    anchor (the ancestors) or plain text (the current week or day). *)
Record Crumb : Type := mkCrumb {
  label : string;
  crumbScope : Scope;
  linked : bool }.

Definition crumbHTML (c : Crumb) : string :=
  if linked c
  then ("<li><a data-scope=" ++ dq ++ scopeName (crumbScope c) ++ dq ++ ">"
        ++ label c ++ "</a></li>")%string
  else ("<li data-scope=" ++ dq ++ scopeName (crumbScope c) ++ dq ++ ">"
        ++ label c ++ "</li>")%string.

Definition summaryCrumb : Crumb := mkCrumb "Summary" summary true.
Definition yearCrumb (d : Z) : Crumb := mkCrumb (format_yyyy d) year true.
Definition monthCrumb (d : Z) : Crumb := mkCrumb (format_LLLL d) month true.
Definition weekCrumb (tz : TimeZone) (d : Z) : Crumb :=
  mkCrumb ("Week " ++ numberToString (weekOfMonth tz d)) week false.
Definition dayCrumb (dayPattern : Z -> string) (d : Z) : Crumb :=
  mkCrumb (dayPattern d) day false.

Definition breadcrumbs (dayPattern : Z -> string) (tz : TimeZone)
    (d : Z) (sc : Scope) : list Crumb :=
  [summaryCrumb; yearCrumb d]
  ++ (match sc with week | month | day => [monthCrumb d] | _ => [] end)
  ++ (match sc with week => [weekCrumb tz d] | _ => [] end)
  ++ (match sc with day => [dayCrumb dayPattern d] | _ => [] end).

Definition renderCrumbs (cs : list Crumb) : string :=
  fold_right (fun c acc => (crumbHTML c ++ acc)%string) EmptyString cs.

(** ** Sentiment counts *)

Definition sentiment_eqb (a b : Sentiment) : bool :=
  match a, b with
  | positive, positive | neutral, neutral | negative, negative => true
  | _, _ => false
  end.

(** Number of the entries of [l] whose analysis has sentiment [s]. *)
Definition countOf (s : Sentiment) (l : list Note) : Z :=
  Z.of_nat (List.length (filter (fun n => sentiment_eqb (sentiment (analysis n)) s) l)).

(** The choice among three counts: positive when it reaches the
    maximum, else negative when it does, else neutral. *)
Definition dominant (p u n : Z) : Sentiment :=
  let max := Z.max (Z.max p u) n in
  if p =? max then positive else if n =? max then negative else neutral.

(** ** Ranking of labels *)

(** Higher count first; among equal counts, the original order. *)
Definition ranked {A : Type} (cnt : A -> Z) (before : A -> A -> Prop)
    (a b : A) : Prop :=
  cnt b < cnt a \/ (cnt a = cnt b /\ before a b).

(** Position of the first occurrence of [x] in [l] ([length l] when
    there is none). *)
Fixpoint firstIndex (x : string) (l : list string) : nat :=
  match l with
  | [] => 0
  | y :: l' => if String.eqb y x then 0 else S (firstIndex x l')
  end.

(** Number of occurrences of [x] in [l]. *)
Definition countIn (x : string) (l : list string) : Z :=
  Z.of_nat (count_occ string_dec l x).

(** [a] ranks before [b]: it is more frequent, or as frequent and seen
    first. *)
Definition ranksBefore (all : list string) (a b : string) : Prop :=
  countIn b all < countIn a all
  \/ (countIn a all = countIn b all /\ (firstIndex a all < firstIndex b all)%nat).

(** [top] is the first five of the ranking of the distinct labels of
    [all]. *)
Definition topFiveOf (all top : list string) : Prop :=
  exists ranking,
    NoDup ranking
    /\ (forall x, In x ranking <-> In x all)
    /\ StronglySorted (ranksBefore all) ranking
    /\ top = firstn 5 ranking.

(** Labels the counters treat as plain own properties. *)
Definition plainLabel (x : string) : Prop :=
  isArrayIndex x = false /\ inheritedName x = false.

(** [o] holds, for the labels seen so far and in the order they were
    first seen, how often each occurred. *)
Definition counted (all : list string) (o : JSObject) : Prop :=
  NoDup (map fst o)
  /\ (forall k v, In (k, v) o -> In k all /\ v = countIn k all)
  /\ (forall k, In k all -> In k (map fst o))
  /\ StronglySorted (fun a b => (firstIndex a all < firstIndex b all)%nat)
       (map fst o).

(** Two notes with plain labels, and two notes the second of which is
    labelled "7". *)
Definition calmNotes : list Note :=
  [mkNote "1" "2025-03-03" "first"
     (mkAnalysis positive 2 ["sad"; "calm"]%string ["work"%string]);
   mkNote "2" "2025-03-04" "second"
     (mkAnalysis positive 3 ["calm"%string] ["rest"; "work"]%string)].

Definition sadThenSeven : list Note :=
  [mkNote "1" "2025-03-03" "first" (mkAnalysis negative 2 ["sad"%string] []);
   mkNote "2" "2025-03-04" "second" (mkAnalysis neutral 2 ["7"%string] [])].

(** ** Requests *)

(** The analysis request fails: the transport fails or the status is
    outside 200-299. *)
Definition analysisFails (net : Network) (text : string) : Prop :=
  match analyzeEndpoint net text with
  | Rejected _ => True
  | Fulfilled res => ok res = false
  end.

(** The entries request of a world: its URL in each revision. *)
Definition entriesUrl_main (s : State) : string :=
  ("/api/entries?scope=" ++ scopeName (scope s) ++ "&date=" ++ dateISO s)%string.

Definition entriesUrl_rev (s : State) : string :=
  ("/api/entries?scope="
   ++ scopeName (if scope_eqb (scope s) summary then year else scope s)
   ++ "&date=" ++ dateISO s)%string.

Definition loadFails (answer : FetchOutcome (list Note)) : Prop :=
  match answer with
  | Rejected _ => True
  | Fulfilled res => ok res = false
  end.

(** ** Pages *)

(** The notes of page [p] for a page size of 3. *)
Definition pageSlice (ns : list Note) (p : Z) : list Note :=
  firstn 3 (skipn (Z.to_nat ((p - 1) * 3)) ns).

End Spec.

(* ================================================================== *)
(** * Further notions: digits, pages, request outcomes *)
(* ================================================================== *)

Module SpecMore.
Import ES DateFns Client Spec.

(** [n] is printed with exactly four (two) digits that read back as
    [n]. *)
Definition fourDigits (n : Z) : bool :=
  match list_ascii_of_string (addLeadingZeros n 4) with
  | [a; b; c; d] =>
      match number 0 [a; b; c; d] with
      | Some v => v =? n
      | None => false
      end
  | _ => false
  end.

Definition twoDigits (n : Z) : bool :=
  match list_ascii_of_string (addLeadingZeros n 2) with
  | [a; b] =>
      match number 0 [a; b] with
      | Some v => v =? n
      | None => false
      end
  | _ => false
  end.

(** A request fails: the transport fails or the status is outside
    200-299. *)
Definition fails {A : Type} (answer : FetchOutcome A) : Prop :=
  match answer with
  | Rejected _ => True
  | Fulfilled res => ok res = false
  end.

(** A request succeeds with a body that is JSON. *)
Definition succeeds {A : Type} (answer : FetchOutcome A) : Prop :=
  match answer with
  | Rejected _ => False
  | Fulfilled res => ok res = true /\ json res <> None
  end.

(** [top] is the first five of a listing of the distinct labels of
    [all] in which no label comes before a more frequent one. *)
Definition rankedTop (all top : list string) : Prop :=
  exists ranking,
    top = firstn 5 ranking
    /\ NoDup ranking
    /\ (forall x, In x ranking <-> In x all)
    /\ StronglySorted (fun a b => countIn b all <= countIn a all) ranking.

(** ** The trail and its labels, in words *)

(** The breadcrumb trail for given labels: Summary, then the year; the
    month only at the scopes week, month and day; the week only at the
    scope week; the day only at the scope day. *)
Definition trail (yearLabel monthLabel weekLabel dayLabel : string)
    (sc : Scope) : list Crumb :=
  [mkCrumb "Summary" summary true; mkCrumb yearLabel year true]
  ++ (match sc with
      | week | month | day => [mkCrumb monthLabel month true]
      | _ => []
      end)
  ++ (match sc with week => [mkCrumb weekLabel week false] | _ => [] end)
  ++ (match sc with day => [mkCrumb dayLabel day false] | _ => [] end).

(** Day [dt] of month [m] (0..11) of year [y], written [yyyy-MM-dd]. *)
Definition isoText (y m dt : Z) : string :=
  (addLeadingZeros y 4 ++ "-" ++ addLeadingZeros (m + 1) 2 ++ "-"
   ++ addLeadingZeros dt 2)%string.

(** The English name of month [m] (0..11), in full and cut short. *)
Definition englishMonth (m : Z) : string :=
  match m with
  | 0 => "January" | 1 => "February" | 2 => "March" | 3 => "April"
  | 4 => "May" | 5 => "June" | 6 => "July" | 7 => "August"
  | 8 => "September" | 9 => "October" | 10 => "November"
  | 11 => "December" | _ => EmptyString
  end%string.

Definition shortMonth (m : Z) : string :=
  match m with
  | 0 => "Jan" | 1 => "Feb" | 2 => "Mar" | 3 => "Apr" | 4 => "May"
  | 5 => "Jun" | 6 => "Jul" | 7 => "Aug" | 8 => "Sep" | 9 => "Oct"
  | 10 => "Nov" | 11 => "Dec" | _ => EmptyString
  end%string.

(** The ending of an English ordinal for a day of the month. *)
Definition ordinalSuffix (dt : Z) : string :=
  if (dt =? 1) || (dt =? 21) || (dt =? 31) then "st"%string
  else if (dt =? 2) || (dt =? 22) then "nd"%string
  else if (dt =? 3) || (dt =? 23) then "rd"%string
  else "th"%string.

(** The number, within its month, of the Monday-aligned week that holds
    day [dt] of the month, when the first of the month comes [k] days
    after a Monday: the week of the first is week 1. *)
Definition weekNumber (k dt : Z) : Z := 1 + (dt - 1 + k) / 7.

(** The English ordinal the day label ends with is the right one. *)
Definition ordinalChecked (dt : Z) : bool :=
  String.eqb (ordinalNumber dt) (decimal dt ++ ordinalSuffix dt)%string.

End SpecMore.
Module ESFacts.
Import ES.

Lemma DayFromYear_succ (y : Z) :
  DayFromYear (y + 1) = DayFromYear y + DaysInYear y.
Proof.
  unfold DayFromYear, DaysInYear.
  destruct (Z.eqb_spec (y mod 4) 0); cbn [negb];
    [destruct (Z.eqb_spec (y mod 100) 0); cbn [negb];
       [destruct (Z.eqb_spec (y mod 400) 0); cbn [negb]|]|]; zdiv.
Qed.

Lemma DaysInYear_cases (y : Z) : DaysInYear y = 365 \/ DaysInYear y = 366.
Proof.
  unfold DaysInYear.
  destruct (negb _); [now left|].
  destruct (negb _); [now right|].
  destruct (negb _); [now left|now right].
Qed.

Lemma DayFromYear_mono (a b : Z) : a <= b -> DayFromYear a <= DayFromYear b.
Proof. intros H. unfold DayFromYear. zdiv. Qed.

Lemma YearFromDay_spec (n : Z) :
  DayFromYear (YearFromDay n) <= n < DayFromYear (YearFromDay n + 1).
Proof.
  unfold YearFromDay.
  set (y := 1970 + 400 * n / 146097).
  assert (Hlo : DayFromYear (y - 1) <= n)
    by (subst y; unfold DayFromYear; zdiv).
  assert (Hhi : n < DayFromYear (y + 2))
    by (subst y; unfold DayFromYear; zdiv).
  destruct (Z.ltb_spec n (DayFromYear y)).
  - replace (y - 1 + 1) with y by lia. lia.
  - destruct (Z.leb_spec (DayFromYear (y + 1)) n).
    + replace (y + 1 + 1) with (y + 2) by lia. lia.
    + lia.
Qed.

Lemma YearFromDay_unique (n y : Z) :
  DayFromYear y <= n < DayFromYear (y + 1) -> YearFromDay n = y.
Proof.
  intros [Hlo Hhi].
  pose proof (YearFromDay_spec n) as [Slo Shi].
  destruct (Z.lt_trichotomy (YearFromDay n) y) as [Hlt | [Heq | Hgt]]; auto.
  - pose proof (DayFromYear_mono (YearFromDay n + 1) y ltac:(lia)). lia.
  - pose proof (DayFromYear_mono (y + 1) (YearFromDay n) ltac:(lia)). lia.
Qed.

End ESFacts.

Module ESCalendar.
Import ES ESFacts.

Lemma Day_MakeDate (d time : Z) :
  0 <= time < msPerDay -> Day (MakeDate d time) = d.
Proof. unfold Day, MakeDate, msPerDay. intros. zdiv. Qed.

Lemma TimeWithinDay_MakeDate (d time : Z) :
  0 <= time < msPerDay -> TimeWithinDay (MakeDate d time) = time.
Proof. unfold TimeWithinDay, MakeDate, msPerDay. intros. zdiv. Qed.

Lemma TimeWithinDay_range (t : Z) : 0 <= TimeWithinDay t < msPerDay.
Proof. unfold TimeWithinDay, msPerDay. zdiv. Qed.

Lemma MakeDate_Day (t : Z) : MakeDate (Day t) (TimeWithinDay t) = t.
Proof. unfold MakeDate, Day, TimeWithinDay, msPerDay. zdiv. Qed.

Lemma YearFromDay_in_year (y k : Z) :
  0 <= k < DaysInYear y -> YearFromDay (DayFromYear y + k) = y.
Proof.
  intros H. apply YearFromDay_unique. rewrite DayFromYear_succ. lia.
Qed.

Lemma leapOf_cases (y : Z) :
  (leapOf y = 0 /\ DaysInYear y = 365) \/ (leapOf y = 1 /\ DaysInYear y = 366).
Proof.
  unfold leapOf. destruct (DaysInYear_cases y) as [H | H]; rewrite H; simpl; auto.
Qed.

Lemma month_cases (m : Z) :
  0 <= m <= 11 ->
  m = 0 \/ m = 1 \/ m = 2 \/ m = 3 \/ m = 4 \/ m = 5 \/
  m = 6 \/ m = 7 \/ m = 8 \/ m = 9 \/ m = 10 \/ m = 11.
Proof. lia. Qed.

Ltac each_month H :=
  destruct (month_cases _ H) as
    [->|[->|[->|[->|[->|[->|[->|[->|[->|[->|[->| ->]]]]]]]]]]].

(** Evaluate [monthStart] at closed arguments, leaving sums untouched. *)
Ltac eval_monthStart :=
  repeat match goal with
    | |- context [monthStart ?m ?l] =>
        let v := eval vm_compute in (monthStart m l) in
        change (monthStart m l) with v
    | H : context [monthStart ?m ?l] |- _ =>
        let v := eval vm_compute in (monthStart m l) in
        change (monthStart m l) with v in H
    end.

(** One step through the cumulative table of [monthOfDayInYear]. *)
Ltac walk_table :=
  match goal with
  | |- (if ?a <? ?b then _ else _) = _ =>
      destruct (Z.ltb_spec a b); [first [reflexivity | lia]|]
  end.

Lemma DaysInMonth_pos (y m : Z) : 0 <= m <= 11 -> 28 <= DaysInMonth y m <= 31.
Proof.
  intros H. unfold DaysInMonth. fold (leapOf y).
  destruct (leapOf_cases y) as [[-> _] | [-> _]]; each_month H;
    eval_monthStart; lia.
Qed.

(** Month and date of the [k]-th day of a year, read back from the table. *)
Lemma month_of_monthStart (m dt leap : Z) :
  0 <= m <= 11 -> (leap = 0 \/ leap = 1) ->
  1 <= dt <= monthStart (m + 1) leap - monthStart m leap ->
  monthOfDayInYear (monthStart m leap + dt - 1) leap = m.
Proof.
  intros Hm Hl Hd. unfold monthOfDayInYear.
  destruct Hl as [-> | ->]; each_month Hm; eval_monthStart;
    repeat walk_table; first [reflexivity | lia].
Qed.

Lemma monthOfDayInYear_range (k leap : Z) : 0 <= monthOfDayInYear k leap <= 11.
Proof.
  unfold monthOfDayInYear.
  repeat match goal with
         | |- _ <= (if ?c then _ else _) <= _ => destruct c; [lia|]
         end; lia.
Qed.

Lemma monthOfDayInYear_bounds (k leap : Z) :
  (leap = 0 \/ leap = 1) -> 0 <= k < 365 + leap ->
  monthStart (monthOfDayInYear k leap) leap <= k
  /\ k < monthStart (monthOfDayInYear k leap + 1) leap.
Proof.
  intros Hl Hk. unfold monthOfDayInYear.
  destruct Hl as [-> | ->];
    repeat match goal with
           | |- context [if ?a <? ?b then _ else _] =>
               destruct (Z.ltb_spec a b); [eval_monthStart; lia|]
           end; eval_monthStart; lia.
Qed.

Lemma MakeDay_in_range (y m dt : Z) :
  0 <= m <= 11 ->
  MakeDay y m dt = DayFromYear y + (monthStart m (leapOf y) + dt - 1).
Proof.
  intros Hm. unfold MakeDay. replace (m / 12) with 0 by zdiv.
  replace (m mod 12) with m by zdiv.
  rewrite Z.add_0_r. fold (leapOf y). lia.
Qed.

Section Fields.
Variables (y m dt time : Z).
Hypothesis Hm : 0 <= m <= 11.
Hypothesis Hdt : 1 <= dt <= DaysInMonth y m.
Hypothesis Htime : 0 <= time < msPerDay.

Let t := MakeDate (MakeDay y m dt) time.

Lemma dayInYear_in_range : 0 <= monthStart m (leapOf y) + dt - 1 < DaysInYear y.
Proof.
  unfold DaysInMonth in Hdt. fold (leapOf y) in Hdt.
  destruct (leapOf_cases y) as [[Hl ->] | [Hl ->]]; rewrite Hl in *;
    each_month Hm; eval_monthStart; lia.
Qed.

Lemma getFullYear_MakeDay : getFullYear t = y.
Proof.
  unfold getFullYear, YearFromTime, t. rewrite Day_MakeDate by assumption.
  rewrite MakeDay_in_range by assumption.
  apply YearFromDay_in_year, dayInYear_in_range.
Qed.

Lemma InLeapYear_MakeDay : InLeapYear t = leapOf y.
Proof.
  unfold InLeapYear. fold (getFullYear t). now rewrite getFullYear_MakeDay.
Qed.

Lemma DayWithinYear_MakeDay : DayWithinYear t = monthStart m (leapOf y) + dt - 1.
Proof.
  unfold DayWithinYear. fold (getFullYear t). rewrite getFullYear_MakeDay.
  unfold t. rewrite Day_MakeDate by assumption.
  rewrite MakeDay_in_range by assumption. lia.
Qed.

Lemma getMonth_MakeDay : getMonth t = m.
Proof.
  unfold getMonth, MonthFromTime.
  rewrite DayWithinYear_MakeDay, InLeapYear_MakeDay.
  apply month_of_monthStart; auto.
  destruct (leapOf_cases y) as [[-> _] | [-> _]]; auto.
Qed.

Lemma getDate_MakeDay : getDate t = dt.
Proof.
  unfold getDate, DateFromTime. fold (getMonth t).
  rewrite getMonth_MakeDay, DayWithinYear_MakeDay, InLeapYear_MakeDay. lia.
Qed.
End Fields.

(** Every time value is the date its own fields denote. *)
Lemma DayWithinYear_range (t : Z) :
  0 <= DayWithinYear t < DaysInYear (YearFromTime t).
Proof.
  unfold DayWithinYear, YearFromTime.
  pose proof (YearFromDay_spec (Day t)) as [Hlo Hhi].
  rewrite DayFromYear_succ in Hhi. lia.
Qed.

Lemma getMonth_range (t : Z) : 0 <= getMonth t <= 11.
Proof. apply monthOfDayInYear_range. Qed.

Lemma InLeapYear_leapOf (t : Z) : InLeapYear t = leapOf (getFullYear t).
Proof. reflexivity. Qed.

Lemma getDate_range (t : Z) :
  1 <= getDate t <= DaysInMonth (getFullYear t) (getMonth t).
Proof.
  unfold getDate, DateFromTime, DaysInMonth. fold (getMonth t).
  fold (leapOf (getFullYear t)). rewrite InLeapYear_leapOf.
  pose proof (DayWithinYear_range t) as Hk. fold (getFullYear t) in Hk.
  unfold getMonth, MonthFromTime. rewrite InLeapYear_leapOf.
  destruct (leapOf_cases (getFullYear t)) as [[Hl Hy] | [Hl Hy]];
    rewrite Hl, Hy in *.
  - pose proof (monthOfDayInYear_bounds (DayWithinYear t) 0 ltac:(auto) ltac:(lia)).
    lia.
  - pose proof (monthOfDayInYear_bounds (DayWithinYear t) 1 ltac:(auto) ltac:(lia)).
    lia.
Qed.

Lemma MakeDay_fields (t : Z) :
  MakeDay (getFullYear t) (getMonth t) (getDate t) = Day t.
Proof.
  rewrite MakeDay_in_range by apply getMonth_range.
  unfold getDate, DateFromTime. fold (getMonth t).
  rewrite InLeapYear_leapOf. unfold DayWithinYear. fold (getFullYear t). lia.
Qed.

(** Day 0 of the following month is the last day of this one. *)
Lemma MakeDay_next_month_0 (y m : Z) :
  0 <= m <= 11 -> MakeDay y (m + 1) 0 = MakeDay y m (DaysInMonth y m).
Proof.
  intros Hm. rewrite (MakeDay_in_range y m) by assumption.
  unfold DaysInMonth. fold (leapOf y).
  destruct (Z.eq_dec m 11) as [-> | Hne].
  - unfold MakeDay. change ((11 + 1) / 12) with 1. change ((11 + 1) mod 12) with 0.
    rewrite DayFromYear_succ. fold (leapOf (y + 1)).
    destruct (leapOf_cases y) as [[-> ->] | [-> ->]];
      destruct (leapOf_cases (y + 1)) as [[-> _] | [-> _]];
      eval_monthStart; lia.
  - rewrite MakeDay_in_range by lia. lia.
Qed.

End ESCalendar.

Module DateFnsFacts.
Import ES ESFacts ESCalendar DateFns.

Lemma MakeTime_start : MakeTime 0 0 0 0 = 0.
Proof. reflexivity. Qed.

Lemma MakeTime_end : MakeTime 23 59 59 999 = msPerDay - 1.
Proof. reflexivity. Qed.

Lemma msPerDay_pos : 0 <= 0 < msPerDay /\ 0 <= msPerDay - 1 < msPerDay.
Proof. unfold msPerDay. lia. Qed.

Lemma Day_setDate (t dt : Z) : Day (setDate t dt) = Day t + (dt - getDate t).
Proof.
  unfold setDate. rewrite Day_MakeDate by apply TimeWithinDay_range.
  rewrite <- (MakeDay_fields t).
  fold (getFullYear t) (getMonth t).
  rewrite !MakeDay_in_range by apply getMonth_range. lia.
Qed.

Lemma startOfDay_eq (t : Z) : startOfDay t = MakeDate (Day t) 0.
Proof. reflexivity. Qed.

Lemma endOfDay_eq (t : Z) :
  endOfDay t = MakeDate (Day t) (msPerDay - 1).
Proof. reflexivity. Qed.

Lemma getDay_range (t : Z) : 0 <= getDay t <= 6.
Proof. unfold getDay, WeekDay. zdiv. Qed.

Lemma startOfWeek_eq (t : Z) :
  startOfWeek t 1 = MakeDate (Day t - daysSinceMonday t) 0.
Proof.
  unfold startOfWeek, setHours. rewrite Day_setDate, MakeTime_start.
  f_equal. unfold daysSinceMonday.
  pose proof (getDay_range t).
  destruct (Z.ltb_spec (getDay t) 1); zdiv.
Qed.

Lemma endOfWeek_eq (t : Z) :
  endOfWeek t 1 = MakeDate (Day t - daysSinceMonday t + 6) (msPerDay - 1).
Proof.
  unfold endOfWeek, setHours. rewrite Day_setDate, MakeTime_end.
  f_equal. unfold daysSinceMonday.
  pose proof (getDay_range t).
  destruct (Z.ltb_spec (getDay t) 1); zdiv.
Qed.

Lemma startOfMonth_eq (t : Z) :
  startOfMonth t = MakeDate (MakeDay (getFullYear t) (getMonth t) 1) 0.
Proof.
  unfold startOfMonth, setHours, setDate.
  rewrite Day_MakeDate by apply TimeWithinDay_range. reflexivity.
Qed.

Lemma endOfMonth_eq (t : Z) :
  endOfMonth t
  = MakeDate (MakeDay (getFullYear t) (getMonth t)
                (DaysInMonth (getFullYear t) (getMonth t)))
      (msPerDay - 1).
Proof.
  unfold endOfMonth, setHours, setFullYear.
  rewrite Day_MakeDate by apply TimeWithinDay_range.
  rewrite MakeDay_next_month_0 by apply getMonth_range. reflexivity.
Qed.

Lemma startOfYear_eq (t : Z) :
  startOfYear t = MakeDate (MakeDay (getFullYear t) 0 1) 0.
Proof.
  unfold startOfYear, setHours, setFullYear.
  rewrite Day_MakeDate by apply TimeWithinDay_range. reflexivity.
Qed.

Lemma DaysInMonth_december (y : Z) : DaysInMonth y 11 = 31.
Proof.
  unfold DaysInMonth. fold (leapOf y).
  destruct (leapOf_cases y) as [[-> _] | [-> _]]; reflexivity.
Qed.

Lemma MakeDay_year_end (y : Z) : MakeDay (y + 1) 0 0 = MakeDay y 11 31.
Proof.
  rewrite !MakeDay_in_range by lia. rewrite DayFromYear_succ.
  destruct (leapOf_cases y) as [[-> ->] | [-> ->]]; eval_monthStart; lia.
Qed.

Lemma endOfYear_eq (t : Z) :
  endOfYear t = MakeDate (MakeDay (getFullYear t) 11 31) (msPerDay - 1).
Proof.
  unfold endOfYear, setHours, setFullYear.
  rewrite Day_MakeDate by apply TimeWithinDay_range.
  rewrite MakeTime_end, MakeDay_year_end. reflexivity.
Qed.

Lemma onCalendarDay_MakeDate (y m dt time : Z) :
  0 <= m <= 11 -> 1 <= dt <= DaysInMonth y m -> 0 <= time < msPerDay ->
  onCalendarDay (MakeDate (MakeDay y m dt) time) y m dt.
Proof.
  intros Hm Hd Ht. repeat split.
  - apply (getFullYear_MakeDay y m dt time); assumption.
  - apply (getMonth_MakeDay y m dt time); assumption.
  - apply (getDate_MakeDay y m dt time); assumption.
Qed.

(** Days of one month are consecutive, so its first and last day bound
    every day of the month. *)
Lemma Day_in_month (x : Z) :
  MakeDay (getFullYear x) (getMonth x) 1 <= Day x
  /\ Day x <= MakeDay (getFullYear x) (getMonth x)
               (DaysInMonth (getFullYear x) (getMonth x)).
Proof.
  pose proof (MakeDay_fields x) as E.
  pose proof (getDate_range x).
  rewrite MakeDay_in_range in E by apply getMonth_range.
  rewrite !MakeDay_in_range by apply getMonth_range. lia.
Qed.

Lemma Day_in_year (x : Z) :
  MakeDay (getFullYear x) 0 1 <= Day x /\ Day x <= MakeDay (getFullYear x) 11 31.
Proof.
  pose proof (DayWithinYear_range x) as H. unfold DayWithinYear in H.
  fold (getFullYear x) in H.
  rewrite !MakeDay_in_range by lia.
  destruct (leapOf_cases (getFullYear x)) as [[-> Hy] | [-> Hy]];
    rewrite Hy in H; eval_monthStart; lia.
Qed.

(** Comparing time values through their day numbers. *)
Lemma MakeDate_start_le (d t : Z) : d <= Day t -> MakeDate d 0 <= t.
Proof. unfold MakeDate, Day, msPerDay. intros. zdiv. Qed.

Lemma MakeDate_end_ge (d t : Z) : Day t <= d -> t <= MakeDate d (msPerDay - 1).
Proof. unfold MakeDate, Day, msPerDay. intros. zdiv. Qed.

End DateFnsFacts.
(* ================================================================== *)
(** * JavaScript arrays: [slice] and stable [sort] *)
(* ================================================================== *)

Module ArrayFacts.
Import Client Spec.

(** [slice] between two indices that are in order and not negative. *)
Lemma slice_firstn_skipn {A : Type} (l : list A) (a b : Z) :
  0 <= a <= b ->
  slice l a b = firstn (Z.to_nat (b - a)) (skipn (Z.to_nat a) l).
Proof.
  intros H. unfold slice, relativeIndex.
  destruct (Z.ltb_spec a 0); [lia|]. destruct (Z.ltb_spec b 0); [lia|].
  set (len := Z.of_nat (List.length l)).
  assert (Hlen : List.length l = Z.to_nat len) by (subst len; lia).
  destruct (Z.le_gt_cases a len) as [Ha | Ha].
  - rewrite (Z.min_l a len) by lia.
    destruct (Z.le_gt_cases b len) as [Hb | Hb].
    + rewrite (Z.min_l b len), Z.max_l by lia. reflexivity.
    + rewrite (Z.min_r b len), Z.max_l by lia.
      rewrite !firstn_all2; [reflexivity| |]; rewrite length_skipn; lia.
  - rewrite (Z.min_r a len), (Z.min_r b len) by lia.
    rewrite !skipn_all2 by lia. now rewrite !firstn_nil.
Qed.

(** [slice(0, n)] keeps the first [n] elements. *)
Lemma slice_prefix {A : Type} (l : list A) (n : Z) :
  0 <= n -> slice l 0 n = firstn (Z.to_nat n) l.
Proof.
  intros Hn. rewrite slice_firstn_skipn by lia.
  now rewrite Z.sub_0_r.
Qed.

Lemma firstn_plus {A : Type} (a b : nat) (l : list A) :
  firstn (a + b) l = firstn a l ++ firstn b (skipn a l).
Proof.
  revert l. induction a as [|a IH]; intros l; [reflexivity|].
  destruct l as [|x l]; cbn [Nat.add firstn skipn app].
  - now rewrite firstn_nil.
  - now rewrite IH.
Qed.

(** Consecutive slices of equal width tile the array. *)
Lemma slices_tile {A : Type} (l : list A) (w : Z) (k : nat) :
  0 < w ->
  List.concat (map (fun p => slice l ((Z.of_nat p - 1) * w) ((Z.of_nat p - 1) * w + w))
            (seq 1 k))
  = firstn (Z.to_nat (Z.of_nat k * w)) l.
Proof.
  intros Hw. induction k as [|k IH].
  - reflexivity.
  - rewrite seq_S, map_app, concat_app, IH. cbn [map List.concat Nat.add].
    rewrite app_nil_r.
    rewrite slice_firstn_skipn by lia.
    replace (Z.of_nat (S k) - 1) with (Z.of_nat k) by lia.
    replace (Z.of_nat k * w + w - Z.of_nat k * w) with w by lia.
    replace (Z.to_nat (Z.of_nat (S k) * w))
      with (Z.to_nat (Z.of_nat k * w) + Z.to_nat w)%nat by nia.
    now rewrite firstn_plus.
Qed.

Section StableSort.
Context {A : Type}.
Variable cnt : A -> Z.
Variable before : A -> A -> Prop.
Variable compareFn : A -> A -> Z.
Hypothesis compareFn_spec : forall x y, compareFn x y = cnt y - cnt x.

Lemma insertSorted_In (x z : A) (l : list A) :
  In z (insertSorted compareFn x l) <-> z = x \/ In z l.
Proof.
  induction l as [|y l IH]; cbn [insertSorted In].
  - intuition.
  - destruct (compareFn x y <=? 0); cbn [In]; [intuition|].
    rewrite IH. intuition.
Qed.

Lemma insertSorted_perm (x : A) (l : list A) :
  Permutation (x :: l) (insertSorted compareFn x l).
Proof.
  induction l as [|y l IH]; cbn [insertSorted]; [reflexivity|].
  destruct (compareFn x y <=? 0); [reflexivity|].
  apply perm_trans with (y :: x :: l); [apply perm_swap | now apply perm_skip].
Qed.

Lemma sort_perm (l : list A) : Permutation l (sort compareFn l).
Proof.
  induction l as [|x l IH]; cbn [sort fold_right]; [reflexivity|].
  rewrite <- insertSorted_perm. now constructor.
Qed.

Lemma insertSorted_sorted (x : A) (l : list A) :
  StronglySorted (ranked cnt before) l -> (forall y, In y l -> before x y) ->
  StronglySorted (ranked cnt before) (insertSorted compareFn x l).
Proof.
  induction 1 as [|y l Hl IH Hy]; intros Hx; cbn [insertSorted].
  - constructor; constructor.
  - pose proof Hy as Hy'. rewrite Forall_forall in Hy. rewrite compareFn_spec.
    destruct (Z.leb_spec (cnt y - cnt x) 0) as [Hle | Hgt].
    + constructor; [constructor; assumption|].
      rewrite Forall_forall. intros z [<- | Hz].
      * unfold ranked.
        destruct (Z.eq_dec (cnt x) (cnt y)); [right | left; lia].
        split; [assumption | apply Hx; now left].
      * specialize (Hy z Hz). unfold ranked in *.
        destruct (Z.eq_dec (cnt x) (cnt z)); [right | left; lia].
        split; [assumption | apply Hx; now right].
    + clear Hy'. constructor.
      * apply IH. intros z Hz. apply Hx. now right.
      * rewrite Forall_forall. intros z Hz.
        apply insertSorted_In in Hz as [-> | Hz]; [|now apply Hy].
        left. lia.
Qed.

Lemma sort_sorted (l : list A) :
  StronglySorted before l -> StronglySorted (ranked cnt before) (sort compareFn l).
Proof.
  induction 1 as [|x l Hl IH Hx]; cbn [sort fold_right]; [constructor|].
  apply insertSorted_sorted; [exact IH|].
  rewrite Forall_forall in Hx. intros y Hy. apply Hx.
  eapply Permutation_in; [symmetry; apply sort_perm | exact Hy].
Qed.

End StableSort.

End ArrayFacts.
(* ================================================================== *)
(** * Scope resolver: the resolved range *)
(* ================================================================== *)

Module ScopeResolver.
Import ES ESFacts ESCalendar DateFns DateFnsFacts Client Spec.

Lemma Day_start (d : Z) : Day (MakeDate d 0) = d.
Proof. apply Day_MakeDate, msPerDay_pos. Qed.

Lemma Day_end (d : Z) : Day (MakeDate d (msPerDay - 1)) = d.
Proof. apply Day_MakeDate, msPerDay_pos. Qed.

Lemma getDay_MakeDate (d time : Z) :
  0 <= time < msPerDay -> getDay (MakeDate d time) = (d + 4) mod 7.
Proof. intros H. unfold getDay, WeekDay. now rewrite Day_MakeDate. Qed.

Lemma daysSinceMonday_range (t : Z) : 0 <= daysSinceMonday t <= 6.
Proof. unfold daysSinceMonday. zdiv. Qed.

(** The week start is a Monday and the week end the Sunday after it. *)
Lemma week_start_monday (t : Z) : getDay (startOfWeek t 1) = 1.
Proof.
  rewrite startOfWeek_eq, getDay_MakeDate by apply msPerDay_pos.
  unfold daysSinceMonday, getDay, WeekDay. zdiv.
Qed.


Lemma year_start_fields (t : Z) :
  onCalendarDay (startOfYear t) (getFullYear t) 0 1.
Proof.
  rewrite startOfYear_eq. apply onCalendarDay_MakeDate; try lia.
  - pose proof (DaysInMonth_pos (getFullYear t) 0). lia.
  - apply msPerDay_pos.
Qed.

Lemma year_end_fields (t : Z) :
  onCalendarDay (endOfYear t) (getFullYear t) 11 31.
Proof.
  rewrite endOfYear_eq. apply onCalendarDay_MakeDate; try lia.
  - rewrite DaysInMonth_december. lia.
  - apply msPerDay_pos.
Qed.

Lemma month_start_fields (t : Z) :
  onCalendarDay (startOfMonth t) (getFullYear t) (getMonth t) 1.
Proof.
  rewrite startOfMonth_eq. apply onCalendarDay_MakeDate.
  - apply getMonth_range.
  - pose proof (DaysInMonth_pos (getFullYear t) (getMonth t) (getMonth_range t)). lia.
  - apply msPerDay_pos.
Qed.

Lemma month_end_fields (t : Z) :
  onCalendarDay (endOfMonth t) (getFullYear t) (getMonth t)
    (DaysInMonth (getFullYear t) (getMonth t)).
Proof.
  rewrite endOfMonth_eq. apply onCalendarDay_MakeDate.
  - apply getMonth_range.
  - pose proof (DaysInMonth_pos (getFullYear t) (getMonth t) (getMonth_range t)). lia.
  - apply msPerDay_pos.
Qed.

(** Every day of the year (of the month) lies between the two bounds. *)
Lemma year_covers (t x : Z) :
  getFullYear x = getFullYear t ->
  Day (startOfYear t) <= Day x <= Day (endOfYear t).
Proof.
  intros E. rewrite startOfYear_eq, endOfYear_eq, Day_start, Day_end, <- E.
  apply Day_in_year.
Qed.

Lemma month_covers (t x : Z) :
  getFullYear x = getFullYear t -> getMonth x = getMonth t ->
  Day (startOfMonth t) <= Day x <= Day (endOfMonth t).
Proof.
  intros Ey Em.
  rewrite startOfMonth_eq, endOfMonth_eq, Day_start, Day_end, <- Ey, <- Em.
  apply Day_in_month.
Qed.

Lemma week_covers (t : Z) :
  Day t - 6 <= Day (startOfWeek t 1) <= Day t
  /\ Day (endOfWeek t 1) = Day (startOfWeek t 1) + 6.
Proof.
  rewrite startOfWeek_eq, endOfWeek_eq, Day_start, Day_end.
  pose proof (daysSinceMonday_range t). lia.
Qed.

Lemma day_covers (t : Z) : Day (startOfDay t) = Day t /\ Day (endOfDay t) = Day t.
Proof. now rewrite startOfDay_eq, endOfDay_eq, Day_start, Day_end. Qed.

(** The range of a valid date, scope by scope. *)
Lemma getDateRange_valid (dateISO : string) (d : Z) (sc : Scope) :
  parseISO dateISO = Some d ->
  getDateRange dateISO sc
  = match sc with
    | summary | year => mkRange (Some (startOfYear d)) (Some (endOfYear d))
    | month => mkRange (Some (startOfMonth d)) (Some (endOfMonth d))
    | week => mkRange (Some (startOfWeek d 1)) (Some (endOfWeek d 1))
    | day => mkRange (Some (startOfDay d)) (Some (endOfDay d))
    end.
Proof.
  intros E. unfold getDateRange. rewrite E.
  destruct sc; reflexivity.
Qed.

(** A range that opens with the first millisecond of a day and closes
    with the last millisecond of a day contains the times of all days
    in between. *)
Lemma bounds_contain (a b x : Z) :
  a = MakeDate (Day a) 0 -> b = MakeDate (Day b) (msPerDay - 1) ->
  Day a <= Day x <= Day b -> a <= x <= b.
Proof.
  intros Ha Hb [Hlo Hhi]. rewrite Ha, Hb. split.
  - now apply MakeDate_start_le.
  - now apply MakeDate_end_ge.
Qed.

Lemma year_bounds (t : Z) :
  startOfYear t = MakeDate (Day (startOfYear t)) 0
  /\ endOfYear t = MakeDate (Day (endOfYear t)) (msPerDay - 1).
Proof. now rewrite startOfYear_eq, endOfYear_eq, Day_start, Day_end. Qed.

Lemma month_bounds (t : Z) :
  startOfMonth t = MakeDate (Day (startOfMonth t)) 0
  /\ endOfMonth t = MakeDate (Day (endOfMonth t)) (msPerDay - 1).
Proof. now rewrite startOfMonth_eq, endOfMonth_eq, Day_start, Day_end. Qed.

Lemma week_bounds (t : Z) :
  startOfWeek t 1 = MakeDate (Day (startOfWeek t 1)) 0
  /\ endOfWeek t 1 = MakeDate (Day (endOfWeek t 1)) (msPerDay - 1).
Proof. now rewrite startOfWeek_eq, endOfWeek_eq, Day_start, Day_end. Qed.

Lemma day_bounds (t : Z) :
  startOfDay t = MakeDate (Day (startOfDay t)) 0
  /\ endOfDay t = MakeDate (Day (endOfDay t)) (msPerDay - 1).
Proof. now rewrite startOfDay_eq, endOfDay_eq, Day_start, Day_end. Qed.

Lemma year_contains (d : Z) :
  startOfYear d <= d <= endOfYear d
  /\ Day (startOfYear d) <= Day d <= Day (endOfYear d).
Proof.
  pose proof (year_bounds d) as [Ha Hb].
  pose proof (year_covers d d eq_refl) as H.
  split; [now apply bounds_contain | exact H].
Qed.

Lemma month_contains (d : Z) :
  startOfMonth d <= d <= endOfMonth d
  /\ Day (startOfMonth d) <= Day d <= Day (endOfMonth d).
Proof.
  pose proof (month_bounds d) as [Ha Hb].
  pose proof (month_covers d d eq_refl eq_refl) as H.
  split; [now apply bounds_contain | exact H].
Qed.

Lemma week_contains (d : Z) :
  startOfWeek d 1 <= d <= endOfWeek d 1
  /\ Day (startOfWeek d 1) <= Day d <= Day (endOfWeek d 1).
Proof.
  pose proof (week_bounds d) as [Ha Hb].
  pose proof (week_covers d) as [H1 H2].
  assert (H : Day (startOfWeek d 1) <= Day d <= Day (endOfWeek d 1)) by lia.
  split; [now apply bounds_contain | exact H].
Qed.

Lemma day_contains (d : Z) :
  startOfDay d <= d <= endOfDay d
  /\ Day (startOfDay d) <= Day d <= Day (endOfDay d).
Proof.
  pose proof (day_bounds d) as [Ha Hb].
  pose proof (day_covers d) as [H1 H2].
  assert (H : Day (startOfDay d) <= Day d <= Day (endOfDay d)) by lia.
  split; [now apply bounds_contain | exact H].
Qed.



(** C7.  For every date [d] and every scope the resolved range
    contains [d], as a time and as a calendar day; for scope summary the
    range is the whole calendar year of [d], from January 1 to
    December 31, wherever [d] lies in that year. *)
Theorem getDateRange_contains (dateISO : string) (d : Z) (sc : Scope) :
  parseISO dateISO = Some d ->
  exists a b,
    getDateRange dateISO sc = mkRange (Some a) (Some b)
    /\ a <= d <= b
    /\ Day a <= Day d <= Day b
    /\ (sc = summary ->
        onCalendarDay a (getFullYear d) 0 1
        /\ onCalendarDay b (getFullYear d) 11 31
        /\ forall x, getFullYear x = getFullYear d -> a <= x <= b).
Proof.
  intros E. rewrite (getDateRange_valid _ _ sc E).
  destruct sc.
  - exists (startOfYear d), (endOfYear d).
    pose proof (year_contains d) as [Ht Hd]. pose proof (year_bounds d) as [Ha Hb].
    split; [reflexivity|]. split; [exact Ht|]. split; [exact Hd|].
    intros _. split; [apply year_start_fields|].
    split; [apply year_end_fields|].
    intros x Hx. apply bounds_contain; auto. now apply year_covers.
  - exists (startOfYear d), (endOfYear d).
    pose proof (year_contains d) as [Ht Hd].
    split; [reflexivity|]. split; [exact Ht|]. split; [exact Hd|]. discriminate.
  - exists (startOfMonth d), (endOfMonth d).
    pose proof (month_contains d) as [Ht Hd].
    split; [reflexivity|]. split; [exact Ht|]. split; [exact Hd|]. discriminate.
  - exists (startOfWeek d 1), (endOfWeek d 1).
    pose proof (week_contains d) as [Ht Hd].
    split; [reflexivity|]. split; [exact Ht|]. split; [exact Hd|]. discriminate.
  - exists (startOfDay d), (endOfDay d).
    pose proof (day_contains d) as [Ht Hd].
    split; [reflexivity|]. split; [exact Ht|]. split; [exact Hd|]. discriminate.
Qed.

Lemma getDateRange_contains_witness :
  exists a b,
    getDateRange "2025-12-31" summary = mkRange (Some a) (Some b)
    /\ a <= 1767139200000 <= b
    /\ Day a <= Day 1767139200000 <= Day b
    /\ (summary = summary ->
        onCalendarDay a (getFullYear 1767139200000) 0 1
        /\ onCalendarDay b (getFullYear 1767139200000) 11 31
        /\ forall x, getFullYear x = getFullYear 1767139200000 -> a <= x <= b).
Proof.
  exact (getDateRange_contains "2025-12-31" 1767139200000 summary eq_refl).
Defined.

End ScopeResolver.
(* ================================================================== *)
(** * Scope resolver: breadcrumbs and the week of the month *)
(* ================================================================== *)

Module Breadcrumbs.
Import ES ESFacts ESCalendar DateFns DateFnsFacts Client Spec.

Lemma append_assoc (a b c : string) : ((a ++ b) ++ c = a ++ (b ++ c))%string.
Proof. induction a as [|x a IH]; simpl; [reflexivity | now rewrite IH]. Qed.

Lemma append_nil_r (a : string) : (a ++ EmptyString = a)%string.
Proof. induction a as [|x a IH]; simpl; [reflexivity | now rewrite IH]. Qed.

(** The code's string is the trail, crumb after crumb. *)
Lemma renderBreadcrumbs_refines (dayPattern : Z -> string) (tz : TimeZone)
    (st : State) (d : Z) :
  parseISO (dateISO st) = Some d ->
  renderBreadcrumbsWith dayPattern tz st
  = Some (renderCrumbs (breadcrumbs dayPattern tz d (scope st))).
Proof.
  intros E. unfold renderBreadcrumbsWith. rewrite E. f_equal.
  unfold breadcrumbs, renderCrumbs, summaryCrumb, yearCrumb, monthCrumb,
    weekCrumb, dayCrumb.
  generalize (format_yyyy d) (format_LLLL d) (dayPattern d)
    (numberToString (weekOfMonth tz d)).
  intros y m dn w.
  destruct (scope st); cbn [scope_eqb negb andb app fold_right crumbHTML
                              linked label crumbScope scopeName];
    rewrite ?append_assoc, ?append_nil_r; cbn [append]; reflexivity.
Qed.

(** Week starts, as day numbers. *)
Lemma Day_startOfWeek (t : Z) : Day (startOfWeek t 1) = Day t - daysSinceMonday t.
Proof. rewrite startOfWeek_eq. apply Day_MakeDate, msPerDay_pos. Qed.

Lemma startOfWeek_same_week (a b : Z) :
  Day (startOfWeek a 1) <= Day b < Day (startOfWeek a 1) + 7 ->
  startOfWeek b 1 = startOfWeek a 1.
Proof.
  rewrite !startOfWeek_eq, Day_MakeDate by apply msPerDay_pos.
  unfold daysSinceMonday, getDay, WeekDay. intros H. f_equal. zdiv.
Qed.

(** The week start of the first of the month is on or before the week
    start of any day of the month, a whole number of weeks earlier. *)
Lemma first_week_start_before (d : Z) :
  let fws := Day (startOfWeek (startOfMonth d) 1) in
  let cws := Day (startOfWeek d 1) in
  fws <= cws /\ (cws - fws) mod 7 = 0 /\ fws <= Day d.
Proof.
  cbv zeta. rewrite !Day_startOfWeek.
  assert (Hm : Day (startOfMonth d) <= Day d).
  { rewrite startOfMonth_eq, Day_MakeDate by apply msPerDay_pos.
    apply Day_in_month. }
  unfold daysSinceMonday, getDay, WeekDay. zdiv.
Qed.

(** The code counts the weeks of the calendar when the zone offset at
    the week start of [d] is the offset at the first week start, or
    lower; it counts one week less when the offset is higher, as it is
    after the clocks have gone forward. *)
Lemma weekOfMonth_offsets (tz : TimeZone) (d : Z) :
  let shift := tz (startOfWeek d 1) - tz (startOfWeek (startOfMonth d) 1) in
  (- (7 * msPerDay) < shift <= 0 -> weekOfMonth tz d = 1 + wholeWeeks d)
  /\ (0 < shift <= 7 * msPerDay -> weekOfMonth tz d = wholeWeeks d).
Proof.
  unfold weekOfMonth, wholeWeeks, getTime.
  pose proof (first_week_start_before d) as (Hle & Hmod & _). cbv zeta in *.
  revert Hle Hmod.
  rewrite (startOfWeek_eq d), (startOfWeek_eq (startOfMonth d)).
  rewrite !Day_MakeDate by apply msPerDay_pos.
  generalize (Day d - daysSinceMonday d).
  generalize (Day (startOfMonth d) - daysSinceMonday (startOfMonth d)).
  intros f c.
  generalize (tz (MakeDate c 0)) (tz (MakeDate f 0)).
  intros oc ofs Hle Hmod. unfold MakeDate, msPerDay. split; intros H; zdiv.
Qed.

Lemma weekOfMonth_same_offset (tz : TimeZone) (d : Z) :
  tz (startOfWeek d 1) = tz (startOfWeek (startOfMonth d) 1) ->
  weekOfMonth tz d = 1 + wholeWeeks d.
Proof.
  intros Htz. apply (proj1 (weekOfMonth_offsets tz d)).
  rewrite Htz, Z.sub_diag. unfold msPerDay. lia.
Qed.

(** In the first week of the month the label is 1, in every zone. *)
Lemma weekOfMonth_first_week (tz : TimeZone) (d : Z) :
  Day d < Day (startOfWeek (startOfMonth d) 1) + 7 ->
  weekOfMonth tz d = 1.
Proof.
  intros H. unfold weekOfMonth.
  pose proof (first_week_start_before d) as (_ & _ & Hd). cbv zeta in Hd.
  rewrite (startOfWeek_same_week (startOfMonth d) d) by lia.
  rewrite Z.sub_diag. reflexivity.
Qed.

(** C6, at a date after the start of daylight saving.  In US Eastern
    time the week of Monday 2025-03-10 is the third Monday-aligned week
    that reaches into March (they start on 02-24, 03-03 and 03-10), yet
    the code labels it Week 2: the two week starts are 14 days less one
    hour apart on the clock, and the quotient by seven 24-hour days is
    rounded down.  The week of 2025-03-03 before it is Week 2 as well. *)
Theorem weekOfMonth_daylight_saving :
  parseISO "2025-03-10" = Some 1741564800000
  /\ iso (startOfWeek (startOfMonth 1741564800000) 1) = "2025-02-24"%string
  /\ iso (startOfWeek 1741564800000 1) = "2025-03-10"%string
  /\ 1 + wholeWeeks 1741564800000 = 3
  /\ weekOfMonth easternTime2025 1741564800000 = 2
  /\ getTime easternTime2025 (startOfWeek 1741564800000 1)
     - getTime easternTime2025 (startOfWeek (startOfMonth 1741564800000) 1)
     = 14 * msPerDay - msPerHour
  /\ MainTs.renderBreadcrumbs easternTime2025 (mkState "2025-03-10" week [] 1 3)
     = Some (renderCrumbs [summaryCrumb; mkCrumb "2025" year true;
                           mkCrumb "March" month true;
                           mkCrumb "Week 2" week false])
  /\ MainTs.renderBreadcrumbs easternTime2025 (mkState "2025-03-03" week [] 1 3)
     = Some (renderCrumbs [summaryCrumb; mkCrumb "2025" year true;
                           mkCrumb "March" month true;
                           mkCrumb "Week 2" week false]).
Proof. repeat split; vm_compute; reflexivity. Qed.

End Breadcrumbs.
(* ================================================================== *)
(** * Prompt selector *)
(* ================================================================== *)

Module PromptSelector.
Import ES ESFacts ESCalendar DateFns DateFnsFacts Client ArrayFacts Spec.

Lemma countSentiment_fold (l : list Note) (c : SentimentCounts) :
  fold_left countSentiment l c
  = mkCounts (c_positive c + countOf positive l)
             (c_neutral c + countOf neutral l)
             (c_negative c + countOf negative l).
Proof.
  revert c. induction l as [|n l IH]; intros c.
  - destruct c. unfold countOf. cbn. f_equal; lia.
  - cbn [fold_left]. rewrite IH. unfold countSentiment, countOf. cbn [filter].
    destruct (sentiment (analysis n)); cbn [sentiment_eqb c_positive c_neutral
      c_negative List.length]; f_equal; lia.
Qed.

Lemma getRecentSentiment_nonempty (st : State) :
  notes st <> [] ->
  getRecentSentiment st
  = dominant (countOf positive (firstn 3 (notes st)))
             (countOf neutral (firstn 3 (notes st)))
             (countOf negative (firstn 3 (notes st))).
Proof.
  intros Hne. unfold getRecentSentiment.
  destruct (notes st) as [|n l] eqn:E; [contradiction|].
  replace (Z.of_nat (List.length (n :: l)) =? 0) with false
    by (symmetry; apply Z.eqb_neq; cbn [List.length]; lia).
  rewrite slice_prefix by lia. change (Z.to_nat 3) with 3%nat.
  rewrite countSentiment_fold. reflexivity.
Qed.

Lemma dominant_is_maximal (p u n : Z) (s : Sentiment) :
  dominant p u n = s ->
  let c x := match x with positive => p | neutral => u | negative => n end in
  forall x, c x <= c s.
Proof.
  unfold dominant. intros H x.
  destruct (Z.eqb_spec p (Z.max (Z.max p u) n));
    [|destruct (Z.eqb_spec n (Z.max (Z.max p u) n))];
    subst s; destruct x; cbv zeta beta iota; lia.
Qed.

(** ** The random pick *)

Lemma random_index (random : Q) (n : Z) :
  (0 <= random)%Q -> (random < 1)%Q -> 0 < n ->
  0 <= Qfloor (random * inject_Z n) < n.
Proof.
  destruct random as [a b]. unfold Qle, Qlt, Qfloor, Qmult, inject_Z.
  cbn [Qnum Qden]. intros H0 H1 Hn.
  rewrite Z.mul_1_r in H0, H1. rewrite Z.mul_1_l in H1. rewrite Pos.mul_1_r.
  split.
  - apply Z.div_pos; nia.
  - apply Z.div_lt_upper_bound; nia.
Qed.

Lemma arrayGet_in_range {A : Type} (l : list A) (i : Z) :
  0 <= i < Z.of_nat (List.length l) -> exists x, arrayGet l i = Some x /\ In x l.
Proof.
  intros H. unfold arrayGet. destruct (Z.ltb_spec i 0); [lia|].
  destruct (nth_error l (Z.to_nat i)) as [x|] eqn:E.
  - exists x. split; [reflexivity|]. now apply nth_error_In with (n := Z.to_nat i).
  - apply nth_error_None in E. lia.
Qed.

(** [choosePrompt] returns the tier's prefix followed by a prompt of the
    tier's pool, provided the pool is not empty. *)
Lemma choosePrompt_pick (tz : TimeZone) (now weekendClock : Z) (random : Q)
    (st : State) (pool : list string) (prefix : string) :
  (0 <= random)%Q -> (random < 1)%Q ->
  promptTier tz now weekendClock st = (pool, prefix) ->
  pool <> [] ->
  exists p, In p pool
            /\ choosePrompt tz now weekendClock random st = (prefix ++ p)%string.
Proof.
  intros H0 H1 Ht Hne. unfold choosePrompt. rewrite Ht.
  assert (Hlen : 0 < Z.of_nat (List.length pool))
    by (destruct pool; [contradiction | cbn [List.length]; lia]).
  destruct (arrayGet_in_range pool _ (random_index random _ H0 H1 Hlen))
    as (p & Hp & Hin).
  exists p. split; [assumption|]. now rewrite Hp.
Qed.

Lemma PROMPTS_daily_nonempty (s : Sentiment) : PROMPTS_daily s <> [].
Proof. destruct s; discriminate. Qed.

Lemma promptTier_nonempty (tz : TimeZone) (now weekendClock : Z) (st : State) :
  fst (promptTier tz now weekendClock st) <> [].
Proof.
  unfold promptTier.
  destruct (_ || _); [discriminate|].
  destruct (_ || _); [discriminate|].
  destruct (isWeekend _); [discriminate|].
  apply PROMPTS_daily_nonempty.
Qed.

Lemma isWeekend_days (now : Z) :
  isWeekend now = true <-> getDay now = 5 \/ getDay now = 6 \/ getDay now = 0.
Proof.
  unfold isWeekend. generalize (getDay now). intros g.
  destruct (Z.eqb_spec g 0), (Z.eqb_spec g 5), (Z.eqb_spec g 6);
    cbn [orb]; split; intros; try lia; try reflexivity; try discriminate.
Qed.

(** The code's day-of-year is the day's number within the year,
    starting at 1, when the zone offset now is the offset at the
    midnight that opened December 31 of the year before. *)
Lemma dayOfYear_calendar (tz : TimeZone) (now : Z) :
  tz now = tz (newDate (getFullYear now) 0 0) ->
  ~ 0 <= getFullYear now <= 99 ->
  dayOfYear tz now = DayWithinYear now + 1.
Proof.
  intros Htz Hy. unfold dayOfYear, getTime. rewrite Htz.
  generalize (tz (newDate (getFullYear now) 0 0)). intros o.
  unfold newDate.
  replace ((0 <=? getFullYear now) && (getFullYear now <=? 99)) with false.
  2:{ symmetry. apply andb_false_iff.
      destruct (Z.leb_spec 0 (getFullYear now)); [right|left; reflexivity].
      apply Z.leb_gt. lia. }
  rewrite MakeDay_in_range by lia. change (monthStart 0 _) with 0.
  unfold DayWithinYear. fold (getFullYear now).
  generalize (DayFromYear (getFullYear now)). intros f.
  unfold MakeDate, Day, msPerDay. zdiv.
Qed.

(** The tiers on the code's own day count.  [choosePrompt] settles its
    tier in this order: the code's [dayOfYear] at most 7 or at least
    358 gives a yearly prompt behind "Year-end reflection: "; otherwise
    a day of the month at most 3 or at least 28 gives a monthly prompt
    behind "Monthly reflection: "; otherwise a Friday, Saturday or
    Sunday gives a weekend prompt behind "Week reflection: "; otherwise
    a daily prompt for the recent sentiment behind "Daily prompt: ".
    The code's [dayOfYear] is the calendar's whenever the zone offset
    is the one in effect when December 31 of the previous year began. *)
Lemma choosePrompt_precedence (tz : TimeZone) (now weekendClock : Z)
    (random : Q) (st : State) :
  (0 <= random)%Q -> (random < 1)%Q ->
  let doy := dayOfYear tz now in
  let dom := getDate now in
  let result := choosePrompt tz now weekendClock random st in
  let weekend := getDay weekendClock = 5 \/ getDay weekendClock = 6
                 \/ getDay weekendClock = 0 in
  (doy <= 7 \/ 358 <= doy ->
     exists p, In p PROMPTS_yearly
               /\ result = ("Year-end reflection: " ++ p)%string)
  /\ (7 < doy < 358 -> dom <= 3 \/ 28 <= dom ->
      exists p, In p PROMPTS_monthly
                /\ result = ("Monthly reflection: " ++ p)%string)
  /\ (7 < doy < 358 -> 3 < dom < 28 -> weekend ->
      exists p, In p PROMPTS_weekend
                /\ result = ("Week reflection: " ++ p)%string)
  /\ (7 < doy < 358 -> 3 < dom < 28 -> ~ weekend ->
      exists p, In p (PROMPTS_daily (getRecentSentiment st))
                /\ result = ("Daily prompt: " ++ p)%string)
  /\ (doy = 365 \/ doy = 1 ->
      exists p, result = ("Year-end reflection: " ++ p)%string)
  /\ (tz now = tz (newDate (getFullYear now) 0 0) ->
      ~ 0 <= getFullYear now <= 99 ->
      doy = DayWithinYear now + 1).
Proof.
  intros H0 H1 doy dom result weekend.
  assert (Pick : forall pool prefix,
             promptTier tz now weekendClock st = (pool, prefix) -> pool <> [] ->
             exists p, In p pool /\ result = (prefix ++ p)%string).
  { intros pool prefix Ht Hne. now apply choosePrompt_pick. }
  assert (Yearly : doy <= 7 \/ 358 <= doy ->
                   promptTier tz now weekendClock st
                   = (PROMPTS_yearly, "Year-end reflection: "%string)).
  { intros H. unfold promptTier. fold doy.
    replace ((doy <=? 7) || (358 <=? doy)) with true; [reflexivity|].
    symmetry. apply orb_true_iff. rewrite !Z.leb_le. exact H. }
  assert (NotYearly : 7 < doy < 358 -> (doy <=? 7) || (358 <=? doy) = false).
  { intros H. apply orb_false_iff. rewrite !Z.leb_gt. lia. }
  assert (NotMonthly : 3 < dom < 28 -> (dom <=? 3) || (28 <=? dom) = false).
  { intros H. apply orb_false_iff. rewrite !Z.leb_gt. lia. }
  split; [|split; [|split; [|split; [|split]]]].
  - intros H. apply Pick; [now apply Yearly | discriminate].
  - intros Hy Hm. apply Pick; [|discriminate].
    unfold promptTier. fold doy dom. rewrite (NotYearly Hy).
    replace ((dom <=? 3) || (28 <=? dom)) with true; [reflexivity|].
    symmetry. apply orb_true_iff. rewrite !Z.leb_le. exact Hm.
  - intros Hy Hm Hw. apply Pick; [|discriminate].
    unfold promptTier. fold doy dom. rewrite (NotYearly Hy), (NotMonthly Hm).
    apply isWeekend_days in Hw. now rewrite Hw.
  - intros Hy Hm Hw. apply Pick; [|apply PROMPTS_daily_nonempty].
    unfold promptTier. fold doy dom. rewrite (NotYearly Hy), (NotMonthly Hm).
    destruct (isWeekend weekendClock) eqn:E; [|reflexivity].
    apply isWeekend_days in E. contradiction.
  - intros H.
    destruct (Pick _ _ (Yearly ltac:(lia)) ltac:(discriminate)) as (p & _ & Hp).
    now exists p.
  - apply dayOfYear_calendar.
Qed.

Lemma choosePrompt_precedence_witness :
  exists p, In p PROMPTS_yearly
            /\ choosePrompt utc 1767139200000 1767139200000 (1 # 2)
                 (mkState "2025-12-31" day [] 1 3)
               = ("Year-end reflection: " ++ p)%string.
Proof.
  refine (proj1 (choosePrompt_precedence utc 1767139200000 1767139200000 (1 # 2)
                   (mkState "2025-12-31" day [] 1 3) _ _) _).
  - vm_compute. discriminate.
  - vm_compute. reflexivity.
  - vm_compute. right. discriminate.
Defined.

(** C2, in a zone whose offset from UTC has changed since the last
    day of the year before.  The code takes the day of the year from
    the clock time elapsed since the local midnight that opened
    December 31 of the previous year, in whole 24-hour days.  In Almaty
    at 23:30 on Sunday 2024-12-22, day 357 of the year, an hour more
    has elapsed than the calendar shows: the code counts day 358 and
    returns a yearly prompt, where the tiers of the calendar give a
    weekend prompt.  In Amman at 00:30 on Saturday 2022-12-24, day 358
    of the year, an hour less has elapsed: the code counts day 357 and
    returns a weekend prompt, where the calendar gives a yearly one. *)
Theorem choosePrompt_zone_change :
  (iso 1734910200000 = "2024-12-22"%string
   /\ DayWithinYear 1734910200000 + 1 = 357
   /\ getDate 1734910200000 = 22 /\ getDay 1734910200000 = 0
   /\ dayOfYear almaty2024 1734910200000 = 358
   /\ forall (random : Q) (st : State),
        (0 <= random)%Q -> (random < 1)%Q ->
        exists p, In p PROMPTS_yearly
                  /\ choosePrompt almaty2024 1734910200000 1734910200000
                       random st
                     = ("Year-end reflection: " ++ p)%string)
  /\ (iso 1671841800000 = "2022-12-24"%string
      /\ DayWithinYear 1671841800000 + 1 = 358
      /\ getDate 1671841800000 = 24 /\ getDay 1671841800000 = 6
      /\ dayOfYear amman2022 1671841800000 = 357
      /\ forall (random : Q) (st : State),
           (0 <= random)%Q -> (random < 1)%Q ->
           exists p, In p PROMPTS_weekend
                     /\ choosePrompt amman2022 1671841800000 1671841800000
                          random st
                        = ("Week reflection: " ++ p)%string).
Proof.
  split; (split; [vm_compute; reflexivity|]); (split; [vm_compute; reflexivity|]);
    (split; [vm_compute; reflexivity|]); (split; [vm_compute; reflexivity|]);
    (split; [vm_compute; reflexivity|]); intros random st H0 H1;
    (apply choosePrompt_pick; [assumption | assumption | | discriminate]);
    vm_compute; reflexivity.
Qed.

(** C3.  In the daily tier the sentiment is the one [dominant] picks
    from the counts of the three sentiments among the first three
    entries of the history: positive when its count reaches the
    maximum, else negative when its count does, else neutral; the
    sentiment picked has a count no other sentiment exceeds.  With an
    empty history the sentiment is neutral.  The selection always
    yields a string: the prefix of its tier followed by a prompt of its
    pool, never the text of [undefined]. *)
Theorem getRecentSentiment_majority (tz : TimeZone) (now weekendClock : Z)
    (random : Q) (st : State) :
  (0 <= random)%Q -> (random < 1)%Q ->
  let recent := firstn 3 (notes st) in
  (notes st = [] -> getRecentSentiment st = neutral)
  /\ (notes st <> [] ->
      getRecentSentiment st
      = dominant (countOf positive recent) (countOf neutral recent)
                 (countOf negative recent)
      /\ forall s, countOf s recent <= countOf (getRecentSentiment st) recent)
  /\ (exists p,
        In p (fst (promptTier tz now weekendClock st))
        /\ choosePrompt tz now weekendClock random st
           = (snd (promptTier tz now weekendClock st) ++ p)%string)
  /\ (snd (promptTier tz now weekendClock st) = "Daily prompt: "%string ->
      fst (promptTier tz now weekendClock st)
      = PROMPTS_daily (getRecentSentiment st)).
Proof.
  intros H0 H1 recent. split; [|split; [|split]].
  - intros E. unfold getRecentSentiment. now rewrite E.
  - intros Hne. pose proof (getRecentSentiment_nonempty st Hne) as E.
    fold recent in E. split; [exact E|].
    intros s. symmetry in E.
    pose proof (dominant_is_maximal _ _ _ _ E) as Hmax. cbv zeta in Hmax.
    specialize (Hmax s).
    destruct s, (getRecentSentiment st); exact Hmax.
  - apply choosePrompt_pick; auto.
    + now destruct (promptTier tz now weekendClock st).
    + apply promptTier_nonempty.
  - unfold promptTier.
    destruct (_ || _); [discriminate|].
    destruct (_ || _); [discriminate|].
    destruct (isWeekend _); [discriminate|].
    reflexivity.
Qed.

Lemma getRecentSentiment_majority_witness :
  getRecentSentiment (mkState "2025-06-11" day [] 1 3) = neutral.
Proof.
  refine (proj1 (getRecentSentiment_majority utc 1749600000000 1749600000000
                   (1 # 2) (mkState "2025-06-11" day [] 1 3) _ _) eq_refl).
  - vm_compute. discriminate.
  - vm_compute. reflexivity.
Defined.

End PromptSelector.
(* ================================================================== *)
(** * Overview aggregator *)
(* ================================================================== *)

Module Overview.
Import ES DateFns Client ArrayFacts Spec.

(** ** Facts on lists *)

Lemma firstIndex_lt (x : string) (l : list string) :
  In x l -> (firstIndex x l < List.length l)%nat.
Proof.
  induction l as [|y l IH]; cbn [In firstIndex List.length]; [contradiction|].
  intros [-> | H].
  - rewrite String.eqb_refl. lia.
  - destruct (String.eqb y x); [lia|]. specialize (IH H). lia.
Qed.

Lemma firstIndex_app_in (x y : string) (l : list string) :
  In x l -> firstIndex x (l ++ [y]) = firstIndex x l.
Proof.
  induction l as [|z l IH]; cbn [In firstIndex app]; [contradiction|].
  intros [-> | H].
  - now rewrite String.eqb_refl.
  - destruct (String.eqb z x); [reflexivity|]. now rewrite IH.
Qed.

Lemma firstIndex_app_new (x : string) (l : list string) :
  ~ In x l -> firstIndex x (l ++ [x]) = List.length l.
Proof.
  induction l as [|z l IH]; cbn [In firstIndex app List.length]; intros H.
  - now rewrite String.eqb_refl.
  - destruct (String.eqb_spec z x) as [-> | Hne]; [tauto|].
    rewrite IH by tauto. reflexivity.
Qed.

Lemma countIn_app (x y : string) (l : list string) :
  countIn x (l ++ [y]) = countIn x l + (if String.eqb y x then 1 else 0).
Proof.
  unfold countIn. rewrite count_occ_app. cbn [count_occ].
  destruct (string_dec y x) as [-> | Hne].
  - rewrite String.eqb_refl. lia.
  - destruct (String.eqb_spec y x); [contradiction | lia].
Qed.

Lemma countIn_pos (x : string) (l : list string) : In x l -> 0 < countIn x l.
Proof.
  intros H. unfold countIn.
  apply (count_occ_In string_dec) in H. lia.
Qed.

Lemma countIn_absent (x : string) (l : list string) : ~ In x l -> countIn x l = 0.
Proof.
  intros H. unfold countIn.
  apply (count_occ_not_In string_dec) in H. lia.
Qed.

Lemma StronglySorted_weaken {A : Type} (R R' : A -> A -> Prop) (l : list A) :
  (forall a b, In a l -> In b l -> R a b -> R' a b) ->
  StronglySorted R l -> StronglySorted R' l.
Proof.
  induction l as [|x l IH]; intros HR Hs; [constructor|].
  inversion Hs as [|? ? Hl Hx]; subst. constructor.
  - apply IH; [|assumption]. intros a b Ha Hb. apply HR; now right.
  - rewrite Forall_forall in *. intros y Hy.
    apply HR; [now left | now right | now apply Hx].
Qed.

Lemma StronglySorted_map {A B : Type} (f : A -> B) (R : B -> B -> Prop)
    (l : list A) :
  StronglySorted (fun a b => R (f a) (f b)) l -> StronglySorted R (map f l).
Proof.
  induction 1 as [|x l Hl IH Hx]; cbn [map]; constructor; [assumption|].
  rewrite Forall_forall in *. intros y Hy.
  apply in_map_iff in Hy as (a & <- & Ha). now apply Hx.
Qed.

Lemma StronglySorted_snoc {A : Type} (R : A -> A -> Prop) (l : list A) (x : A) :
  StronglySorted R l -> (forall y, In y l -> R y x) ->
  StronglySorted R (l ++ [x]).
Proof.
  induction 1 as [|z l Hl IH Hz]; intros Hy; cbn [app].
  - constructor; constructor.
  - constructor.
    + apply IH. intros y H. apply Hy. now right.
    + rewrite Forall_forall in *. intros y H.
      apply in_app_iff in H as [H | [<- | []]]; [now apply Hz|].
      apply Hy. now left.
Qed.

(** ** The counter object *)

Lemma lookup_none (o : JSObject) (k : string) :
  lookup o k = None <-> ~ In k (map fst o).
Proof.
  induction o as [|[k' v'] o IH]; cbn [lookup map In fst]; [tauto|].
  destruct (String.eqb_spec k' k) as [-> | Hne].
  - split; [discriminate | tauto].
  - rewrite IH. tauto.
Qed.

Lemma lookup_some (o : JSObject) (k : string) (v : Z) :
  lookup o k = Some v -> In (k, v) o.
Proof.
  induction o as [|[k' v'] o IH]; cbn [lookup In]; [discriminate|].
  destruct (String.eqb_spec k' k) as [-> | Hne].
  - intros [= ->]. now left.
  - intros H. right. now apply IH.
Qed.

Lemma assign_new (o : JSObject) (k : string) (v : Z) :
  lookup o k = None -> assign o k v = o ++ [(k, v)].
Proof.
  induction o as [|[k' v'] o IH]; cbn [lookup assign app]; [reflexivity|].
  destruct (String.eqb k' k); [discriminate|].
  intros H. now rewrite IH.
Qed.

Lemma assign_keys (o : JSObject) (k : string) (v v0 : Z) :
  lookup o k = Some v0 -> map fst (assign o k v) = map fst o.
Proof.
  induction o as [|[k' v'] o IH]; cbn [lookup assign map fst]; [discriminate|].
  destruct (String.eqb k' k); [reflexivity|].
  intros H. cbn [map fst]. now rewrite IH.
Qed.

Lemma assign_in (o : JSObject) (k : string) (v v0 : Z) (k1 : string) (v1 : Z) :
  NoDup (map fst o) -> lookup o k = Some v0 -> In (k1, v1) (assign o k v) ->
  (k1 = k /\ v1 = v) \/ (k1 <> k /\ In (k1, v1) o).
Proof.
  induction o as [|[k' v'] o IH]; cbn [lookup assign map fst]; [discriminate|].
  intros Hnd. inversion Hnd as [|? ? Hk' Hnd']; subst.
  destruct (String.eqb_spec k' k) as [-> | Hne].
  - intros _ [[= <- <-] | H]; [now left|].
    right. split; [|now right].
    intros ->. apply Hk'. apply in_map_iff. now exists (k, v1).
  - intros Hl [[= <- <-] | H].
    + right. split; [assumption | now left].
    + destruct (IH Hnd' Hl H) as [? | [? ?]]; [now left|].
      right. split; [assumption | now right].
Qed.

Lemma NoDup_snoc {A : Type} (l : list A) (x : A) :
  NoDup l -> ~ In x l -> NoDup (l ++ [x]).
Proof.
  induction 1 as [|y l Hy Hl IH]; cbn [app In]; intros Hx.
  - constructor; [tauto | constructor].
  - constructor.
    + rewrite in_app_iff. cbn [In]. intros [H | [-> | []]]; tauto.
    + apply IH. tauto.
Qed.

Lemma counted_nil : counted [] [].
Proof.
  repeat split; try constructor; try contradiction.
Qed.

Lemma counted_step (all : list string) (o : JSObject) (x : string) :
  counted all o -> counted (all ++ [x]) (tally o x).
Proof.
  intros (Hnd & Hent & Hcov & Hsort). unfold tally.
  destruct (lookup o x) as [v0|] eqn:El.
  - pose proof (lookup_some _ _ _ El) as Hin.
    destruct (Hent _ _ Hin) as [Hx Hv0].
    pose proof (countIn_pos _ _ Hx) as Hpos.
    replace (v0 =? 0) with false by (symmetry; apply Z.eqb_neq; lia).
    split; [|split; [|split]].
    + now rewrite (assign_keys _ _ _ _ El).
    + intros k v H.
      destruct (assign_in _ _ _ _ _ _ Hnd El H) as [[-> ->] | [Hne Ho]].
      * split; [apply in_app_iff; now left|].
        rewrite countIn_app, String.eqb_refl. lia.
      * destruct (Hent _ _ Ho) as [Hk ->].
        split; [apply in_app_iff; now left|].
        rewrite countIn_app.
        destruct (String.eqb_spec x k); [congruence | lia].
    + intros k H. rewrite (assign_keys _ _ _ _ El).
      apply in_app_iff in H as [H | [<- | []]]; auto.
    + rewrite (assign_keys _ _ _ _ El).
      apply StronglySorted_weaken with (2 := Hsort).
      intros a b Ha Hb Hab.
      assert (Ha' : In a all).
      { apply in_map_iff in Ha as ([k v] & <- & Hk). now apply (Hent k v). }
      assert (Hb' : In b all).
      { apply in_map_iff in Hb as ([k v] & <- & Hk). now apply (Hent k v). }
      now rewrite !firstIndex_app_in.
  - pose proof (proj1 (lookup_none _ _) El) as Hnew.
    assert (Hx : ~ In x all) by (intros H; apply Hnew; now apply Hcov).
    rewrite assign_new by assumption.
    split; [|split; [|split]].
    + rewrite map_app. cbn [map fst]. now apply NoDup_snoc.
    + intros k v H. apply in_app_iff in H as [H | [[= <- <-] | []]].
      * destruct (Hent _ _ H) as [Hk ->].
        split; [apply in_app_iff; now left|].
        rewrite countIn_app.
        destruct (String.eqb_spec x k); [congruence | lia].
      * split; [apply in_app_iff; right; now left|].
        rewrite countIn_app, String.eqb_refl, countIn_absent by assumption.
        reflexivity.
    + intros k H. rewrite map_app. cbn [map fst].
      apply in_app_iff in H as [H | H]; apply in_app_iff; auto.
    + rewrite map_app. cbn [map fst].
      apply StronglySorted_snoc.
      * apply StronglySorted_weaken with (2 := Hsort).
        intros a b Ha Hb Hab.
        assert (Ha' : In a all).
        { apply in_map_iff in Ha as ([k v] & <- & Hk). now apply (Hent k v). }
        assert (Hb' : In b all).
        { apply in_map_iff in Hb as ([k v] & <- & Hk). now apply (Hent k v). }
        now rewrite !firstIndex_app_in.
      * intros y Hy.
        assert (Hy' : In y all).
        { apply in_map_iff in Hy as ([k v] & <- & Hk). now apply (Hent k v). }
        rewrite firstIndex_app_in, firstIndex_app_new by assumption.
        now apply firstIndex_lt.
Qed.

Lemma countLabels_snoc (all : list string) (x : string) :
  countLabels (all ++ [x]) = tally (countLabels all) x.
Proof. unfold countLabels. now rewrite fold_left_app. Qed.

Lemma countLabels_counted (all : list string) : counted all (countLabels all).
Proof.
  induction all as [|x all IH] using rev_ind.
  - apply counted_nil.
  - rewrite countLabels_snoc. now apply counted_step.
Qed.

Lemma filter_none {A : Type} (f : A -> bool) (l : list A) :
  (forall x, In x l -> f x = false) -> filter f l = [].
Proof.
  induction l as [|x l IH]; intros H; [reflexivity|]. cbn [filter].
  rewrite (H x) by (now left). apply IH. intros y Hy. apply H. now right.
Qed.

Lemma filter_all {A : Type} (f : A -> bool) (l : list A) :
  (forall x, In x l -> f x = true) -> filter f l = l.
Proof.
  induction l as [|x l IH]; intros H; [reflexivity|]. cbn [filter].
  rewrite (H x) by (now left). f_equal. apply IH. intros y Hy. apply H. now right.
Qed.

(** Without array-index keys, [Object.entries] lists the properties in
    the order of their creation. *)
Lemma Object_entries_plain (o : JSObject) :
  (forall k, In k (map fst o) -> isArrayIndex k = false) ->
  Object_entries o = o.
Proof.
  intros H. unfold Object_entries.
  rewrite filter_none, filter_all; [reflexivity| |].
  - intros [k v] Hin. cbn [fst]. rewrite (H k); [reflexivity|].
    apply in_map_iff. now exists (k, v).
  - intros [k v] Hin. cbn [fst]. apply H.
    apply in_map_iff. now exists (k, v).
Qed.

Lemma StronglySorted_unmap {A B : Type} (f : A -> B) (R : B -> B -> Prop)
    (l : list A) :
  StronglySorted R (map f l) -> StronglySorted (fun a b => R (f a) (f b)) l.
Proof.
  induction l as [|x l IH]; cbn [map]; intros H; [constructor|].
  inversion H as [|? ? Hl Hx]; subst. constructor; [now apply IH|].
  rewrite Forall_forall in *. intros y Hy. apply Hx. now apply in_map.
Qed.

(** The five labels the code keeps are the first five of the ranking,
    when every label is a plain one. *)
Lemma topLabels_ranked (all : list string) :
  (forall x, In x all -> plainLabel x) -> topFiveOf all (topLabels all).
Proof.
  intros Hplain.
  destruct (countLabels_counted all) as (Hnd & Hent & Hcov & Hsort).
  set (o := countLabels all) in *.
  assert (Hkeys : forall k, In k (map fst o) -> In k all).
  { intros k Hk. apply in_map_iff in Hk as ([k' v] & <- & Hin).
    now apply (Hent k' v). }
  unfold topLabels. fold o. rewrite Object_entries_plain.
  2:{ intros k Hk. now apply Hplain, Hkeys. }
  set (sorted := sort byCountDescending o).
  pose proof (sort_perm byCountDescending o) as Hperm. fold sorted in Hperm.
  exists (map fst sorted). split; [|split; [|split]].
  - apply Permutation_NoDup with (l := map fst o); [|exact Hnd].
    now apply Permutation_map.
  - intros x. split.
    + intros Hx. apply Hkeys.
      eapply Permutation_in; [symmetry; apply Permutation_map, Hperm | exact Hx].
    + intros Hx.
      eapply Permutation_in; [apply Permutation_map, Hperm | now apply Hcov].
  - apply StronglySorted_map.
    apply StronglySorted_weaken
      with (R := ranked snd
                   (fun p q => (firstIndex (fst p) all < firstIndex (fst q) all)%nat)).
    + intros [ka va] [kb vb] Ha Hb Hr.
      apply (Permutation_in _ (Permutation_sym Hperm)) in Ha, Hb.
      destruct (Hent _ _ Ha) as [_ ->]. destruct (Hent _ _ Hb) as [_ ->].
      exact Hr.
    + apply sort_sorted; [reflexivity|].
      apply (StronglySorted_unmap fst
               (fun a b => (firstIndex a all < firstIndex b all)%nat)).
      exact Hsort.
  - rewrite slice_prefix by lia. change (Z.to_nat 5) with 5%nat.
    symmetry. apply firstn_map.
Qed.

(** C4, as the code has it.  For notes whose emotion and theme labels
    are plain (no array-index numeral, no member name of
    [Object.prototype]), [aggregate] returns, for the emotions and for
    the themes, the first five of the distinct labels ranked by
    descending count, labels of equal count in the order of their first
    appearance in the flatten pass.  With no notes both lists are empty,
    and the second revision's [renderOverview] writes its two
    "No ... detected" placeholders. *)
Theorem aggregate_top_five (ns : list Note) :
  (forall x, In x (allEmotions ns) -> plainLabel x) ->
  (forall x, In x (allThemes ns) -> plainLabel x) ->
  topFiveOf (allEmotions ns) (fst (aggregate ns))
  /\ topFiveOf (allThemes ns) (snd (aggregate ns))
  /\ aggregate [] = ([], [])
  /\ (forall st, notes st = [] ->
        Part000.renderOverview st = (noEmotionsHTML, noThemesHTML)).
Proof.
  intros He Ht. split; [|split; [|split]].
  - now apply topLabels_ranked.
  - now apply topLabels_ranked.
  - reflexivity.
  - intros st E. unfold Part000.renderOverview. now rewrite E.
Qed.

Lemma aggregate_top_five_witness :
  topFiveOf (allEmotions calmNotes) (fst (aggregate calmNotes))
  /\ aggregate calmNotes = (["calm"; "sad"], ["work"; "rest"])%string.
Proof.
  split; [|reflexivity].
  refine (proj1 (aggregate_top_five calmNotes _ _)).
  - intros x [<- | [<- | [<- | []]]]; split; reflexivity.
  - intros x [<- | [<- | [<- | []]]]; split; reflexivity.
Defined.

(** Ranking by first appearance fails on labels that are array
    indices: "sad" and "7" occur once each and "sad" is seen first, yet
    the code lists "7" first, because [Object.entries] puts array-index
    keys ahead of all other keys. *)
Lemma aggregate_index_label_first :
  allEmotions sadThenSeven = ["sad"; "7"]%string
  /\ fst (aggregate sadThenSeven) = ["7"; "sad"]%string
  /\ countIn "sad" (allEmotions sadThenSeven) = countIn "7" (allEmotions sadThenSeven)
  /\ (firstIndex "sad" (allEmotions sadThenSeven)
      < firstIndex "7" (allEmotions sadThenSeven))%nat
  /\ ~ topFiveOf (allEmotions sadThenSeven) (fst (aggregate sadThenSeven)).
Proof.
  split; [reflexivity|]. split; [reflexivity|]. split; [reflexivity|].
  split; [vm_compute; lia|].
  intros (ranking & _ & _ & Hs & Htop).
  change (fst (aggregate sadThenSeven)) with ["7"; "sad"]%string in Htop.
  destruct ranking as [|a [|b [|c r]]]; cbn [firstn] in Htop; try discriminate.
  injection Htop as <- <-.
  inversion Hs as [|? ? _ Hall]; subst.
  inversion Hall as [|? ? Hr _]; subst.
  destruct Hr as [Hr | [_ Hr]]; vm_compute in Hr; [discriminate | lia].
Qed.

End Overview.
(* ================================================================== *)
(** * Fetching: analysis fallback and entry loading *)
(* ================================================================== *)

Module Fetching.
Import ES DateFns Client ArrayFacts Spec.

(** Unfold the monad down to functions on worlds. *)
Ltac run :=
  unfold saveEntry, analyzeText, Part000.refresh, MainTs.loadEntries, Part000.loadEntries,
    tryCatch, bind, fetch, readJson, consoleWrite, alert,
    setNotes, setPage, setState, getState, ret, throw;
  cbn [state console alerts requests fst snd].

(** One case split on what a server answered or on how the answer
    reads. *)
Ltac case_answer :=
  match goal with
  | |- context [saveEndpoint ?n ?p] => destruct (saveEndpoint n p) as [? | ?]
  | |- context [entriesEndpoint ?n ?u] => destruct (entriesEndpoint n u) as [? | ?]
  | |- context [ok ?r] => destruct (ok r)
  | |- context [json ?r] => destruct (json r) as [? |]
  end.

Lemma analyzeText_returns (net : Network) (text : string) (w : World) :
  exists a w',
    analyzeText net text w = (Returns a, w')
    /\ state w' = state w /\ alerts w' = alerts w
    /\ requests w' = requests w ++ [PostAnalyze text].
Proof.
  run. destruct (analyzeEndpoint net text) as [res | error].
  - destruct (ok res); cbn [negb].
    + destruct (json res) as [a|]; cbn; eauto 10.
    + cbn. eauto 10.
  - cbn. eauto 10.
Qed.

Lemma analyzeText_default (net : Network) (text : string) (w : World) :
  analysisFails net text ->
  exists w',
    analyzeText net text w = (Returns defaultAnalysis, w')
    /\ state w' = state w /\ alerts w' = alerts w
    /\ requests w' = requests w ++ [PostAnalyze text].
Proof.
  unfold analysisFails. run.
  destruct (analyzeEndpoint net text) as [res | error].
  - intros ->. cbn. eauto 10.
  - intros _. cbn. eauto 10.
Qed.

(** Whatever the servers answer afterwards, the save handler posts the
    entry with the analysis [analyzeText] returned. *)
Lemma saveEntry_posts_default (net : Network) (text createdAt : string)
    (w : World) :
  analysisFails net text ->
  exists c w',
    saveEntry net (Part000.refresh net) text createdAt w = (c, w')
    /\ In (PostEntry (mkPayload text createdAt defaultAnalysis)) (requests w').
Proof.
  intros Hfail. unfold saveEntry, tryCatch.
  unfold bind at 1. unfold consoleWrite at 1. cbn beta iota.
  unfold bind at 1.
  match goal with
  | |- context [analyzeText net text ?w0] =>
      destruct (analyzeText_default net text w0 Hfail) as (w2 & E & _)
  end.
  rewrite E. run.
  repeat (case_answer; cbn [negb state console alerts requests]);
    do 2 eexists; (split; [reflexivity|]);
    cbn [requests]; rewrite !in_app_iff; cbn [In]; tauto.
Qed.

(** C8.  When the analysis request fails, by a transport failure or by
    a status outside 200-299, [analyzeText] returns the default
    analysis (neutral, intensity 2, no emotions, no themes); it never
    throws, whatever the service answers; and the save handler then
    posts the entry with that default analysis.  With the analysis
    service down and the entries API up, the entry created has a
    neutral sentiment and no alert is shown. *)
Theorem analyzeText_falls_back (net : Network) (text : string) (w : World) :
  analysisFails net text ->
  (exists w',
     analyzeText net text w = (Returns defaultAnalysis, w')
     /\ state w' = state w /\ alerts w' = alerts w)
  /\ defaultAnalysis = mkAnalysis neutral 2 [] []
  /\ (forall net0 text0 w0,
        exists a w', analyzeText net0 text0 w0 = (Returns a, w'))
  /\ (forall createdAt,
        exists c w',
          saveEntry net (Part000.refresh net) text createdAt w = (c, w')
          /\ In (PostEntry (mkPayload text createdAt defaultAnalysis))
               (requests w'))
  /\ (let '(c, w') := saveEntry analysisDown (Part000.refresh analysisDown)
                         "Walked to work." "2025-03-03" (browsing [] 1) in
      c = Returns tt
      /\ alerts w' = []
      /\ exists p, nth_error (requests w') 1 = Some (PostEntry p)
                   /\ sentiment (analysis (created p)) = neutral).
Proof.
  intros Hfail. split; [|split; [|split; [|split]]].
  - destruct (analyzeText_default net text w Hfail) as (w' & E & Hs & Ha & _).
    eauto.
  - reflexivity.
  - intros net0 text0 w0.
    destruct (analyzeText_returns net0 text0 w0) as (a & w' & E & _).
    eauto.
  - intros createdAt. now apply saveEntry_posts_default.
  - vm_compute. repeat split. eexists. split; reflexivity.
Qed.

Lemma analyzeText_falls_back_witness :
  exists w',
    analyzeText offline "Walked to work." (browsing [] 1)
    = (Returns defaultAnalysis, w')
    /\ state w' = state (browsing [] 1) /\ alerts w' = alerts (browsing [] 1).
Proof.
  exact (proj1 (analyzeText_falls_back offline "Walked to work." (browsing [] 1) I)).
Defined.

(** ** Loading entries *)

(** src/client/src/main.ts: a failed load, of either kind, leaves an
    empty list and one error line on the console; nothing is thrown, no
    alert is raised, and the request went out once. *)
Lemma loadEntries_main_degrades (net : Network) (w : World) :
  loadFails (entriesEndpoint net (entriesUrl_main (state w))) ->
  exists w' line,
    MainTs.loadEntries net w = (Returns tt, w')
    /\ notes (state w') = []
    /\ console w' = console w ++ [line] /\ level line = ERROR
    /\ alerts w' = alerts w
    /\ requests w' = requests w ++ [GetEntries (entriesUrl_main (state w))].
Proof.
  unfold loadFails, entriesUrl_main. run.
  destruct (entriesEndpoint net _) as [res | error].
  - intros ->. cbn [state console alerts requests notes].
    do 2 eexists. repeat split.
  - intros _. cbn [state console alerts requests notes].
    do 2 eexists. repeat split.
Qed.

(** Second revision: a status outside 200-299 does the same. *)
Lemma loadEntries_rev_bad_status (net : Network) (w : World)
    (res : Response (list Note)) :
  entriesEndpoint net (entriesUrl_rev (state w)) = Fulfilled res ->
  ok res = false ->
  exists w' line,
    Part000.loadEntries net w = (Returns tt, w')
    /\ notes (state w') = [] /\ page (state w') = 1
    /\ console w' = console w ++ [line] /\ level line = ERROR
    /\ alerts w' = alerts w
    /\ requests w' = requests w ++ [GetEntries (entriesUrl_rev (state w))].
Proof.
  unfold entriesUrl_rev. run. intros -> ->.
  cbn [state console alerts requests notes page].
  do 2 eexists. repeat split.
Qed.

(** Second revision: a transport failure is thrown on to the caller,
    and the notes stay as they were. *)
Lemma loadEntries_rev_rejects (net : Network) (w : World) (error : Error) :
  entriesEndpoint net (entriesUrl_rev (state w)) = Rejected error ->
  exists w',
    Part000.loadEntries net w = (Throws error, w')
    /\ state w' = state w /\ console w' = console w.
Proof.
  unfold entriesUrl_rev. run. intros ->.
  eexists. repeat split.
Qed.

(** A load that got a response resets the page, in both revisions. *)
Lemma loadEntries_resets_page (net : Network) (w : World)
    (res : Response (list Note)) (ns : list Note) :
  entriesEndpoint net (entriesUrl_main (state w)) = Fulfilled res ->
  (ok res = true -> json res = Some ns) ->
  exists w',
    MainTs.loadEntries net w = (Returns tt, w')
    /\ page (state w') = 1
    /\ notes (state w') = (if ok res then ns else [])
    /\ perPage (state w') = perPage (state w).
Proof.
  unfold entriesUrl_main. run. intros -> Hj.
  destruct (ok res).
  - rewrite (Hj eq_refl). cbn [state console alerts requests notes page perPage].
    eexists. repeat split.
  - cbn [state console alerts requests notes page perPage].
    eexists. repeat split.
Qed.

(** C9, second revision, with the network down.  The user looks at a
    week with one note and the list is loaded again.  [loadEntries]
    throws the transport error instead of returning: the note stays in
    the list and nothing is logged.  When the reload is the one that
    follows a successful save, the save handler catches the error and
    shows it to the user in an alert.  On the same input the first
    revision returns, with an empty list and an error line. *)
Theorem loadEntries_rev_offline :
  Part000.loadEntries offline (browsing [sampleNote "1"] 1)
  = (Throws failedToFetch,
     mkWorld (mkState "2025-03-03" week [sampleNote "1"] 1 3) [] []
       [GetEntries "/api/entries?scope=week&date=2025-03-03"])
  /\ (let '(c, w') := saveEntry listUnreachable (Part000.refresh listUnreachable)
                         "Walked to work." "2025-03-03"
                         (browsing [sampleNote "1"] 1) in
      c = Returns tt
      /\ alerts w' = ["Could not save entry: Failed to fetch"%string]
      /\ notes (state w') = [sampleNote "1"])
  /\ (let '(c, w') := MainTs.loadEntries offline (browsing [sampleNote "1"] 1) in
      c = Returns tt /\ notes (state w') = []
      /\ console w'
         = [mkLogLine ERROR ["Error loading entries:"; "Failed to fetch"]%string]).
Proof. vm_compute. repeat split. Qed.

End Fetching.
(* ================================================================== *)
(** * Pagination *)
(* ================================================================== *)

Module Pagination.
Import ES DateFns Client ArrayFacts Spec.

(** The page the code renders is the slice from index [(p-1)*3] up to
    but excluding [p*3]: at most three notes. *)
Lemma renderEntries_page (st : State) :
  perPage st = 3 -> 1 <= page st -> notes st <> [] ->
  renderEntries st = Cards (pageSlice (notes st) (page st))
  /\ (List.length (pageSlice (notes st) (page st)) <= 3)%nat
  /\ (forall i x, nth_error (pageSlice (notes st) (page st)) i = Some x ->
                  nth_error (notes st) (Z.to_nat ((page st - 1) * 3) + i) = Some x).
Proof.
  intros Hpp Hp Hne. unfold renderEntries, pageSlice. rewrite Hpp.
  destruct (notes st) as [|n l] eqn:E; [contradiction|].
  replace (Z.of_nat (List.length (n :: l)) =? 0) with false
    by (symmetry; apply Z.eqb_neq; cbn [List.length]; lia).
  rewrite slice_firstn_skipn by lia.
  replace ((page st - 1) * 3 + 3 - (page st - 1) * 3) with 3 by lia.
  change (Z.to_nat 3) with 3%nat.
  split; [reflexivity|]. split.
  - apply firstn_le_length.
  - intros i x Hi.
    assert (Hlt : (i < 3)%nat).
    { apply Nat.lt_le_trans with (List.length (firstn 3 (skipn (Z.to_nat ((page st - 1) * 3)) (n :: l)))).
      - apply nth_error_Some. now rewrite Hi.
      - apply firstn_le_length. }
    rewrite nth_error_firstn in Hi.
    replace (i <? 3)%nat with true in Hi by (symmetry; now apply Nat.ltb_lt).
    now rewrite nth_error_skipn in Hi.
Qed.

(** With no notes there is no card at all. *)
Lemma renderEntries_empty (st : State) :
  notes st = [] -> renderEntries st = NoEntriesFound.
Proof. intros E. unfold renderEntries. now rewrite E. Qed.

(** Pages 1 to [totalPages], one after the other, are the whole list. *)
Lemma pages_tile (st : State) :
  perPage st = 3 ->
  List.concat (map (fun p => slice (notes st) ((Z.of_nat p - 1) * 3)
                               ((Z.of_nat p - 1) * 3 + 3))
                 (seq 1 (Z.to_nat (totalPages st))))
  = notes st.
Proof.
  intros Hpp. rewrite slices_tile by lia.
  apply firstn_all2. unfold totalPages. rewrite Hpp.
  generalize (List.length (notes st)). intros n. zdiv.
Qed.

(** The pager's handlers keep the page size. *)
Lemma goToPage_perPage (st : State) (to : Z) :
  perPage (goToPage st to) = perPage st /\ page (goToPage st to) = to
  /\ notes (goToPage st to) = notes st.
Proof. repeat split. Qed.

(** C10, first revision, with the network down.  The user is on page 2
    of four notes when the list is loaded again.  [loadEntries]
    completes, the list is empty, and the page is still 2.  A response
    with status 500 on the same input does reset the page to 1. *)
Theorem loadEntries_main_offline_keeps_page :
  (let '(c, w') := MainTs.loadEntries offline (browsing fourNotes 2) in
   c = Returns tt /\ notes (state w') = [] /\ page (state w') = 2)
  /\ (let '(c, w') := MainTs.loadEntries serverError (browsing fourNotes 2) in
      c = Returns tt /\ notes (state w') = [] /\ page (state w') = 1)
  /\ renderEntries (state (browsing fourNotes 2)) = Cards [sampleNote "4"].
Proof. vm_compute. repeat split. Qed.

End Pagination.
(* ================================================================== *)
(** * Navigation: dates written to and read from [state.dateISO] *)
(* ================================================================== *)

Module Navigation.
Import ES ESFacts ESCalendar DateFns DateFnsFacts Client Spec SpecMore.

Lemma oneTo_In (n y : Z) : 1 <= y <= n -> In y (oneTo n).
Proof.
  intros H. unfold oneTo. apply in_map_iff.
  exists (Z.to_nat y). split; [lia|]. apply in_seq. lia.
Qed.

Lemma fourDigits_all : forallb fourDigits (oneTo 9999) = true.
Proof. vm_compute. reflexivity. Qed.

Lemma twoDigits_all : forallb twoDigits (oneTo 31) = true.
Proof. vm_compute. reflexivity. Qed.

Lemma four_digits (n : Z) :
  1 <= n <= 9999 ->
  exists a b c d,
    addLeadingZeros n 4 = String a (String b (String c (String d EmptyString)))
    /\ number 0 [a; b; c; d] = Some n.
Proof.
  intros H.
  pose proof (proj1 (forallb_forall _ _) fourDigits_all n (oneTo_In _ _ H)) as C.
  unfold fourDigits in C.
  pose proof (string_of_list_ascii_of_string (addLeadingZeros n 4)) as S.
  destruct (list_ascii_of_string (addLeadingZeros n 4))
    as [|a [|b [|c [|d [|e l]]]]]; try discriminate.
  destruct (number 0 [a; b; c; d]) as [v|] eqn:E; [|discriminate].
  apply Z.eqb_eq in C. subst v.
  exists a, b, c, d. split; [symmetry; exact S | exact E].
Qed.

Lemma two_digits (n : Z) :
  1 <= n <= 31 ->
  exists a b,
    addLeadingZeros n 2 = String a (String b EmptyString)
    /\ number 0 [a; b] = Some n.
Proof.
  intros H.
  pose proof (proj1 (forallb_forall _ _) twoDigits_all n (oneTo_In _ _ H)) as C.
  unfold twoDigits in C.
  pose proof (string_of_list_ascii_of_string (addLeadingZeros n 2)) as S.
  destruct (list_ascii_of_string (addLeadingZeros n 2))
    as [|a [|b [|c l]]]; try discriminate.
  destruct (number 0 [a; b]) as [v|] eqn:E; [|discriminate].
  apply Z.eqb_eq in C. subst v.
  exists a, b. split; [symmetry; exact S | exact E].
Qed.

Lemma validateDate_fields (t : Z) :
  validateDate (getFullYear t) (getMonth t) (getDate t) = true.
Proof.
  unfold validateDate.
  pose proof (getMonth_range t). pose proof (getDate_range t).
  rewrite !andb_true_iff, !Z.leb_le. lia.
Qed.

(** Reading back a date the client wrote: [parseISO (iso t)] is the
    start of [t]'s day, for the years 1 to 9999. *)
Lemma parseISO_iso (t : Z) :
  1 <= getFullYear t <= 9999 -> parseISO (iso t) = Some (startOfDay t).
Proof.
  intros Hy. unfold iso, format_iso, format_yyyy, format_MM, format_dd.
  replace (0 <? getFullYear t) with true by (symmetry; apply Z.ltb_lt; lia).
  pose proof (getMonth_range t) as Hm. pose proof (getDate_range t) as Hd.
  pose proof (DaysInMonth_pos (getFullYear t) _ Hm) as Hdim.
  destruct (four_digits _ Hy) as (y1 & y2 & y3 & y4 & -> & Ey).
  destruct (two_digits (getMonth t + 1) ltac:(lia)) as (m1 & m2 & -> & Em).
  destruct (two_digits (getDate t) ltac:(lia)) as (d1 & d2 & -> & Ed).
  unfold parseISO. cbn [append list_ascii_of_string].
  rewrite Ey, Em, Ed.
  replace (getMonth t + 1 - 1) with (getMonth t) by lia.
  rewrite validateDate_fields.
  unfold setHours, setFullYear. rewrite Day_MakeDate by apply TimeWithinDay_range.
  now rewrite MakeDay_fields, MakeTime_start, startOfDay_eq.
Qed.

(** ** What [set] does to the calendar fields *)

Lemma fields_of_Day (x y : Z) :
  Day x = Day y ->
  getFullYear x = getFullYear y /\ getMonth x = getMonth y
  /\ getDate x = getDate y /\ getDay x = getDay y.
Proof.
  intros E.
  unfold getDay, WeekDay, getDate, DateFromTime, getMonth, MonthFromTime,
    InLeapYear, DayWithinYear, getFullYear, YearFromTime.
  rewrite E. repeat split.
Qed.


(** A date carried into another year stays in that year: only
    February 29 moves, to March 1. *)
Lemma setFullYear1_fields (t y : Z) :
  getFullYear (setFullYear1 t y) = y /\ 1 <= getDate (setFullYear1 t y) <= 31.
Proof.
  unfold setFullYear1, setFullYear.
  fold (getMonth t) (getDate t).
  pose proof (getMonth_range t) as Hm. pose proof (getDate_range t) as Hd.
  set (n := MakeDay y (getMonth t) (getDate t)).
  assert (Hn : DayFromYear y <= n < DayFromYear (y + 1)).
  { subst n. rewrite MakeDay_in_range by assumption. rewrite DayFromYear_succ.
    revert Hd. unfold DaysInMonth.
    change (if DaysInYear (getFullYear t) =? 366 then 1 else 0)
      with (leapOf (getFullYear t)).
    generalize (getDate t). intros dt.
    destruct (leapOf_cases (getFullYear t)) as [[-> _] | [-> _]];
      destruct (leapOf_cases y) as [[-> ->] | [-> ->]];
      each_month Hm; eval_monthStart; lia. }
  assert (Ey : getFullYear (MakeDate n (TimeWithinDay t)) = y).
  { unfold getFullYear, YearFromTime.
    rewrite Day_MakeDate by apply TimeWithinDay_range.
    now apply YearFromDay_unique. }
  split; [exact Ey|].
  pose proof (getDate_range (MakeDate n (TimeWithinDay t))) as Hr.
  pose proof (getMonth_range (MakeDate n (TimeWithinDay t))) as Hm'.
  pose proof (DaysInMonth_pos (getFullYear (MakeDate n (TimeWithinDay t))) _ Hm').
  lia.
Qed.

Lemma getDaysInMonth_eq (t : Z) :
  getDaysInMonth t = DaysInMonth (getFullYear t) (getMonth t).
Proof.
  unfold getDaysInMonth, setHours, setFullYear.
  rewrite Day_MakeDate by apply TimeWithinDay_range.
  rewrite MakeTime_start, MakeDay_next_month_0 by apply getMonth_range.
  pose proof (DaysInMonth_pos (getFullYear t) _ (getMonth_range t)).
  apply (getDate_MakeDay (getFullYear t) (getMonth t)); try lia.
  - apply getMonth_range.
  - apply msPerDay_pos.
Qed.

(** date-fns [setMonth] keeps the year, lands in the month asked for,
    and cuts the date back to the length of that month. *)
Lemma setMonth_fields (t m : Z) :
  0 <= m <= 11 ->
  onCalendarDay (DateFns.setMonth t m) (getFullYear t) m
    (Z.min (getDate t) (DaysInMonth (getFullYear t) m)).
Proof.
  intros Hm. unfold DateFns.setMonth.
  assert (F : onCalendarDay (setHours (setFullYear 0 (getFullYear t) m 15) 0 0 0 0)
                (getFullYear t) m 15).
  { unfold setHours, setFullYear.
    rewrite Day_MakeDate by apply TimeWithinDay_range. rewrite MakeTime_start.
    pose proof (DaysInMonth_pos (getFullYear t) m Hm).
    apply onCalendarDay_MakeDate; try lia. apply msPerDay_pos. }
  destruct F as (Fy & Fm & _).
  rewrite getDaysInMonth_eq, Fy, Fm.
  pose proof (getDate_range t) as Hd.
  pose proof (DaysInMonth_pos (getFullYear t) m Hm) as Hdim.
  unfold ES.setMonth. fold (getFullYear t).
  apply onCalendarDay_MakeDate; try lia. apply TimeWithinDay_range.
Qed.

Lemma setDate_first (t : Z) :
  onCalendarDay (setDate t 1) (getFullYear t) (getMonth t) 1.
Proof.
  unfold setDate. fold (getFullYear t) (getMonth t).
  pose proof (DaysInMonth_pos (getFullYear t) _ (getMonth_range t)).
  apply onCalendarDay_MakeDate; try lia.
  - apply getMonth_range.
  - apply TimeWithinDay_range.
Qed.

Lemma set_year_start (t y : Z) :
  onCalendarDay (set t (mkDateValues (Some y) (Some 0) (Some 1))) y 0 1.
Proof.
  unfold set. cbn [values_year values_month values_date].
  destruct (setFullYear1_fields t y) as [Ey _].
  pose proof (setMonth_fields (setFullYear1 t y) 0 ltac:(lia)) as (Fy & Fm & _).
  pose proof (setDate_first (DateFns.setMonth (setFullYear1 t y) 0)) as H.
  now rewrite Fy, Fm, Ey in H.
Qed.

Lemma set_month_first (t m : Z) :
  0 <= m <= 11 ->
  onCalendarDay (startOfMonth (set t (mkDateValues None (Some m) None)))
    (getFullYear t) m 1.
Proof.
  intros Hm. unfold set. cbn [values_year values_month values_date].
  pose proof (setMonth_fields t m Hm) as (Fy & Fm & _).
  pose proof (ScopeResolver.month_start_fields (DateFns.setMonth t m)) as H.
  now rewrite Fy, Fm in H.
Qed.

Lemma startOfDay_fields (x y m dt : Z) :
  onCalendarDay x y m dt -> onCalendarDay (startOfDay x) y m dt.
Proof.
  intros H.
  assert (E : Day (startOfDay x) = Day x)
    by (rewrite startOfDay_eq; apply Day_MakeDate, msPerDay_pos).
  destruct (fields_of_Day _ _ E) as (E1 & E2 & E3 & _).
  unfold onCalendarDay in *. now rewrite E1, E2, E3.
Qed.

(** Writing a date with [iso] and reading it with [parseISO] keeps the
    calendar day. *)
Lemma written_date_reads_back (x y m dt : Z) :
  1 <= y <= 9999 -> onCalendarDay x y m dt ->
  exists t', parseISO (iso x) = Some t' /\ onCalendarDay t' y m dt
             /\ Day t' = Day x.
Proof.
  intros Hy H. exists (startOfDay x). split; [|split].
  - apply parseISO_iso. destruct H as (-> & _). exact Hy.
  - now apply startOfDay_fields.
  - rewrite startOfDay_eq. apply Day_MakeDate, msPerDay_pos.
Qed.

(** X1.  Year selection.  From any valid date the handler moves to January 1
    of the year picked, at scope year; the notes, the page and the page
    size are left alone. *)
Theorem selectYear_lands (y : Z) (st : State) (d : Z) :
  parseISO (dateISO st) = Some d -> 1 <= y <= 9999 ->
  exists st' t',
    selectYear y st = Some st'
    /\ scope st' = year /\ notes st' = notes st
    /\ page st' = page st /\ perPage st' = perPage st
    /\ parseISO (dateISO st') = Some t'
    /\ onCalendarDay t' y 0 1.
Proof.
  intros E Hy. unfold selectYear. rewrite E.
  destruct (written_date_reads_back _ _ _ _ Hy (set_year_start d y))
    as (t' & Hp & Hf & _).
  eexists. exists t'. split; [reflexivity|].
  cbn [navigateTo scope notes page perPage dateISO]. auto 10.
Qed.

Lemma selectYear_lands_witness :
  exists st' t',
    selectYear 2026 (mkState "2024-02-29" week [] 2 3) = Some st'
    /\ scope st' = year /\ notes st' = []
    /\ page st' = 2 /\ perPage st' = 3
    /\ parseISO (dateISO st') = Some t'
    /\ onCalendarDay t' 2026 0 1.
Proof.
  refine (selectYear_lands 2026 (mkState "2024-02-29" week [] 2 3)
            1709164800000 eq_refl _).
  lia.
Defined.

(** X2.  Month selection.  For a month index from 0 to 11 the handler moves
    to the first day of that month in the year of the current date, at
    scope month, and the breadcrumb trail then names that year and that
    month. *)
Theorem selectMonth_lands (m : Z) (tz : TimeZone) (st : State) (d : Z) :
  parseISO (dateISO st) = Some d -> 0 <= m <= 11 ->
  1 <= getFullYear d <= 9999 ->
  exists st' t',
    selectMonth m st = Some st'
    /\ scope st' = month /\ notes st' = notes st
    /\ page st' = page st /\ perPage st' = perPage st
    /\ parseISO (dateISO st') = Some t'
    /\ onCalendarDay t' (getFullYear d) m 1
    /\ MainTs.renderBreadcrumbs tz st'
       = Some (renderCrumbs
                 [summaryCrumb;
                  mkCrumb (format_yyyy d) year true;
                  mkCrumb (nth (Z.to_nat m) monthNames EmptyString) month true]).
Proof.
  intros E Hm Hy. unfold selectMonth. rewrite E.
  destruct (written_date_reads_back _ _ _ _ Hy (set_month_first d m Hm))
    as (t' & Hp & Hf & _).
  eexists. exists t'. split; [reflexivity|].
  cbn [navigateTo scope notes page perPage dateISO].
  do 4 (split; [reflexivity|]). split; [exact Hp|]. split; [exact Hf|].
  rewrite (Breadcrumbs.renderBreadcrumbs_refines format_MMM_do tz _ t')
    by exact Hp.
  cbn [scope]. unfold breadcrumbs, yearCrumb, monthCrumb. cbn [app].
  destruct Hf as (Fy & Fm & _).
  unfold format_LLLL, format_yyyy. now rewrite Fy, Fm.
Qed.

Lemma selectMonth_lands_witness :
  exists st' t',
    selectMonth 1 (mkState "2025-03-31" day [] 1 3) = Some st'
    /\ scope st' = month /\ notes st' = []
    /\ page st' = 1 /\ perPage st' = 3
    /\ parseISO (dateISO st') = Some t'
    /\ onCalendarDay t' (getFullYear 1743379200000) 1 1
    /\ MainTs.renderBreadcrumbs utc st'
       = Some (renderCrumbs
                 [summaryCrumb;
                  mkCrumb (format_yyyy 1743379200000) year true;
                  mkCrumb (nth (Z.to_nat 1) monthNames EmptyString) month true]).
Proof.
  refine (selectMonth_lands 1 utc (mkState "2025-03-31" day [] 1 3)
            1743379200000 eq_refl _ _).
  - lia.
  - vm_compute. split; discriminate.
Defined.

(** In a zone with a constant offset the week handler adds whole days
    to the first week start. *)
Lemma selectWeek_constant_offset (tz : TimeZone) (utcOffset : Z -> Z) (c w : Z)
    (st : State) (d : Z) :
  (forall x, tz x = c) -> (forall u, utcOffset u = c) ->
  parseISO (dateISO st) = Some d ->
  selectWeek tz utcOffset w st
  = Some (navigateTo st
            (iso (startOfWeek (startOfMonth d) 1 + (w - 1) * (7 * msPerDay)))
            week).
Proof.
  intros Htz Hutc E. unfold selectWeek. rewrite E.
  generalize (startOfWeek (startOfMonth d) 1). intros fws.
  unfold newDateOfTime, getTime. rewrite Htz, Hutc.
  do 3 f_equal. unfold msPerDay. lia.
Qed.

(** A Monday at midnight, moved by whole weeks, is a Monday. *)
Lemma monday_plus_weeks (fws w : Z) :
  fws = MakeDate (Day fws) 0 -> getDay fws = 1 ->
  let t' := startOfDay (fws + (w - 1) * (7 * msPerDay)) in
  Day t' = Day fws + 7 * (w - 1) /\ getDay t' = 1
  /\ Day (startOfWeek t' 1) = Day t'.
Proof.
  intros Hfws Hmon t'.
  assert (Ht' : Day t' = Day fws + 7 * (w - 1)).
  { subst t'. rewrite startOfDay_eq, Day_MakeDate by apply msPerDay_pos.
    revert Hfws. generalize (Day fws). intros f ->.
    unfold Day, MakeDate, msPerDay. zdiv. }
  assert (Hday : getDay t' = 1).
  { revert Hmon. unfold getDay, WeekDay. rewrite Ht'.
    generalize (Day fws). intros f Hf. zdiv. }
  split; [exact Ht'|]. split; [exact Hday|].
  rewrite Breadcrumbs.Day_startOfWeek. unfold daysSinceMonday. rewrite Hday.
  change ((1 + 6) mod 7) with 0. lia.
Qed.

Lemma first_week_start_midnight (d : Z) :
  let fws := startOfWeek (startOfMonth d) 1 in
  fws = MakeDate (Day fws) 0 /\ getDay fws = 1
  /\ Day fws = Day (startOfMonth d) - daysSinceMonday (startOfMonth d).
Proof.
  cbv zeta. split; [|split].
  - rewrite Breadcrumbs.Day_startOfWeek. apply startOfWeek_eq.
  - apply ScopeResolver.week_start_monday.
  - apply Breadcrumbs.Day_startOfWeek.
Qed.

(** X3.  Week selection, in a zone with a constant offset [c].  The handler
    moves to the Monday [w - 1] weeks after the first week start of the
    current month, at scope week.  When that Monday lies in the month
    of the current date, the breadcrumb then labels it Week [w].  Week 1
    of a month whose first day is not a Monday lies before the month. *)
Theorem selectWeek_lands (tz : TimeZone) (utcOffset : Z -> Z) (c w : Z)
    (st : State) (d : Z) :
  (forall x, tz x = c) -> (forall u, utcOffset u = c) ->
  parseISO (dateISO st) = Some d ->
  1 <= getFullYear (startOfWeek (startOfMonth d) 1 + (w - 1) * (7 * msPerDay))
    <= 9999 ->
  exists st' t',
    selectWeek tz utcOffset w st = Some st'
    /\ scope st' = week /\ notes st' = notes st
    /\ page st' = page st /\ perPage st' = perPage st
    /\ parseISO (dateISO st') = Some t'
    /\ getDay t' = 1
    /\ Day t' = Day (startOfWeek (startOfMonth d) 1) + 7 * (w - 1)
    /\ (getFullYear t' = getFullYear d -> getMonth t' = getMonth d ->
        weekOfMonth tz t' = w)
    /\ (w = 1 -> getDay (startOfMonth d) <> 1 ->
        Day t' < Day (startOfMonth d)).
Proof.
  intros Htz Hutc E Hy.
  rewrite (selectWeek_constant_offset tz utcOffset c w st d Htz Hutc E).
  pose proof (first_week_start_midnight d) as (Hfws & Hmon & Hsom).
  pose proof (monday_plus_weeks _ w Hfws Hmon) as (Ht' & Hday & Hsow).
  pose proof (parseISO_iso _ Hy) as Hp.
  revert Hp Ht' Hday Hsow Hsom.
  generalize (startOfDay (startOfWeek (startOfMonth d) 1 + (w - 1) * (7 * msPerDay))).
  generalize (iso (startOfWeek (startOfMonth d) 1 + (w - 1) * (7 * msPerDay))).
  intros s t' Hp Ht' Hday Hsow Hsom.
  exists (navigateTo st s week), t'.
  split; [reflexivity|].
  split; [reflexivity|]. split; [reflexivity|]. split; [reflexivity|].
  split; [reflexivity|]. split; [exact Hp|].
  split; [exact Hday|]. split; [exact Ht'|]. split.
  - intros Ey Em.
    rewrite Breadcrumbs.weekOfMonth_same_offset by (rewrite !Htz; reflexivity).
    unfold wholeWeeks.
    assert (Esom : startOfMonth t' = startOfMonth d)
      by (rewrite !startOfMonth_eq, Ey, Em; reflexivity).
    rewrite Esom, Hsow, Ht'.
    generalize (Day (startOfWeek (startOfMonth d) 1)). intros f. zdiv.
  - intros -> Hnot. rewrite Ht', Hsom.
    assert (0 < daysSinceMonday (startOfMonth d)).
    { unfold daysSinceMonday.
      pose proof (getDay_range (startOfMonth d)). zdiv. }
    lia.
Qed.

Lemma selectWeek_lands_witness :
  exists st' t',
    selectWeek utc utc 3 (mkState "2025-03-20" week [] 1 3) = Some st'
    /\ scope st' = week /\ notes st' = []
    /\ page st' = 1 /\ perPage st' = 3
    /\ parseISO (dateISO st') = Some t'
    /\ getDay t' = 1
    /\ Day t' = Day (startOfWeek (startOfMonth 1742428800000) 1) + 7 * (3 - 1)
    /\ (getFullYear t' = getFullYear 1742428800000 ->
        getMonth t' = getMonth 1742428800000 ->
        weekOfMonth utc t' = 3)
    /\ (3 = 1 -> getDay (startOfMonth 1742428800000) <> 1 ->
        Day t' < Day (startOfMonth 1742428800000)).
Proof.
  refine (selectWeek_lands utc utc 0 3 (mkState "2025-03-20" week [] 1 3)
            1742428800000 _ _ eq_refl _).
  - reflexivity.
  - reflexivity.
  - vm_compute. split; discriminate.
Defined.

End Navigation.
(* ================================================================== *)
(** * Pager *)
(* ================================================================== *)

Module Pager.
Import ES DateFns Client Spec SpecMore ArrayFacts.

Lemma totalPages_three (st : State) :
  perPage st = 3 ->
  totalPages st = Z.max 1 ((Z.of_nat (List.length (notes st)) + 2) / 3).
Proof. intros E. unfold totalPages. rewrite E. zdiv. Qed.

Lemma oneTo_range (n i : Z) : In i (oneTo n) <-> 1 <= i <= n.
Proof.
  unfold oneTo. rewrite in_map_iff. split.
  - intros (k & <- & Hk). apply in_seq in Hk. lia.
  - intros H. exists (Z.to_nat i). split; [lia|]. apply in_seq. lia.
Qed.

Lemma oneTo_length (n : Z) : List.length (oneTo n) = Z.to_nat n.
Proof. unfold oneTo. now rewrite length_map, length_seq. Qed.

(** X10.  The pager is empty exactly when the notes fit on one page. *)
Theorem renderPager_hidden (st : State) :
  perPage st = 3 ->
  (renderPager st = [] <-> (List.length (notes st) <= 3)%nat).
Proof.
  intros E. unfold renderPager. rewrite (totalPages_three st E).
  set (n := Z.of_nat (List.length (notes st))).
  assert (Hn : 0 <= n) by (subst n; lia).
  destruct (Z.leb_spec (Z.max 1 ((n + 2) / 3)) 1) as [Hle | Hgt].
  - split; [intros _|reflexivity]. subst n. zdiv.
  - split; [discriminate|]. intros H. exfalso. subst n. zdiv.
Qed.

Lemma renderPager_hidden_witness :
  renderPager (mkState "2025-03-03" week fourNotes 1 3) = []
  <-> (List.length fourNotes <= 3)%nat.
Proof.
  exact (renderPager_hidden (mkState "2025-03-03" week fourNotes 1 3) eq_refl).
Defined.

Lemma goToPage_totalPages (st : State) (to : Z) :
  totalPages (goToPage st to) = totalPages st.
Proof. reflexivity. Qed.

(** Every handler of the pager assigns a page between 1 and the last
    page, when the current page is one. *)
Lemma renderPager_targets (st : State) (b : Button) (to : Z) :
  1 <= page st <= totalPages st ->
  In b (renderPager st) -> onclick b = Some to ->
  1 <= to <= totalPages st.
Proof.
  intros Hp Hin Hto. unfold renderPager in Hin.
  destruct (totalPages st <=? 1); [contradiction|].
  apply in_app_iff in Hin as [[<- | []] | Hin].
  - unfold createButton in Hto. cbn [onclick] in Hto.
    destruct (Z.eqb_spec (page st) 1); [discriminate|].
    injection Hto as <-. lia.
  - apply in_app_iff in Hin as [Hin | [<- | []]].
    + apply in_map_iff in Hin as (i & <- & Hi).
      apply oneTo_range in Hi.
      destruct (i =? page st); cbn [classListAdd createButton negb onclick] in Hto;
        injection Hto as <-; exact Hi.
    + unfold createButton in Hto. cbn [onclick] in Hto.
      destruct (Z.eqb_spec (page st) (totalPages st)); [discriminate|].
      injection Hto as <-. lia.
Qed.

Lemma clickPagerButton_keeps (st : State) (k : nat) :
  1 <= page st <= totalPages st ->
  1 <= page (clickPagerButton st k) <= totalPages (clickPagerButton st k)
  /\ notes (clickPagerButton st k) = notes st
  /\ perPage (clickPagerButton st k) = perPage st.
Proof.
  intros Hp. unfold clickPagerButton.
  destruct (nth_error (renderPager st) k) as [b|] eqn:E; [|auto].
  destruct (onclick b) as [to|] eqn:Eb; [|auto].
  apply nth_error_In in E.
  pose proof (renderPager_targets st b to Hp E Eb).
  rewrite goToPage_totalPages. repeat split; cbn [goToPage page]; lia.
Qed.

(** X11.  Whatever buttons of the pager the user clicks, in whatever order,
    the page stays between 1 and the last page, and the notes and the
    page size stay as they are. *)
Theorem pager_clicks_stay_in_range (st : State) (ks : list nat) :
  perPage st = 3 -> 1 <= page st <= totalPages st ->
  let st' := fold_left clickPagerButton ks st in
  1 <= page st' <= totalPages st'
  /\ notes st' = notes st /\ perPage st' = 3.
Proof.
  revert st. induction ks as [|k ks IH]; intros st Hpp Hp; cbn [fold_left].
  - auto.
  - destruct (clickPagerButton_keeps st k Hp) as (Hp' & Hn & Hpp').
    assert (Hq : perPage (clickPagerButton st k) = 3) by congruence.
    specialize (IH _ Hq Hp'). cbv zeta in IH.
    rewrite Hn in IH. exact IH.
Qed.

Lemma pager_clicks_stay_in_range_witness :
  let st' := fold_left clickPagerButton [0; 3; 3; 1]%nat
               (mkState "2025-03-03" week fourNotes 1 3) in
  1 <= page st' <= totalPages st'
  /\ notes st' = fourNotes /\ perPage st' = 3.
Proof.
  refine (pager_clicks_stay_in_range (mkState "2025-03-03" week fourNotes 1 3)
            [0; 3; 3; 1]%nat eq_refl _).
  vm_compute. split; discriminate.
Defined.

Lemma oneTo_nth (n i : Z) :
  1 <= i <= n -> nth_error (oneTo n) (Z.to_nat (i - 1)) = Some i.
Proof.
  intros H. unfold oneTo. rewrite nth_error_map.
  rewrite (nth_error_nth' _ 0%nat) by (rewrite length_seq; lia).
  rewrite seq_nth by lia. cbn [option_map]. f_equal. lia.
Qed.

Lemma pageSlice_nonempty (st : State) (i : Z) :
  perPage st = 3 -> notes st <> [] -> 1 <= i <= totalPages st ->
  exists n l, pageSlice (notes st) i = n :: l.
Proof.
  intros Hpp Hne Hi. rewrite (totalPages_three st Hpp) in Hi.
  unfold pageSlice.
  destruct (skipn (Z.to_nat ((i - 1) * 3)) (notes st)) as [|n l] eqn:E.
  - exfalso.
    assert (Hlen : List.length (skipn (Z.to_nat ((i - 1) * 3)) (notes st)) = 0%nat)
      by (now rewrite E).
    rewrite length_skipn in Hlen.
    assert (0 < Z.of_nat (List.length (notes st)))
      by (destruct (notes st); [contradiction | cbn [List.length]; lia]).
    revert Hi Hlen H. generalize (List.length (notes st)). intros k Hi Hlen Hk.
    zdiv.
  - exists n, (firstn 2 l). reflexivity.
Qed.

(** X12.  With the page between 1 and the last page, a list that is not
    empty renders at least one card. *)
Theorem renderEntries_shows_a_card (st : State) :
  perPage st = 3 -> notes st <> [] -> 1 <= page st <= totalPages st ->
  exists n l, renderEntries st = Cards (n :: l)
              /\ (List.length (n :: l) <= 3)%nat.
Proof.
  intros Hpp Hne Hp.
  destruct (Pagination.renderEntries_page st Hpp ltac:(lia) Hne) as (E & Hlen & _).
  destruct (pageSlice_nonempty st (page st) Hpp Hne Hp) as (n & l & El).
  exists n, l. rewrite E, El in *. auto.
Qed.

Lemma renderEntries_shows_a_card_witness :
  exists n l, renderEntries (mkState "2025-03-03" week fourNotes 2 3)
              = Cards (n :: l)
              /\ (List.length (n :: l) <= 3)%nat.
Proof.
  refine (renderEntries_shows_a_card (mkState "2025-03-03" week fourNotes 2 3)
            eq_refl _ _).
  - discriminate.
  - vm_compute. split; discriminate.
Defined.

(** X13.  When there is more than one page, the button at position [i] of
    the pager is labelled [i], and a click on it renders the [i]-th
    slice of the notes, which is not empty; this holds for every page
    from 1 to the last one.  The pager has two more buttons than there
    are pages. *)
Theorem pager_offers_every_page (st : State) (i : Z) :
  perPage st = 3 -> 1 < totalPages st -> 1 <= i <= totalPages st ->
  List.length (renderPager st) = Z.to_nat (totalPages st + 2)
  /\ exists b,
       nth_error (renderPager st) (Z.to_nat i) = Some b
       /\ textContent b = numberToString i
       /\ onclick b = Some i
       /\ page (clickPagerButton st (Z.to_nat i)) = i
       /\ exists n l,
            renderEntries (clickPagerButton st (Z.to_nat i)) = Cards (n :: l)
            /\ n :: l = pageSlice (notes st) i.
Proof.
  intros Hpp HT Hi.
  assert (Hne : notes st <> []).
  { intros E. unfold totalPages in HT. rewrite E, Hpp in HT.
    cbn in HT. lia. }
  set (f := fun i0 =>
              let b := createButton (numberToString i0) false (Some i0) in
              if i0 =? page st then classListAdd b "btn-active" else b).
  assert (R : renderPager st
              = [createButton "«" (page st =? 1) (Some (page st - 1))]
                ++ map f (oneTo (totalPages st))
                ++ [createButton "»" (page st =? totalPages st)
                      (Some (page st + 1))]).
  { unfold renderPager.
    destruct (Z.leb_spec (totalPages st) 1); [lia | reflexivity]. }
  split.
  - rewrite R, !length_app, length_map, oneTo_length. cbn [List.length]. lia.
  - assert (Hnth : nth_error (renderPager st) (Z.to_nat i) = Some (f i)).
    { rewrite R. cbn [app].
      replace (Z.to_nat i) with (S (Z.to_nat (i - 1))) by lia.
      cbn [nth_error].
      rewrite nth_error_app1 by (rewrite length_map, oneTo_length; lia).
      rewrite nth_error_map, oneTo_nth by assumption. reflexivity. }
    assert (Hf : textContent (f i) = numberToString i /\ onclick (f i) = Some i).
    { subst f. cbv beta zeta. destruct (i =? page st); split; reflexivity. }
    destruct Hf as [Hf1 Hf2].
    assert (Hclick : clickPagerButton st (Z.to_nat i) = goToPage st i).
    { unfold clickPagerButton. now rewrite Hnth, Hf2. }
    exists (f i). split; [exact Hnth|]. split; [exact Hf1|]. split; [exact Hf2|].
    rewrite Hclick. split; [reflexivity|].
    destruct (pageSlice_nonempty st i Hpp Hne Hi) as (n & l & El).
    exists n, l. split; [|now rewrite El].
    destruct (Pagination.renderEntries_page (goToPage st i)) as (E & _).
    + exact Hpp.
    + cbn [goToPage page]. lia.
    + exact Hne.
    + rewrite E. cbn [goToPage page notes]. now rewrite El.
Qed.

Lemma pager_offers_every_page_witness :
  List.length (renderPager (mkState "2025-03-03" week fourNotes 1 3))
  = Z.to_nat (totalPages (mkState "2025-03-03" week fourNotes 1 3) + 2)
  /\ exists b,
       nth_error (renderPager (mkState "2025-03-03" week fourNotes 1 3))
         (Z.to_nat 2) = Some b
       /\ textContent b = numberToString 2
       /\ onclick b = Some 2
       /\ page (clickPagerButton (mkState "2025-03-03" week fourNotes 1 3)
                  (Z.to_nat 2)) = 2
       /\ exists n l,
            renderEntries (clickPagerButton
                             (mkState "2025-03-03" week fourNotes 1 3)
                             (Z.to_nat 2))
            = Cards (n :: l)
            /\ n :: l = pageSlice fourNotes 2.
Proof.
  refine (pager_offers_every_page (mkState "2025-03-03" week fourNotes 1 3) 2
            eq_refl _ _).
  - reflexivity.
  - vm_compute. split; discriminate.
Defined.

End Pager.
(* ================================================================== *)
(** * Scope resolver: ranges as buckets *)
(* ================================================================== *)

Module Buckets.
Import ES ESFacts ESCalendar DateFns DateFnsFacts Client Spec SpecMore.






Lemma same_year_bounds (d x : Z) :
  getFullYear x = getFullYear d ->
  startOfYear x = startOfYear d /\ endOfYear x = endOfYear d.
Proof. intros E. now rewrite !startOfYear_eq, !endOfYear_eq, E. Qed.

Lemma same_month_bounds (d x : Z) :
  getFullYear x = getFullYear d -> getMonth x = getMonth d ->
  startOfMonth x = startOfMonth d /\ endOfMonth x = endOfMonth d.
Proof. intros Ey Em. now rewrite !startOfMonth_eq, !endOfMonth_eq, Ey, Em. Qed.

Lemma same_week_bounds (d x : Z) :
  Day (startOfWeek d 1) <= Day x <= Day (endOfWeek d 1) ->
  startOfWeek x 1 = startOfWeek d 1 /\ endOfWeek x 1 = endOfWeek d 1.
Proof.
  intros H.
  pose proof (ScopeResolver.week_covers d) as [_ He].
  assert (Es : startOfWeek x 1 = startOfWeek d 1)
    by (apply Breadcrumbs.startOfWeek_same_week; lia).
  split; [exact Es|].
  rewrite !endOfWeek_eq. rewrite <- !Breadcrumbs.Day_startOfWeek. now rewrite Es.
Qed.

Lemma same_day_bounds (d x : Z) :
  Day x = Day d -> startOfDay x = startOfDay d /\ endOfDay x = endOfDay d.
Proof. intros E. now rewrite !startOfDay_eq, !endOfDay_eq, E. Qed.



Lemma nested_bounds (d : Z) :
  startOfYear d <= startOfMonth d /\ startOfMonth d <= startOfDay d
  /\ startOfDay d <= endOfDay d /\ endOfDay d <= endOfMonth d
  /\ endOfMonth d <= endOfYear d
  /\ startOfWeek d 1 <= startOfDay d /\ endOfDay d <= endOfWeek d 1.
Proof.
  pose proof (ScopeResolver.year_bounds d) as [Hya Hyb].
  pose proof (ScopeResolver.month_bounds d) as [Hma Hmb].
  pose proof (ScopeResolver.week_bounds d) as [Hwa Hwb].
  pose proof (ScopeResolver.day_contains d) as [Hd Hdd].
  pose proof (ScopeResolver.day_covers d) as [Hds Hde].
  assert (Ym : forall x, getFullYear x = getFullYear d ->
                         startOfYear d <= x <= endOfYear d).
  { intros x Hx. apply ScopeResolver.bounds_contain; auto.
    now apply ScopeResolver.year_covers. }
  assert (Md : forall x, Day x = Day d ->
                         startOfMonth d <= x <= endOfMonth d).
  { intros x Hx. apply ScopeResolver.bounds_contain; auto.
    destruct (Navigation.fields_of_Day _ _ Hx) as (Ey & Em & _).
    now apply ScopeResolver.month_covers. }
  assert (Wd : forall x, Day x = Day d ->
                         startOfWeek d 1 <= x <= endOfWeek d 1).
  { intros x Hx. apply ScopeResolver.bounds_contain; auto.
    rewrite Hx. apply ScopeResolver.week_contains. }
  pose proof (ScopeResolver.month_start_fields d) as (Fs & _).
  pose proof (ScopeResolver.month_end_fields d) as (Fe & _).
  pose proof (Ym _ Fs). pose proof (Ym _ Fe).
  pose proof (Md _ Hds). pose proof (Md _ Hde).
  pose proof (Wd _ Hds). pose proof (Wd _ Hde).
  lia.
Qed.

(** X8.  The ranges of one date are nested: the day lies within the week
    and within the month, and the month within the year; summary and
    year resolve to the same range. *)
Theorem getDateRange_nested (dateISO : string) (d : Z) :
  parseISO dateISO = Some d ->
  exists ya yb ma mb wa wb da db,
    getDateRange dateISO year = mkRange (Some ya) (Some yb)
    /\ getDateRange dateISO summary = getDateRange dateISO year
    /\ getDateRange dateISO month = mkRange (Some ma) (Some mb)
    /\ getDateRange dateISO week = mkRange (Some wa) (Some wb)
    /\ getDateRange dateISO day = mkRange (Some da) (Some db)
    /\ ya <= ma /\ ma <= da /\ da <= db /\ db <= mb /\ mb <= yb
    /\ wa <= da /\ db <= wb.
Proof.
  intros E.
  exists (startOfYear d), (endOfYear d), (startOfMonth d), (endOfMonth d),
    (startOfWeek d 1), (endOfWeek d 1), (startOfDay d), (endOfDay d).
  rewrite !(ScopeResolver.getDateRange_valid _ _ _ E).
  do 5 (split; [reflexivity|]).
  pose proof (nested_bounds d). tauto.
Qed.

Lemma getDateRange_nested_witness :
  exists ya yb ma mb wa wb da db,
    getDateRange "2025-03-10" year = mkRange (Some ya) (Some yb)
    /\ getDateRange "2025-03-10" summary = getDateRange "2025-03-10" year
    /\ getDateRange "2025-03-10" month = mkRange (Some ma) (Some mb)
    /\ getDateRange "2025-03-10" week = mkRange (Some wa) (Some wb)
    /\ getDateRange "2025-03-10" day = mkRange (Some da) (Some db)
    /\ ya <= ma /\ ma <= da /\ da <= db /\ db <= mb /\ mb <= yb
    /\ wa <= da /\ db <= wb.
Proof.
  exact (getDateRange_nested "2025-03-10" 1741564800000 eq_refl).
Defined.

Lemma month_span (d : Z) : Day (endOfMonth d) <= Day (startOfMonth d) + 30.
Proof.
  rewrite startOfMonth_eq, endOfMonth_eq, !Day_MakeDate by apply msPerDay_pos.
  pose proof (getMonth_range d) as Hr.
  pose proof (DaysInMonth_pos (getFullYear d) _ Hr).
  rewrite !MakeDay_in_range by assumption. lia.
Qed.

Lemma first_week_start (d : Z) :
  Day (startOfWeek (startOfMonth d) 1) <= Day (startOfWeek d 1) /\
  (Day (startOfWeek d 1) - Day (startOfWeek (startOfMonth d) 1)) mod 7 = 0.
Proof.
  pose proof (Breadcrumbs.first_week_start_before d) as H.
  cbv zeta in H. destruct H as (Hle & Hmod & _). split; assumption.
Qed.

Lemma weeks_between (c f e s x m : Z) :
  f <= c -> (c - f) mod 7 = 0 -> c <= x -> x <= e -> e <= s + 30 ->
  f = s - m -> 0 <= m <= 6 -> 0 <= (c - f) / 7 <= 5.
Proof. intros. zdiv. Qed.

Lemma no_weeks_between (c f x : Z) :
  f <= c -> (c - f) mod 7 = 0 -> (c - f) / 7 = 0 -> x - 6 <= c <= x ->
  f <= x < f + 7.
Proof. intros. zdiv. Qed.

Lemma wholeWeeks_eq (d : Z) :
  wholeWeeks d
  = (Day (startOfWeek d 1) - Day (startOfWeek (startOfMonth d) 1)) / 7.
Proof. unfold wholeWeeks. reflexivity. Qed.

Lemma wholeWeeks_range (d : Z) : 0 <= wholeWeeks d <= 5.
Proof.
  rewrite wholeWeeks_eq.
  destruct (first_week_start d) as [Hle Hmod].
  pose proof (ScopeResolver.week_covers d) as [[_ Hc] _].
  pose proof (ScopeResolver.month_contains d) as [_ [_ Hm]].
  pose proof (month_span d) as Hspan.
  pose proof (Breadcrumbs.Day_startOfWeek (startOfMonth d)) as Hf.
  pose proof (ScopeResolver.daysSinceMonday_range (startOfMonth d)).
  eapply weeks_between; eauto.
Qed.

Lemma wholeWeeks_zero (d : Z) :
  wholeWeeks d = 0 -> startOfWeek d 1 = startOfWeek (startOfMonth d) 1.
Proof.
  intros E0. rewrite wholeWeeks_eq in E0.
  destruct (first_week_start d) as [Hle Hmod].
  pose proof (ScopeResolver.week_covers d) as [Hc _].
  apply Breadcrumbs.startOfWeek_same_week.
  exact (no_weeks_between _ _ _ Hle Hmod E0 Hc).
Qed.

Lemma label_range (f c ww wom oc ofs : Z) :
  Z.abs (oc - ofs) < 7 * msPerDay ->
  (- (7 * msPerDay) < oc - ofs <= 0 -> wom = 1 + ww) ->
  (0 < oc - ofs <= 7 * msPerDay -> wom = ww) ->
  (ww = 0 -> oc = ofs) ->
  0 <= ww <= 5 ->
  1 <= wom <= 6.
Proof.
  intros Hshift Hlow Hhigh Hzero Hww.
  destruct (Z.le_gt_cases (oc - ofs) 0) as [Hneg | Hpos].
  - rewrite Hlow by lia. lia.
  - rewrite Hhigh by lia. assert (ww <> 0); [|lia].
    intros E0. specialize (Hzero E0). lia.
Qed.

(** X9.  The week-of-month label lies between 1 and 6, in every zone whose
    offsets at the two week starts are less than a week apart. *)
Theorem weekOfMonth_range (tz : TimeZone) (d : Z) :
  Z.abs (tz (startOfWeek d 1) - tz (startOfWeek (startOfMonth d) 1))
  < 7 * msPerDay ->
  1 <= weekOfMonth tz d <= 6.
Proof.
  intros Hshift.
  pose proof (Breadcrumbs.weekOfMonth_offsets tz d) as Hoff.
  cbv zeta in Hoff. destruct Hoff as [Hlow Hhigh].
  apply (label_range 0 0 (wholeWeeks d) _ _ _ Hshift Hlow Hhigh).
  - intros E0. now rewrite (wholeWeeks_zero d E0).
  - apply wholeWeeks_range.
Qed.

Lemma weekOfMonth_range_witness :
  1 <= weekOfMonth easternTime2025 1741564800000 <= 6.
Proof.
  refine (weekOfMonth_range easternTime2025 1741564800000 _).
  vm_compute. reflexivity.
Defined.

End Buckets.
(* ================================================================== *)
(** * Requests: what each outcome of a request leads to *)
(* ================================================================== *)

Module Requests.
Import ES DateFns Client Spec SpecMore.

(** X16.  First revision.  [loadEntries] never throws and never alerts: it
    sends one request and keeps the date, the scope and the page size.
    A body that reads as JSON under a 2xx status becomes the list and
    nothing is logged; in every other case the list is emptied and one
    error line is logged.  The page goes back to 1 when a response
    arrived and its body, if read, was JSON; it stays where it was when
    the request was rejected or the body could not be read. *)
Theorem loadEntries_main_outcome (net : Network) (w : World) :
  exists w',
    MainTs.loadEntries net w = (Returns tt, w')
    /\ requests w' = requests w ++ [GetEntries (entriesUrl_main (state w))]
    /\ alerts w' = alerts w
    /\ dateISO (state w') = dateISO (state w)
    /\ scope (state w') = scope (state w)
    /\ perPage (state w') = perPage (state w)
    /\ let failed :=
         notes (state w') = []
         /\ exists line, console w' = console w ++ [line] /\ level line = ERROR in
       match entriesEndpoint net (entriesUrl_main (state w)) with
       | Fulfilled res =>
           if ok res then
             match json res with
             | Some ns =>
                 notes (state w') = ns /\ page (state w') = 1
                 /\ console w' = console w
             | None => failed /\ page (state w') = page (state w)
             end
           else failed /\ page (state w') = 1
       | Rejected _ => failed /\ page (state w') = page (state w)
       end.
Proof.
  unfold entriesUrl_main. Fetching.run.
  destruct (entriesEndpoint net _) as [res | error].
  - destruct (ok res).
    + destruct (json res) as [ns|];
        cbn [state console alerts requests notes page perPage dateISO scope];
        eexists; repeat split; eexists; split; reflexivity.
    + cbn [state console alerts requests notes page perPage dateISO scope].
      eexists; repeat split; eexists; split; reflexivity.
  - cbn [state console alerts requests notes page perPage dateISO scope].
    eexists; repeat split; eexists; split; reflexivity.
Qed.

(** X17.  Second revision.  [loadEntries] sends one request and never alerts.
    It throws exactly when the request is rejected or a 2xx body is not
    JSON, and then leaves the state and the console as they were.
    Otherwise it returns with the page at 1 and the list set to the body
    under a 2xx status, to the empty list under any other.  The summary
    scope sends the request of the year scope. *)
Theorem loadEntries_rev_outcome (net : Network) (w : World) :
  exists c w',
    Part000.loadEntries net w = (c, w')
    /\ requests w' = requests w ++ [GetEntries (entriesUrl_rev (state w))]
    /\ alerts w' = alerts w
    /\ dateISO (state w') = dateISO (state w)
    /\ scope (state w') = scope (state w)
    /\ perPage (state w') = perPage (state w)
    /\ match entriesEndpoint net (entriesUrl_rev (state w)) with
       | Fulfilled res =>
           if ok res then
             match json res with
             | Some ns =>
                 c = Returns tt /\ notes (state w') = ns
                 /\ page (state w') = 1 /\ console w' = console w
             | None =>
                 (exists error, c = Throws error)
                 /\ state w' = state w /\ console w' = console w
             end
           else c = Returns tt /\ notes (state w') = []
                /\ page (state w') = 1
                /\ exists line, console w' = console w ++ [line]
                                /\ level line = ERROR
       | Rejected error =>
           c = Throws error /\ state w' = state w /\ console w' = console w
       end
    /\ (scope (state w) = summary ->
        entriesUrl_rev (state w)
        = ("/api/entries?scope=year&date=" ++ dateISO (state w))%string).
Proof.
  unfold entriesUrl_rev. Fetching.run.
  destruct (entriesEndpoint net _) as [res | error].
  - destruct (ok res).
    + destruct (json res) as [ns|];
        cbn [state console alerts requests notes page perPage dateISO scope];
        do 2 eexists; repeat split; eauto; try (intros E; rewrite E; reflexivity);
        try (eexists; split; reflexivity).
    + cbn [state console alerts requests notes page perPage dateISO scope].
      do 2 eexists; repeat split; eauto; try (intros E; rewrite E; reflexivity);
        try (eexists; split; reflexivity).
  - cbn [state console alerts requests notes page perPage dateISO scope].
    do 2 eexists; repeat split; eauto; try (intros E; rewrite E; reflexivity);
        try (eexists; split; reflexivity).
Qed.

(** X18.  [analyzeText] never throws, sends one request, and leaves the state
    and the alerts alone.  It returns the body of a 2xx response that
    reads as JSON, logging no error; in every other case, a 2xx body
    that is not JSON among them, it returns the default analysis and
    logs an error. *)
Theorem analyzeText_outcome (net : Network) (text : string) (w : World) :
  exists a w' lines,
    analyzeText net text w = (Returns a, w')
    /\ requests w' = requests w ++ [PostAnalyze text]
    /\ state w' = state w /\ alerts w' = alerts w
    /\ console w' = console w ++ lines
    /\ let fallback :=
         a = defaultAnalysis /\ Exists (fun l => level l = ERROR) lines in
       match analyzeEndpoint net text with
       | Fulfilled res =>
           if ok res then
             match json res with
             | Some result =>
                 a = result /\ Forall (fun l => level l = LOG) lines
             | None => fallback
             end
           else fallback
       | Rejected _ => fallback
       end.
Proof.
  Fetching.run. destruct (analyzeEndpoint net text) as [res | error].
  - destruct (ok res); cbn [negb].
    + destruct (json res) as [a|];
        cbn [state console alerts requests]; rewrite <- ?app_assoc;
        do 3 eexists; repeat split; try reflexivity.
      * repeat constructor.
      * cbn [app]. do 2 apply Exists_cons_tl. apply Exists_cons_hd. reflexivity.
    + cbn [state console alerts requests]. rewrite <- ?app_assoc.
      do 3 eexists; repeat split; try reflexivity.
      cbn [app]. do 2 apply Exists_cons_tl. apply Exists_cons_hd. reflexivity.
  - cbn [state console alerts requests]. rewrite <- ?app_assoc.
    do 3 eexists; repeat split; try reflexivity.
    cbn [app]. apply Exists_cons_tl. apply Exists_cons_hd. reflexivity.
Qed.

(** X19.  The save handler when the save request fails, by a rejection or a
    status outside 200-299.  It returns, having sent the analysis
    request and then the save request with the analysis it got; it does
    not run [refresh], so the state is as before; and it shows one
    alert, with the message of the rejection or else the body of the
    response, or the status text when the body is empty. *)
Theorem saveEntry_failed_save (net : Network) (refresh : M unit)
    (text createdAt : string) (w : World) :
  (forall p, fails (saveEndpoint net p)) ->
  exists a w',
    saveEntry net refresh text createdAt w = (Returns tt, w')
    /\ fst (analyzeText net text w) = Returns a
    /\ requests w'
       = requests w ++ [PostAnalyze text;
                        PostEntry (mkPayload text createdAt a)]
    /\ state w' = state w
    /\ alerts w'
       = alerts w
         ++ [("Could not save entry: "
              ++ match saveEndpoint net (mkPayload text createdAt a) with
                 | Rejected error => message error
                 | Fulfilled res =>
                     if String.eqb (bodyText res) EmptyString
                     then statusText res else bodyText res
                 end)%string].
Proof.
  intros Hfail. Fetching.run.
  destruct (analyzeEndpoint net text) as [ares | aerror];
    [destruct (ok ares); [destruct (json ares) as [a|]|]|];
    cbn [negb state console alerts requests fst];
    match goal with
    | |- context [saveEndpoint net ?p] =>
        pose proof (Hfail p) as Hp; unfold fails in Hp;
        destruct (saveEndpoint net p) as [res | error] eqn:E;
        [rewrite Hp|]
    end;
    cbn [negb state console alerts requests fst message];
    rewrite <- ?app_assoc; do 2 eexists; repeat split;
    cbn [alerts]; rewrite E; reflexivity.
Qed.

Lemma saveEntry_failed_save_witness :
  exists a w',
    saveEntry offline (Part000.refresh offline) "Walked to work." "2025-03-03"
      (browsing fourNotes 2) = (Returns tt, w')
    /\ fst (analyzeText offline "Walked to work." (browsing fourNotes 2))
       = Returns a
    /\ requests w'
       = requests (browsing fourNotes 2)
         ++ [PostAnalyze "Walked to work.";
             PostEntry (mkPayload "Walked to work." "2025-03-03" a)]
    /\ state w' = state (browsing fourNotes 2)
    /\ alerts w'
       = alerts (browsing fourNotes 2)
         ++ [("Could not save entry: "
              ++ match saveEndpoint offline
                         (mkPayload "Walked to work." "2025-03-03" a) with
                 | Rejected error => message error
                 | Fulfilled res =>
                     if String.eqb (bodyText res) EmptyString
                     then statusText res else bodyText res
                 end)%string].
Proof.
  refine (saveEntry_failed_save offline (Part000.refresh offline)
            "Walked to work." "2025-03-03" (browsing fourNotes 2) _).
  intros p. exact I.
Defined.

(** X20.  The save handler when the save request succeeds.  The analysis
    request and then the save request are sent, the state and the
    alerts are untouched, and [refresh] runs once, after both.  The
    handler returns whatever [refresh] does: when [refresh] throws, the
    handler logs the error and alerts that the entry could not be
    saved, although the save request succeeded. *)
Theorem saveEntry_saved (net : Network) (refresh : M unit)
    (text createdAt : string) (w : World) :
  (forall p, succeeds (saveEndpoint net p)) ->
  exists a w1,
    fst (analyzeText net text w) = Returns a
    /\ requests w1
       = requests w ++ [PostAnalyze text;
                        PostEntry (mkPayload text createdAt a)]
    /\ state w1 = state w /\ alerts w1 = alerts w
    /\ saveEntry net refresh text createdAt w
       = match refresh w1 with
         | (Returns _, w2) => (Returns tt, w2)
         | (Throws err, w2) =>
             (Returns tt,
              mkWorld (state w2)
                (console w2
                 ++ [mkLogLine ERROR ["Save failed:"%string; message err]])
                (alerts w2 ++ [("Could not save entry: " ++ message err)%string])
                (requests w2))
         end.
Proof.
  intros Hok. Fetching.run.
  destruct (analyzeEndpoint net text) as [ares | aerror];
    [destruct (ok ares); [destruct (json ares) as [a|]|]|];
    cbn [negb state console alerts requests fst];
    match goal with
    | |- context [saveEndpoint net ?p] =>
        pose proof (Hok p) as Hp; unfold succeeds in Hp;
        destruct (saveEndpoint net p) as [res | error];
        [destruct Hp as [Hp Hj]; rewrite Hp;
         destruct (json res) as [n|]; [|contradiction]
        |contradiction]
    end;
    cbn [negb state console alerts requests fst];
    rewrite <- ?app_assoc;
    eexists;
    match goal with
    | |- context [refresh ?W] =>
        exists W; destruct (refresh W) as [[[]|err] w2]
    end;
    repeat split.
Qed.

Lemma saveEntry_saved_witness :
  exists a w1,
    fst (analyzeText listUnreachable "Walked to work." (browsing [] 1))
    = Returns a
    /\ requests w1
       = requests (browsing [] 1)
         ++ [PostAnalyze "Walked to work.";
             PostEntry (mkPayload "Walked to work." "2025-03-03" a)]
    /\ state w1 = state (browsing [] 1) /\ alerts w1 = alerts (browsing [] 1)
    /\ saveEntry listUnreachable (Part000.refresh listUnreachable)
         "Walked to work." "2025-03-03" (browsing [] 1)
       = match Part000.refresh listUnreachable w1 with
         | (Returns _, w2) => (Returns tt, w2)
         | (Throws err, w2) =>
             (Returns tt,
              mkWorld (state w2)
                (console w2
                 ++ [mkLogLine ERROR ["Save failed:"%string; message err]])
                (alerts w2 ++ [("Could not save entry: " ++ message err)%string])
                (requests w2))
         end.
Proof.
  refine (saveEntry_saved listUnreachable (Part000.refresh listUnreachable)
            "Walked to work." "2025-03-03" (browsing [] 1) _).
  intros p. split; [reflexivity | discriminate].
Defined.

End Requests.
(* ================================================================== *)
(** * Prompt selector: ties, reachable prompts, the yearly days *)
(* ================================================================== *)

Module PromptPools.
Import ES ESFacts ESCalendar DateFns DateFnsFacts Client ArrayFacts Spec SpecMore.

Lemma countOf_total (l : list Note) :
  countOf positive l + countOf neutral l + countOf negative l
  = Z.of_nat (List.length l).
Proof.
  unfold countOf. induction l as [|n l IH]; [reflexivity|].
  cbn [filter List.length].
  destruct (sentiment (analysis n)); cbn [sentiment_eqb List.length]; lia.
Qed.

Lemma countOf_nonneg (s : Sentiment) (l : list Note) : 0 <= countOf s l.
Proof. unfold countOf. lia. Qed.

Lemma dominant_cases (p u n len : Z) :
  0 <= p -> 0 <= u -> 0 <= n -> p + u + n = len ->
  let r := dominant p u n in
  ((len < 2 * p -> r = positive) /\ (len < 2 * u -> r = neutral)
   /\ (len < 2 * n -> r = negative))
  /\ (r = positive <-> u <= p /\ n <= p)
  /\ (r = negative <-> p < n /\ u <= n)
  /\ (r = neutral <-> p < u /\ n < u).
Proof.
  intros Hp Hu Hn Hlen. unfold dominant. cbv zeta.
  destruct (Z.eqb_spec p (Z.max (Z.max p u) n));
    [|destruct (Z.eqb_spec n (Z.max (Z.max p u) n))];
    (split; [split; [|split]; intros; try reflexivity; lia|]);
    (split; [|split]); split; intros; try reflexivity; try discriminate; lia.
Qed.

(** X21.  Ties among the three most recent notes.  For a history that is not
    empty: a sentiment held by more than half of the notes looked at is
    the result; positive is the result whenever no other sentiment is
    more frequent; negative when it is more frequent than positive and
    at least as frequent as neutral; neutral only when it is strictly
    the most frequent. *)
Theorem getRecentSentiment_ties (st : State) :
  notes st <> [] ->
  let recent := firstn 3 (notes st) in
  let result := getRecentSentiment st in
  (forall s, Z.of_nat (List.length recent) < 2 * countOf s recent ->
             result = s)
  /\ (result = positive <->
      countOf neutral recent <= countOf positive recent
      /\ countOf negative recent <= countOf positive recent)
  /\ (result = negative <->
      countOf positive recent < countOf negative recent
      /\ countOf neutral recent <= countOf negative recent)
  /\ (result = neutral <->
      countOf positive recent < countOf neutral recent
      /\ countOf negative recent < countOf neutral recent).
Proof.
  intros Hne recent result.
  pose proof (PromptSelector.getRecentSentiment_nonempty st Hne) as E.
  fold recent in E. fold result in E.
  pose proof (dominant_cases _ _ _ _
                (countOf_nonneg positive recent) (countOf_nonneg neutral recent)
                (countOf_nonneg negative recent) (countOf_total recent)) as H.
  cbv zeta in H. rewrite <- E in H.
  destruct H as ((Hp & Hu & Hn) & Hrest).
  split; [|exact Hrest].
  intros s. destruct s; assumption.
Qed.

Lemma getRecentSentiment_ties_witness :
  getRecentSentiment
    (mkState "2025-06-11" day
       [mkNote "1" "2025-06-11" "a" (mkAnalysis neutral 2 [] []);
        mkNote "2" "2025-06-10" "b" (mkAnalysis negative 2 [] []);
        mkNote "3" "2025-06-09" "c" (mkAnalysis positive 2 [] []);
        mkNote "4" "2025-06-08" "d" (mkAnalysis negative 2 [] [])] 1 3)
  = positive.
Proof.
  refine (proj2 (proj1 (proj2 (getRecentSentiment_ties
            (mkState "2025-06-11" day
               [mkNote "1" "2025-06-11" "a" (mkAnalysis neutral 2 [] []);
                mkNote "2" "2025-06-10" "b" (mkAnalysis negative 2 [] []);
                mkNote "3" "2025-06-09" "c" (mkAnalysis positive 2 [] []);
                mkNote "4" "2025-06-08" "d" (mkAnalysis negative 2 [] [])] 1 3)
            _))) _).
  - discriminate.
  - vm_compute. split; discriminate.
Defined.

(** ** Every prompt can come up *)

Lemma Qfloor_fraction (i n : Z) :
  0 < n -> Qfloor (Qmake i (Z.to_pos n) * inject_Z n) = i.
Proof.
  intros Hn. unfold Qfloor, Qmult, inject_Z. cbn [Qnum Qden].
  rewrite Pos.mul_1_r, Z2Pos.id by assumption.
  apply Z.div_mul. lia.
Qed.

Lemma In_arrayGet {A : Type} (x : A) (l : list A) :
  In x l ->
  exists i, 0 <= i < Z.of_nat (List.length l) /\ arrayGet l i = Some x.
Proof.
  intros H. apply In_nth_error in H as [k Hk].
  assert (Hlt : (k < List.length l)%nat)
    by (apply nth_error_Some; now rewrite Hk).
  exists (Z.of_nat k). split; [lia|]. unfold arrayGet.
  destruct (Z.ltb_spec (Z.of_nat k) 0); [lia|]. now rewrite Nat2Z.id.
Qed.

(** X22.  Every prompt of the pool the selector settles on is the result for
    some value of [Math.random()] in the range from 0 up to but
    excluding 1. *)
Theorem choosePrompt_reaches (tz : TimeZone) (now weekendClock : Z)
    (st : State) (p : string) :
  In p (fst (promptTier tz now weekendClock st)) ->
  exists random : Q,
    (0 <= random)%Q /\ (random < 1)%Q
    /\ choosePrompt tz now weekendClock random st
       = (snd (promptTier tz now weekendClock st) ++ p)%string.
Proof.
  intros Hin. unfold choosePrompt.
  destruct (promptTier tz now weekendClock st) as [pool prefix].
  cbn [fst snd] in *.
  destruct (In_arrayGet p pool Hin) as (i & Hi & Hget).
  set (n := Z.of_nat (List.length pool)) in *.
  exists (Qmake i (Z.to_pos n)). split; [|split].
  - unfold Qle. cbn [Qnum Qden]. lia.
  - unfold Qlt. cbn [Qnum Qden]. rewrite Z2Pos.id by lia. lia.
  - rewrite Qfloor_fraction by lia. now rewrite Hget.
Qed.

Lemma choosePrompt_reaches_witness :
  exists random : Q,
    (0 <= random)%Q /\ (random < 1)%Q
    /\ choosePrompt utc 1749600000000 1749600000000 random
         (mkState "2025-06-11" day [] 1 3)
       = (snd (promptTier utc 1749600000000 1749600000000
                 (mkState "2025-06-11" day [] 1 3))
          ++ "What helped you feel steady today?")%string.
Proof.
  refine (choosePrompt_reaches utc 1749600000000 1749600000000
            (mkState "2025-06-11" day [] 1 3)
            "What helped you feel steady today?" _).
  vm_compute. right. right. left. reflexivity.
Defined.

(** ** The days of the yearly tier *)

Lemma DayWithinYear_fields (t : Z) :
  DayWithinYear t
  = monthStart (getMonth t) (leapOf (getFullYear t)) + getDate t - 1.
Proof.
  pose proof (MakeDay_fields t) as H.
  rewrite MakeDay_in_range in H by apply getMonth_range.
  unfold DayWithinYear. fold (getFullYear t). lia.
Qed.

Lemma yearly_days (m dt leap : Z) :
  0 <= m <= 11 -> (leap = 0 \/ leap = 1) ->
  1 <= dt <= monthStart (m + 1) leap - monthStart m leap ->
  (monthStart m leap + dt <= 7 \/ 358 <= monthStart m leap + dt)
  <-> (m = 0 /\ dt <= 7) \/ (m = 11 /\ 24 - leap <= dt).
Proof.
  intros Hm Hl. each_month Hm; destruct Hl; subst; vm_compute monthStart; lia.
Qed.

(** X23.  When the zone offset now is the offset at the midnight that opened
    December 31 of the year before, the yearly tier is chosen exactly
    from January 1 to January 7 and from December 24 on, or from
    December 23 on in a leap year. *)
Theorem promptTier_yearly_days (tz : TimeZone) (now weekendClock : Z)
    (st : State) :
  tz now = tz (newDate (getFullYear now) 0 0) ->
  ~ 0 <= getFullYear now <= 99 ->
  (snd (promptTier tz now weekendClock st) = "Year-end reflection: "%string
   <-> (getMonth now = 0 /\ getDate now <= 7)
       \/ (getMonth now = 11
           /\ 24 - leapOf (getFullYear now) <= getDate now)).
Proof.
  intros Htz Hy.
  pose proof (PromptSelector.dayOfYear_calendar tz now Htz Hy) as Hdoy.
  rewrite DayWithinYear_fields in Hdoy.
  pose proof (getMonth_range now) as Hm.
  pose proof (getDate_range now) as Hd. unfold DaysInMonth in Hd.
  fold (leapOf (getFullYear now)) in Hd.
  assert (Hl : leapOf (getFullYear now) = 0 \/ leapOf (getFullYear now) = 1)
    by (destruct (leapOf_cases (getFullYear now)) as [[? _] | [? _]]; auto).
  pose proof (yearly_days _ _ _ Hm Hl Hd) as Hiff.
  unfold promptTier. rewrite Hdoy.
  revert Hiff.
  generalize (monthStart (getMonth now) (leapOf (getFullYear now))).
  generalize (leapOf (getFullYear now)) (getMonth now) (getDate now).
  intros leap m dt ms Hiff.
  replace (ms + dt - 1 + 1) with (ms + dt) by lia.
  destruct (Z.leb_spec (ms + dt) 7) as [H7 | H7];
    [|destruct (Z.leb_spec 358 (ms + dt)) as [H358 | H358]]; cbn [orb snd].
  - split; [intros _; apply Hiff; lia | reflexivity].
  - split; [intros _; apply Hiff; lia | reflexivity].
  - split.
    + intros E. exfalso.
      destruct ((dt <=? 3) || (28 <=? dt)); [discriminate|].
      destruct (isWeekend weekendClock); discriminate.
    + intros H. apply Hiff in H. lia.
Qed.

Lemma promptTier_yearly_days_witness :
  snd (promptTier utc 1766534400000 1766534400000
         (mkState "2025-12-24" day [] 1 3))
  = "Year-end reflection: "%string.
Proof.
  refine (proj2 (promptTier_yearly_days utc 1766534400000 1766534400000
                   (mkState "2025-12-24" day [] 1 3) _ _) _).
  - reflexivity.
  - vm_compute. intros [_ H]. apply H. reflexivity.
  - right. vm_compute. split; [reflexivity | discriminate].
Defined.

End PromptPools.
(* ================================================================== *)
(** * Overview aggregator: labels of any kind *)
(* ================================================================== *)

Module Ranking.
Import ES DateFns Client ArrayFacts Spec SpecMore.

Lemma insertByIndex_perm (x : string * Z) (l : list (string * Z)) :
  Permutation (x :: l) (insertByIndex x l).
Proof.
  induction l as [|y l IH]; cbn [insertByIndex]; [reflexivity|].
  destruct (indexOf x <=? indexOf y); [reflexivity|].
  apply perm_trans with (y :: x :: l); [apply perm_swap | now apply perm_skip].
Qed.

Lemma filter_split_perm {A : Type} (f : A -> bool) (l : list A) :
  Permutation (filter f l ++ filter (fun x => negb (f x)) l) l.
Proof.
  induction l as [|x l IH]; [reflexivity|]. cbn [filter].
  destruct (f x); cbn [negb app].
  - now apply perm_skip.
  - apply Permutation_sym, Permutation_cons_app, Permutation_sym, IH.
Qed.

(** [Object.entries] lists every own property once, whatever the
    order. *)
Lemma Object_entries_perm (o : JSObject) : Permutation (Object_entries o) o.
Proof.
  unfold Object_entries.
  apply perm_trans
    with (filter (fun kv => isArrayIndex (fst kv)) o
          ++ filter (fun kv => negb (isArrayIndex (fst kv))) o);
    [|apply filter_split_perm].
  apply Permutation_app_tail.
  induction (filter (fun kv => isArrayIndex (fst kv)) o) as [|x l IH];
    cbn [fold_right]; [reflexivity|].
  apply perm_trans with (x :: fold_right insertByIndex [] l);
    [apply Permutation_sym, insertByIndex_perm | now apply perm_skip].
Qed.

Lemma StronglySorted_any {A : Type} (l : list A) :
  StronglySorted (fun _ _ => True) l.
Proof.
  induction l as [|x l IH]; constructor; [assumption|].
  apply Forall_forall. intros; exact I.
Qed.

Lemma topLabels_rankedTop (all : list string) : rankedTop all (topLabels all).
Proof.
  destruct (Overview.countLabels_counted all) as (Hnd & Hent & Hcov & _).
  set (o := countLabels all) in *.
  assert (Hkeys : forall k, In k (map fst o) -> In k all).
  { intros k Hk. apply in_map_iff in Hk as ([k' v] & <- & Hin).
    now apply (Hent k' v). }
  unfold topLabels. fold o.
  set (sorted := sort byCountDescending (Object_entries o)).
  assert (Hperm : Permutation o sorted).
  { apply perm_trans with (Object_entries o);
      [apply Permutation_sym, Object_entries_perm | apply sort_perm]. }
  exists (map fst sorted). split; [|split; [|split]].
  - rewrite slice_prefix by lia. change (Z.to_nat 5) with 5%nat.
    symmetry. apply firstn_map.
  - apply Permutation_NoDup with (l := map fst o); [|exact Hnd].
    now apply Permutation_map.
  - intros x. split.
    + intros Hx. apply Hkeys.
      eapply Permutation_in; [symmetry; apply Permutation_map, Hperm | exact Hx].
    + intros Hx.
      eapply Permutation_in; [apply Permutation_map, Hperm | now apply Hcov].
  - apply Overview.StronglySorted_map.
    apply Overview.StronglySorted_weaken
      with (R := ranked snd (fun _ _ => True)).
    + intros [ka va] [kb vb] Ha Hb Hr.
      apply (Permutation_in _ (Permutation_sym Hperm)) in Ha, Hb.
      destruct (Hent _ _ Ha) as [_ ->]. destruct (Hent _ _ Hb) as [_ ->].
      unfold ranked in Hr. cbn [fst snd] in *. lia.
    + apply sort_sorted; [reflexivity | apply StronglySorted_any].
Qed.

Lemma rankedTop_empty (all top : list string) :
  rankedTop all top -> (top = [] <-> all = []).
Proof.
  intros (ranking & -> & _ & Hmem & _). split.
  - destruct ranking as [|h r]; [|discriminate]. intros _.
    destruct all as [|x all]; [reflexivity|].
    destruct (proj2 (Hmem x) (or_introl eq_refl)).
  - intros ->. destruct ranking as [|h r]; [reflexivity|].
    destruct (proj1 (Hmem h) (or_introl eq_refl)).
Qed.

Lemma rankedTop_leader (all top : list string) (x : string) :
  rankedTop all top -> In x all ->
  (forall y, In y all -> y <> x -> countIn y all < countIn x all) ->
  hd_error top = Some x.
Proof.
  intros (ranking & -> & _ & Hmem & Hsort) Hx Hlead.
  destruct ranking as [|h r]; [destruct (proj2 (Hmem x) Hx)|].
  cbn [firstn hd_error]. f_equal.
  destruct (string_dec h x) as [E | Hne]; [exact E | exfalso].
  inversion Hsort as [|? ? _ Hh]; subst.
  rewrite Forall_forall in Hh.
  destruct (proj2 (Hmem x) Hx) as [E | Hr]; [contradiction|].
  specialize (Hh x Hr).
  specialize (Hlead h (proj1 (Hmem h) (or_introl eq_refl)) Hne). lia.
Qed.

(** X24.  Labels of any kind but the member names of [Object.prototype],
    numerals among them.  The emotions and the themes [aggregate]
    returns are each the first five of a listing of the distinct labels
    in which no label comes before a more frequent one: at most five,
    without repetition, all taken from the notes.  A label more
    frequent than every other comes first. *)
Theorem aggregate_descending (ns : list Note) :
  (forall x, In x (allEmotions ns) -> inheritedName x = false) ->
  (forall x, In x (allThemes ns) -> inheritedName x = false) ->
  let '(topEmotions, topThemes) := aggregate ns in
  rankedTop (allEmotions ns) topEmotions
  /\ rankedTop (allThemes ns) topThemes
  /\ (List.length topEmotions <= 5)%nat /\ (List.length topThemes <= 5)%nat
  /\ (forall x, In x (allEmotions ns) ->
        (forall y, In y (allEmotions ns) -> y <> x ->
                   countIn y (allEmotions ns) < countIn x (allEmotions ns)) ->
        hd_error topEmotions = Some x)
  /\ (forall x, In x (allThemes ns) ->
        (forall y, In y (allThemes ns) -> y <> x ->
                   countIn y (allThemes ns) < countIn x (allThemes ns)) ->
        hd_error topThemes = Some x).
Proof.
  intros _ _. unfold aggregate.
  pose proof (topLabels_rankedTop (allEmotions ns)) as He.
  pose proof (topLabels_rankedTop (allThemes ns)) as Ht.
  split; [exact He|]. split; [exact Ht|].
  split; [|split; [|split]].
  - destruct He as (r & -> & _). apply firstn_le_length.
  - destruct Ht as (r & -> & _). apply firstn_le_length.
  - intros x. now apply rankedTop_leader.
  - intros x. now apply rankedTop_leader.
Qed.

Lemma aggregate_descending_witness :
  let '(topEmotions, topThemes) := aggregate sadThenSeven in
  rankedTop (allEmotions sadThenSeven) topEmotions
  /\ rankedTop (allThemes sadThenSeven) topThemes
  /\ (List.length topEmotions <= 5)%nat /\ (List.length topThemes <= 5)%nat
  /\ (forall x, In x (allEmotions sadThenSeven) ->
        (forall y, In y (allEmotions sadThenSeven) -> y <> x ->
                   countIn y (allEmotions sadThenSeven)
                   < countIn x (allEmotions sadThenSeven)) ->
        hd_error topEmotions = Some x)
  /\ (forall x, In x (allThemes sadThenSeven) ->
        (forall y, In y (allThemes sadThenSeven) -> y <> x ->
                   countIn y (allThemes sadThenSeven)
                   < countIn x (allThemes sadThenSeven)) ->
        hd_error topThemes = Some x).
Proof.
  refine (aggregate_descending sadThenSeven _ _).
  - intros x [<- | [<- | []]]; reflexivity.
  - intros x [].
Defined.

(** ** Placeholders *)

Lemma badges_not_placeholder (class x : string) (rest : list string)
    (placeholder : string) :
  placeholder = noEmotionsHTML \/ placeholder = noThemesHTML ->
  class = "badge"%string \/ class = "badge badge-outline"%string
  \/ class = "badge badge-soft"%string ->
  joinMap (badge class) (x :: rest) <> placeholder.
Proof.
  intros [-> | ->] [-> | [-> | ->]]; cbn [joinMap fold_right];
    unfold badge, noEmotionsHTML, noThemesHTML, dq; cbn [append];
    discriminate.
Qed.

(** X25.  In both revisions, for labels other than the member names of
    [Object.prototype]: the emotions container shows the
    "No emotions detected" placeholder exactly when no note carries an
    emotion, and the themes container its placeholder exactly when no
    note carries a theme.  With no notes at all the first revision
    writes nothing. *)
Theorem renderOverview_placeholders (st : State) :
  (forall x, In x (allEmotions (notes st)) -> inheritedName x = false) ->
  (forall x, In x (allThemes (notes st)) -> inheritedName x = false) ->
  (fst (Part000.renderOverview st) = noEmotionsHTML
   <-> allEmotions (notes st) = [])
  /\ (snd (Part000.renderOverview st) = noThemesHTML
      <-> allThemes (notes st) = [])
  /\ (MainTs.renderOverview st = None <-> notes st = [])
  /\ (forall e t, MainTs.renderOverview st = Some (e, t) ->
        (e = noEmotionsHTML <-> allEmotions (notes st) = [])
        /\ (t = noThemesHTML <-> allThemes (notes st) = [])).
Proof.
  intros _ _.
  assert (Hov : forall ec tc,
             (ec = "badge" \/ ec = "badge badge-outline"
              \/ ec = "badge badge-soft")%string ->
             (tc = "badge" \/ tc = "badge badge-outline"
              \/ tc = "badge badge-soft")%string ->
             (fst (overviewHTML ec tc (notes st)) = noEmotionsHTML
              <-> allEmotions (notes st) = [])
             /\ (snd (overviewHTML ec tc (notes st)) = noThemesHTML
                 <-> allThemes (notes st) = [])).
  { intros ec tc Hec Htc. unfold overviewHTML, aggregate.
    pose proof (rankedTop_empty _ _ (topLabels_rankedTop (allEmotions (notes st))))
      as He.
    pose proof (rankedTop_empty _ _ (topLabels_rankedTop (allThemes (notes st))))
      as Ht.
    cbn [fst snd]. rewrite <- He, <- Ht.
    destruct (topLabels (allEmotions (notes st))) as [|x xs];
      destruct (topLabels (allThemes (notes st))) as [|y ys];
      cbn [List.length fst snd];
      repeat match goal with
             | |- context [0 <? Z.of_nat ?n] =>
                 let b := eval vm_compute in (0 <? Z.of_nat 0) in
                 change (0 <? Z.of_nat 0) with b
             end;
      repeat match goal with
             | |- context [0 <? Z.of_nat (S ?n)] =>
                 replace (0 <? Z.of_nat (S n)) with true
                   by (symmetry; apply Z.ltb_lt; lia)
             end;
      (split; split; intros H; try reflexivity; try discriminate;
       exfalso; revert H; apply badges_not_placeholder; auto). }
  unfold Part000.renderOverview, MainTs.renderOverview.
  destruct (notes st) as [|n ns] eqn:E.
  - cbn [List.length Z.of_nat Z.eqb fst snd allEmotions allThemes flat_map].
    repeat split; try reflexivity; try discriminate.
  - replace (Z.of_nat (List.length (n :: ns)) =? 0) with false
      by (symmetry; apply Z.eqb_neq; cbn [List.length]; lia).
    destruct (Hov "badge badge-soft" "badge badge-soft")%string as [H1 H2];
      auto.
    split; [exact H1|]. split; [exact H2|].
    split; [split; discriminate|].
    intros e t [= <- <-]. apply Hov; auto.
Qed.

Lemma renderOverview_placeholders_witness :
  fst (Part000.renderOverview (mkState "2025-03-03" week sadThenSeven 1 3))
  = noEmotionsHTML
  <-> allEmotions sadThenSeven = [].
Proof.
  refine (proj1 (renderOverview_placeholders
                   (mkState "2025-03-03" week sadThenSeven 1 3) _ _)).
  - intros x [<- | [<- | []]]; reflexivity.
  - intros x [].
Defined.

End Ranking.
(* ================================================================== *)
(** * Views: the first view, the trail's clicks, the dates on cards *)
(* ================================================================== *)

Module Views.
Import ES ESFacts ESCalendar DateFns DateFnsFacts Client ArrayFacts Spec SpecMore.

Lemma Day_startOfDay (t : Z) : Day (startOfDay t) = Day t.
Proof. rewrite startOfDay_eq. apply Day_MakeDate, msPerDay_pos. Qed.

(** The bounds of every scope depend on the day only. *)
Lemma bounds_of_day (x d : Z) :
  Day x = Day d ->
  startOfYear x = startOfYear d /\ endOfYear x = endOfYear d
  /\ startOfMonth x = startOfMonth d /\ endOfMonth x = endOfMonth d
  /\ startOfWeek x 1 = startOfWeek d 1 /\ endOfWeek x 1 = endOfWeek d 1
  /\ startOfDay x = startOfDay d /\ endOfDay x = endOfDay d.
Proof.
  intros E.
  destruct (Navigation.fields_of_Day _ _ E) as (Ey & Em & _).
  destruct (Buckets.same_year_bounds d x Ey) as [-> ->].
  destruct (Buckets.same_month_bounds d x Ey Em) as [-> ->].
  destruct (Buckets.same_day_bounds d x E) as [-> ->].
  pose proof (ScopeResolver.week_contains d) as [_ Hw]. rewrite <- E in Hw.
  destruct (Buckets.same_week_bounds d x Hw) as [-> ->].
  repeat split.
Qed.

Lemma range_of_written_date (t : Z) (sc : Scope) :
  1 <= getFullYear t <= 9999 ->
  getDateRange (iso t) sc
  = match sc with
    | summary | year => mkRange (Some (startOfYear t)) (Some (endOfYear t))
    | month => mkRange (Some (startOfMonth t)) (Some (endOfMonth t))
    | week => mkRange (Some (startOfWeek t 1)) (Some (endOfWeek t 1))
    | day => mkRange (Some (startOfDay t)) (Some (endOfDay t))
    end.
Proof.
  intros Hy.
  rewrite (ScopeResolver.getDateRange_valid _ _ sc (Navigation.parseISO_iso t Hy)).
  destruct (bounds_of_day (startOfDay t) t (Day_startOfDay t))
    as (-> & -> & -> & -> & -> & -> & -> & ->).
  reflexivity.
Qed.

(** X5.  The first view.  The state the page starts with holds today's date
    at scope week, and at every scope the range of that date contains
    the clock reading it was made from (years 1 to 9999). *)
Theorem initialState_contains_now (now : Z) (sc : Scope) :
  1 <= getFullYear now <= 9999 ->
  scope (initialState now) = week
  /\ parseISO (dateISO (initialState now)) = Some (startOfDay now)
  /\ exists a b,
       getDateRange (dateISO (initialState now)) sc = mkRange (Some a) (Some b)
       /\ a <= now <= b.
Proof.
  intros Hy. split; [reflexivity|].
  split; [exact (Navigation.parseISO_iso now Hy)|].
  change (dateISO (initialState now)) with (iso now).
  rewrite (range_of_written_date now sc Hy).
  destruct sc; do 2 eexists; (split; [reflexivity|]).
  - apply ScopeResolver.year_contains.
  - apply ScopeResolver.year_contains.
  - apply ScopeResolver.month_contains.
  - apply ScopeResolver.week_contains.
  - apply ScopeResolver.day_contains.
Qed.

Lemma initialState_contains_now_witness :
  scope (initialState 1741600800000) = week
  /\ parseISO (dateISO (initialState 1741600800000))
     = Some (startOfDay 1741600800000)
  /\ exists a b,
       getDateRange (dateISO (initialState 1741600800000)) month
       = mkRange (Some a) (Some b)
       /\ a <= 1741600800000 <= b.
Proof.
  refine (initialState_contains_now 1741600800000 month _).
  vm_compute. split; discriminate.
Defined.



(** X6.  A click on an element of the trail.  On the element of the current
    scope nothing happens.  On any other element the date, the notes
    and the page stay and the scope becomes that of the element; the
    new range contains the day of the date and, unless the current
    scope is week, the whole of the old range. *)
Theorem clickCrumb_widens (st : State) (d : Z) (newScope : Scope) :
  parseISO (dateISO st) = Some d -> In newScope (crumbScopes st) ->
  exists a b,
    getDateRange (dateISO st) (scope st) = mkRange (Some a) (Some b)
    /\ match clickCrumb newScope st with
       | None => newScope = scope st
       | Some st' =>
           newScope <> scope st
           /\ dateISO st' = dateISO st /\ scope st' = newScope
           /\ notes st' = notes st /\ page st' = page st
           /\ exists a' b',
                getDateRange (dateISO st') (scope st')
                = mkRange (Some a') (Some b')
                /\ a' <= startOfDay d /\ endOfDay d <= b'
                /\ (scope st <> week -> a' <= a /\ b <= b')
       end.
Proof.
  intros E Hin.
  pose proof (Buckets.nested_bounds d) as Hn.
  unfold clickCrumb, crumbScopes in *.
  rewrite (ScopeResolver.getDateRange_valid _ _ (scope st) E).
  destruct (scope st) eqn:Es; cbn in Hin;
    repeat (destruct Hin as [<- | Hin]); try contradiction;
    cbn [scope_eqb negb navigateTo dateISO scope notes page];
    do 2 eexists; (split; [reflexivity|]); try reflexivity;
    (split; [discriminate|]); do 4 (split; [reflexivity|]);
    rewrite (ScopeResolver.getDateRange_valid _ _ _ E);
    do 2 eexists; (split; [reflexivity|]);
    (split; [lia|]); (split; [lia|]); intros Hw;
    try (exfalso; apply Hw; reflexivity); lia.
Qed.

Lemma clickCrumb_widens_witness :
  exists a b,
    getDateRange "2025-03-10" week = mkRange (Some a) (Some b)
    /\ match clickCrumb month (mkState "2025-03-10" week fourNotes 2 3) with
       | None => month = week
       | Some st' =>
           month <> week
           /\ dateISO st' = "2025-03-10"%string /\ scope st' = month
           /\ notes st' = fourNotes /\ page st' = 2
           /\ exists a' b',
                getDateRange (dateISO st') (scope st')
                = mkRange (Some a') (Some b')
                /\ a' <= startOfDay 1741564800000
                /\ endOfDay 1741564800000 <= b'
                /\ (week <> week -> a' <= a /\ b <= b')
       end.
Proof.
  refine (clickCrumb_widens (mkState "2025-03-10" week fourNotes 2 3)
            1741564800000 month eq_refl _).
  right. right. left. reflexivity.
Defined.

(** X15.  The date on a card.  For a creation date written as [yyyy-MM-dd],
    as the save handler writes it, the card shows the day and the
    month of that date without leading zeros, and the year in four
    digits (years 1 to 9999). *)
Theorem formatDisplayDate_written (t : Z) :
  1 <= getFullYear t <= 9999 ->
  formatDisplayDate (format_iso t)
  = Some (decimal (getDate t) ++ "." ++ decimal (getMonth t + 1) ++ "."
          ++ addLeadingZeros (getFullYear t) 4)%string.
Proof.
  intros Hy. unfold formatDisplayDate.
  change (format_iso t) with (iso t).
  rewrite (Navigation.parseISO_iso t Hy). cbn [option_map].
  destruct (Navigation.fields_of_Day _ _ (Day_startOfDay t)) as (Ey & Em & Ed & _).
  unfold format_d_M_yyyy, format_d, format_M, format_yyyy.
  rewrite Ey, Em, Ed.
  replace (0 <? getFullYear t) with true by (symmetry; apply Z.ltb_lt; lia).
  reflexivity.
Qed.

Lemma formatDisplayDate_written_witness :
  formatDisplayDate (format_iso 1741478400000) = Some "9.3.2025"%string.
Proof.
  exact (formatDisplayDate_written 1741478400000
           ltac:(vm_compute; split; discriminate)).
Defined.

(** X14.  The pages tile the list: the cards of pages 1 to the last page, one
    page after the other, are the notes in their order, each once. *)
Theorem renderEntries_pages_tile (st : State) :
  perPage st = 3 ->
  List.concat
    (map (fun p => match renderEntries (goToPage st p) with
                   | Cards pageNotes => pageNotes
                   | NoEntriesFound => []
                   end)
       (oneTo (totalPages st)))
  = notes st.
Proof.
  intros Hpp.
  etransitivity; [|exact (Pagination.pages_tile st Hpp)].
  unfold oneTo. rewrite map_map. f_equal. apply map_ext. intros p.
  unfold renderEntries, goToPage. cbn [notes page perPage]. rewrite Hpp.
  destruct (notes st) as [|n l].
  { unfold slice. now rewrite skipn_nil, firstn_nil. }
  replace (Z.of_nat (List.length (n :: l)) =? 0) with false
    by (symmetry; apply Z.eqb_neq; cbn [List.length]; lia).
  reflexivity.
Qed.

Lemma renderEntries_pages_tile_witness :
  List.concat
    (map (fun p => match renderEntries
                             (goToPage (state (browsing fourNotes 1)) p) with
                   | Cards pageNotes => pageNotes
                   | NoEntriesFound => []
                   end)
       (oneTo (totalPages (state (browsing fourNotes 1)))))
  = fourNotes.
Proof.
  exact (renderEntries_pages_tile (state (browsing fourNotes 1)) eq_refl).
Defined.

End Views.
(* ================================================================== *)
(** * The breadcrumb trail of a written date *)
(* ================================================================== *)

Module Trail.
Import ES ESFacts ESCalendar DateFns DateFnsFacts Client Spec SpecMore.

(** The code's trail is the trail in words, with the labels the code
    formats. *)
Lemma code_trail_in_words (dayPattern : Z -> string) (tz : TimeZone)
    (d : Z) (sc : Scope) :
  breadcrumbs dayPattern tz d sc
  = trail (format_yyyy d) (format_LLLL d)
      ("Week " ++ numberToString (weekOfMonth tz d)) (dayPattern d) sc.
Proof. reflexivity. Qed.

(** What the trail in words holds, whatever the labels. *)
Lemma trail_shape (yl ml wl dl : string) (sc : Scope) :
  exists rest,
    trail yl ml wl dl sc
    = mkCrumb "Summary" summary true :: mkCrumb yl year true :: rest
    /\ (In (mkCrumb ml month true) rest <-> sc = week \/ sc = month \/ sc = day)
    /\ (In (mkCrumb wl week false) rest <-> sc = week)
    /\ (In (mkCrumb dl day false) rest <-> sc = day)
    /\ (forall c, In c rest ->
          c = mkCrumb ml month true \/ c = mkCrumb wl week false
          \/ c = mkCrumb dl day false).
Proof.
  unfold trail.
  destruct sc; cbn [app]; eexists; (split; [reflexivity|]);
    cbn [In]; repeat split; intros;
    repeat match goal with
           | H : _ \/ _ |- _ => destruct H
           | H : False |- _ => destruct H
           end;
    try discriminate; auto.
Qed.

(** ** The labels *)

Lemma ordinalChecked_all : forallb ordinalChecked (oneTo 31) = true.
Proof. vm_compute. reflexivity. Qed.

Lemma ordinalNumber_suffix (dt : Z) :
  1 <= dt <= 31 ->
  ordinalNumber dt = (decimal dt ++ ordinalSuffix dt)%string.
Proof.
  intros H.
  pose proof (proj1 (forallb_forall _ _) ordinalChecked_all dt
                (Navigation.oneTo_In _ _ H)) as C.
  now apply String.eqb_eq.
Qed.

Lemma monthNames_english (m : Z) :
  0 <= m <= 11 ->
  nth (Z.to_nat m) monthNames EmptyString = englishMonth m
  /\ nth (Z.to_nat m) monthAbbreviations EmptyString = shortMonth m.
Proof. intros H. each_month H; split; reflexivity. Qed.

Lemma labels_of_fields (d y m dt : Z) :
  1 <= y <= 9999 -> 0 <= m <= 11 -> 1 <= dt <= 31 ->
  onCalendarDay d y m dt ->
  format_yyyy d = addLeadingZeros y 4
  /\ format_LLLL d = englishMonth m
  /\ format_MMM_do d
     = (shortMonth m ++ " " ++ decimal dt ++ ordinalSuffix dt)%string
  /\ format_d_M_yyyy d
     = (decimal dt ++ "." ++ decimal (m + 1) ++ "."
        ++ addLeadingZeros y 4)%string
  /\ format_iso d = isoText y m dt.
Proof.
  intros Hy Hm Hd (Ey & Em & Ed).
  destruct (monthNames_english m Hm) as [Hl Hs].
  assert (Eyyyy : format_yyyy d = addLeadingZeros y 4).
  { unfold format_yyyy. rewrite Ey.
    now replace (0 <? y) with true by (symmetry; apply Z.ltb_lt; lia). }
  unfold format_LLLL, format_MMM_do, format_MMM, format_do, format_d_M_yyyy,
    format_d, format_M, format_iso, format_MM, format_dd, isoText.
  rewrite Eyyyy, Em, Ed, Hl, Hs, (ordinalNumber_suffix dt Hd).
  repeat split.
Qed.

Lemma yearLabel_digits (y : Z) :
  1 <= y <= 9999 ->
  String.length (addLeadingZeros y 4) = 4%nat
  /\ number 0 (list_ascii_of_string (addLeadingZeros y 4)) = Some y.
Proof.
  intros H. destruct (Navigation.four_digits y H) as (a & b & c & e & -> & E).
  split; [reflexivity | exact E].
Qed.

(** ** The week of the month, on the calendar *)

Lemma weeks_on_calendar (D dt : Z) :
  1 + ((D - ((D + 4) mod 7 + 6) mod 7)
       - (D - (dt - 1) - ((D - (dt - 1) + 4) mod 7 + 6) mod 7)) / 7
  = weekNumber ((((D + 4) mod 7 + 6) mod 7 - (dt - 1)) mod 7) dt.
Proof. unfold weekNumber. zdiv. Qed.

Lemma Day_startOfMonth (d : Z) : Day (startOfMonth d) = Day d - (getDate d - 1).
Proof.
  rewrite startOfMonth_eq, Day_MakeDate by apply msPerDay_pos.
  rewrite <- (MakeDay_fields d).
  rewrite !MakeDay_in_range by apply getMonth_range. lia.
Qed.

Lemma weekOfMonth_on_calendar (tz : TimeZone) (d : Z) :
  tz (startOfWeek d 1) = tz (startOfWeek (startOfMonth d) 1) ->
  weekOfMonth tz d
  = weekNumber ((daysSinceMonday d - (getDate d - 1)) mod 7) (getDate d).
Proof.
  intros Htz. rewrite (Breadcrumbs.weekOfMonth_same_offset tz d Htz).
  change (wholeWeeks d)
    with ((Day (startOfWeek d 1) - Day (startOfWeek (startOfMonth d) 1)) / 7).
  rewrite !Breadcrumbs.Day_startOfWeek, Day_startOfMonth.
  unfold daysSinceMonday, getDay, WeekDay. rewrite Day_startOfMonth.
  apply weeks_on_calendar.
Qed.

(** ** The trail *)

(** C5.  For every calendar date of the years 1 to 9999, written as
    [yyyy-MM-dd] in [state.dateISO], and for every scope, both
    revisions render the trail in words: Summary, then the year; the
    month exactly at the scopes week, month and day; a week-of-month
    crumb exactly at the scope week; a day crumb exactly at the scope
    day; and nothing else.  The labels are those of the date itself:
    the year label is the four digits the date string opens with, the
    month label is the English name of the date's own month, the day
    label is the date's own day ("Jan 1st" in the first revision,
    "1.1.2025" in the second), and the week label is "Week" with the
    number the code computes, which, where the zone offset is the same
    at the two week starts, is the number of the Monday-aligned week of
    the date within its month. *)
Theorem breadcrumbs_trail (tz : TimeZone) (st : State) (y m dt : Z) :
  1 <= y <= 9999 -> 0 <= m <= 11 -> 1 <= dt <= DaysInMonth y m ->
  dateISO st = isoText y m dt ->
  let yearLabel := addLeadingZeros y 4 in
  exists d,
    parseISO (dateISO st) = Some d
    /\ onCalendarDay d y m dt
    /\ (exists rest, dateISO st = (yearLabel ++ rest)%string)
    /\ String.length yearLabel = 4%nat
    /\ number 0 (list_ascii_of_string yearLabel) = Some y
    /\ (let weekLabel :=
          ("Week " ++ numberToString (weekOfMonth tz d))%string in
        MainTs.renderBreadcrumbs tz st
        = Some (renderCrumbs
                  (trail yearLabel (englishMonth m) weekLabel
                     (shortMonth m ++ " " ++ decimal dt ++ ordinalSuffix dt)
                     (scope st)))
        /\ Part000.renderBreadcrumbs tz st
           = Some (renderCrumbs
                     (trail yearLabel (englishMonth m) weekLabel
                        (decimal dt ++ "." ++ decimal (m + 1) ++ "."
                         ++ yearLabel)
                        (scope st))))
    /\ (tz (startOfWeek d 1) = tz (startOfWeek (startOfMonth d) 1) ->
        weekOfMonth tz d
        = weekNumber ((daysSinceMonday d - (dt - 1)) mod 7) dt)
    /\ (forall yl ml wl dl, exists rest,
          trail yl ml wl dl (scope st)
          = mkCrumb "Summary" summary true :: mkCrumb yl year true :: rest
          /\ (In (mkCrumb ml month true) rest
              <-> scope st = week \/ scope st = month \/ scope st = day)
          /\ (In (mkCrumb wl week false) rest <-> scope st = week)
          /\ (In (mkCrumb dl day false) rest <-> scope st = day)
          /\ (forall c, In c rest ->
                c = mkCrumb ml month true \/ c = mkCrumb wl week false
                \/ c = mkCrumb dl day false)).
Proof.
  intros Hy Hm Hd Eiso yearLabel. subst yearLabel.
  pose proof (DaysInMonth_pos y m Hm) as Hdim.
  assert (Hd31 : 1 <= dt <= 31) by lia.
  set (x := MakeDate (MakeDay y m dt) 0).
  assert (Hx : onCalendarDay x y m dt)
    by (apply onCalendarDay_MakeDate; [assumption | assumption | apply msPerDay_pos]).
  destruct (labels_of_fields x y m dt Hy Hm Hd31 Hx) as (_ & _ & _ & _ & Ex).
  destruct (Navigation.written_date_reads_back x y m dt Hy Hx)
    as (d & Hp & Hfields & _).
  unfold iso in Hp. rewrite Ex, <- Eiso in Hp.
  destruct (labels_of_fields d y m dt Hy Hm Hd31 Hfields)
    as (Lyear & Lmonth & Lday1 & Lday2 & _).
  destruct (yearLabel_digits y Hy) as [Hlen Hnum].
  exists d. split; [exact Hp|]. split; [exact Hfields|].
  split; [|split; [exact Hlen|split; [exact Hnum|split; [|split]]]].
  - rewrite Eiso. unfold isoText. eexists. reflexivity.
  - cbv zeta. unfold MainTs.renderBreadcrumbs, Part000.renderBreadcrumbs.
    rewrite !(Breadcrumbs.renderBreadcrumbs_refines _ tz st d Hp).
    rewrite !code_trail_in_words, Lyear, Lmonth, Lday1, Lday2.
    split; reflexivity.
  - intros Htz. rewrite (weekOfMonth_on_calendar tz d Htz).
    destruct Hfields as (_ & _ & ->). reflexivity.
  - intros yl ml wl dl. apply trail_shape.
Qed.

(** On 2025-01-01 at the scope week the trail reads Summary, 2025,
    January, Week 1, although that week begins on 2024-12-30. *)
Lemma breadcrumbs_trail_witness :
  MainTs.renderBreadcrumbs utc (mkState "2025-01-01" week [] 1 3)
  = Some (renderCrumbs (trail "2025" "January" "Week 1" "Jan 1st" week))
  /\ Part000.renderBreadcrumbs utc (mkState "2025-01-01" week [] 1 3)
     = Some (renderCrumbs (trail "2025" "January" "Week 1" "1.1.2025" week))
  /\ iso (startOfWeek 1735689600000 1) = "2024-12-30"%string.
Proof.
  destruct (breadcrumbs_trail utc (mkState "2025-01-01" week [] 1 3) 2025 0 1)
    as (d & Hp & _ & _ & _ & _ & (H1 & H2) & _).
  - lia.
  - lia.
  - vm_compute. split; discriminate.
  - reflexivity.
  - assert (E : d = 1735689600000)
      by (vm_compute in Hp; injection Hp as <-; reflexivity).
    subst d. split; [exact H1|]. split; [exact H2|].
    vm_compute. reflexivity.
Defined.

End Trail.
